(** * OutfitFlowApi/app.py: background removal service

    A shallow embedding of [src/OutfitFlowApi/app.py] and the properties of
    its two POST endpoints.

    The module is glue around four libraries: FastAPI/Starlette (uploads,
    [HTTPException], [Response]), Pillow (decode, convert, resize, paste,
    encode), rembg ([remove]) and [zipfile].  The glue is embedded as it is
    written; the libraries are the fields of the record [Externals].

    Conventions.  A Python [str] is a [string] of its UTF-8 bytes; the
    characters the module looks for (['.'], the digits, ["image/"]) are
    ASCII, so cutting and comparing bytes is cutting and comparing
    characters.  Exceptions are those derived from [Exception], the ones
    the handlers of the module catch.  Calls to [logger] change nothing the
    endpoints return and are left out.  The host is a POSIX system
    ([os.sep] is ['/']) whose clock shows a year from 1980 to 2107, the
    years a ZIP archive can date a member by. *)

From Stdlib Require Import ZArith List String Ascii Bool Lia Arith.
From Stdlib Require Import Strings.Byte DecimalString DecimalNat DecimalZ.
From Stdlib Require Import Floats.SpecFloat.
Import ListNotations.

Open Scope string_scope.
Open Scope Z_scope.

(** ** Python values *)

Definition bytes := list byte.

(** [str.startswith(prefix)] *)
Definition startswith (s prefix_ : string) : bool := String.prefix prefix_ s.

(** [prefix in s] for a one-character needle: ['.' in file.filename] *)
Fixpoint str_in (c : ascii) (s : string) : bool :=
  match s with
  | EmptyString => false
  | String d rest => Ascii.eqb d c || str_in c rest
  end.

(** The cut of [s] around the last occurrence of [sep], when there is one. *)
Fixpoint rpartition (sep : ascii) (s : string) : option (string * string) :=
  match s with
  | EmptyString => None
  | String c rest =>
      match rpartition sep rest with
      | Some (before, after) => Some (String c before, after)
      | None => if Ascii.eqb c sep then Some (EmptyString, rest) else None
      end
  end.

(** [s.rsplit(sep, 1)]: at most one cut, made at the rightmost separator. *)
Definition rsplit1 (sep : ascii) (s : string) : list string :=
  match rpartition sep s with
  | Some (before, after) => [before; after]
  | None => [s]
  end.

(** [chr(0)] *)
Definition NUL : ascii := "000"%char.

(** The double quote character, as a string. *)
Definition dquote : string := String "034"%char EmptyString.

(** [str(n)] for a non-negative integer. *)
Definition str_of_nat (n : nat) : string :=
  NilEmpty.string_of_uint (Nat.to_uint n).

Fixpoint zeros (n : nat) : string :=
  match n with
  | O => EmptyString
  | S k => String "0" (zeros k)
  end.

(** The format specification [{n:03d}]: decimal digits, padded on the left
    with ['0'] up to a width of three. *)
Definition format_03d (n : nat) : string :=
  let digits := str_of_nat n in
  zeros (3 - String.length digits) ++ digits.

(** [name.endswith(suffix)] *)
Definition endswith (name suffix : string) : Prop :=
  exists stem, name = stem ++ suffix.

Definition is_digit (c : ascii) : bool :=
  ((48 <=? nat_of_ascii c) && (nat_of_ascii c <=? 57))%nat.

Fixpoint all_digits (s : string) : bool :=
  match s with
  | EmptyString => true
  | String c rest => is_digit c && all_digits rest
  end.

(** The digits a string starts with. *)
Fixpoint leading_digits (s : string) : string :=
  match s with
  | EmptyString => EmptyString
  | String c rest =>
      if is_digit c then String c (leading_digits rest) else EmptyString
  end.

(** The number a member's name starts with. *)
Definition index_of_name (name : string) : option nat :=
  option_map Nat.of_uint (NilEmpty.uint_of_string (leading_digits name)).

(** ** Unicode *)

(** The code points of a [str], read off its UTF-8 bytes: a byte below 0xC0
    is a character of its own, a byte from 0xC0, 0xE0 or 0xF0 on opens a
    sequence of two, three or four bytes. *)
Fixpoint code_points (s : string) : list N :=
  match s with
  | EmptyString => []
  | String c0 rest =>
      let b0 := N_of_ascii c0 in
      if (b0 <? 192)%N then b0 :: code_points rest
      else
        match rest with
        | EmptyString => [b0]
        | String c1 rest1 =>
            let b1 := N.land (N_of_ascii c1) 63 in
            if (b0 <? 224)%N
            then (N.land b0 31 * 64 + b1)%N :: code_points rest1
            else
              match rest1 with
              | EmptyString => [b0]
              | String c2 rest2 =>
                  let b2 := N.land (N_of_ascii c2) 63 in
                  if (b0 <? 240)%N
                  then (N.land b0 15 * 4096 + b1 * 64 + b2)%N :: code_points rest2
                  else
                    match rest2 with
                    | EmptyString => [b0]
                    | String c3 rest3 =>
                        let b3 := N.land (N_of_ascii c3) 63 in
                        (N.land b0 7 * 262144 + b1 * 4096 + b2 * 64 + b3)%N
                        :: code_points rest3
                    end
              end
        end
  end.

Definition hex_digit (n : N) : ascii :=
  nth (N.to_nat n) (list_ascii_of_string "0123456789abcdef") "0"%char.

(** [n] in [digits] hexadecimal digits. *)
Fixpoint hex (digits : nat) (n : N) : string :=
  match digits with
  | O => EmptyString
  | S k => hex k (n / 16)%N ++ String (hex_digit (n mod 16)%N) EmptyString
  end.

(** A character past U+00FF as Python prints it in a message. *)
Definition escape (cp : N) : string :=
  if (cp <? 65536)%N then "\u" ++ hex 4 cp else "\U" ++ hex 8 cp.

(** How many characters past U+00FF [cps] starts with. *)
Fixpoint run_length (cps : list N) : nat :=
  match cps with
  | [] => O
  | cp :: rest => if (cp <? 256)%N then O else S (run_length rest)
  end.

(** [value.encode("latin-1")] fails at the first character past U+00FF.  The
    message of the [UnicodeEncodeError] names that character and its
    position, or the positions of the run of such characters that starts
    there.  [pos] is the position of the head of [cps]. *)
Fixpoint latin1_error_at (pos : nat) (cps : list N) : option string :=
  match cps with
  | [] => None
  | cp :: rest =>
      if (cp <? 256)%N then latin1_error_at (S pos) rest
      else
        Some (match run_length rest with
              | O => "'latin-1' codec can't encode character '" ++ escape cp
                     ++ "' in position " ++ str_of_nat pos
                     ++ ": ordinal not in range(256)"
              | S more => "'latin-1' codec can't encode characters in position "
                          ++ str_of_nat pos ++ "-" ++ str_of_nat (pos + S more)
                          ++ ": ordinal not in range(256)"
              end)
  end.

(** The message [value.encode("latin-1")] fails with, [None] when the value
    encodes. *)
Definition latin1_error (value : string) : option string :=
  latin1_error_at 0 (code_points value).

(** ** Binary64 arithmetic

    Python's [float] is IEEE 754 binary64; the operations are those of the
    Standard Library's executable specification, rounding to nearest even. *)

Definition float := spec_float.
Definition prec : Z := 53.
Definition emax : Z := 1024.

(** [float(z)]; exact whenever [|z| < 2^53], as image dimensions are. *)
Definition float_of_int (z : Z) : float := binary_normalize prec emax z 0 false.

(** [a / b] on integers, for [b <> 0].  Pillow keeps image dimensions in C
    [int]s, so both operands convert exactly and the quotient is the
    correctly rounded one, as Python's true division gives. *)
Definition truediv (a b : Z) : float :=
  SFdiv prec emax (float_of_int a) (float_of_int b).

(** [n * x] with [n] an integer and [x] a float. *)
Definition int_mul_float (n : Z) (x : float) : float :=
  SFmul prec emax (float_of_int n) x.

(** [int(x)]: truncation toward zero; [inl] carries the message of the
    [OverflowError] or [ValueError] that Python raises otherwise. *)
Definition int_of_float (x : float) : string + Z :=
  match x with
  | S754_zero _ => inr 0
  | S754_finite s m e =>
      inr (cond_Zopp s (match e with
                        | Zneg p => Z.shiftr (Zpos m) (Zpos p)
                        | _ => Z.shiftl (Zpos m) e
                        end))
  | S754_infinity _ => inl "cannot convert float infinity to integer"
  | S754_nan => inl "cannot convert float NaN to integer"
  end.

(** ** Data model *)

(** A Pillow image: colour mode, dimensions and the pixel buffer. *)
Record Image := {
  mode : string;
  width : Z;
  height : Z;
  im : list Z
}.

Definition size (image : Image) : Z * Z := (width image, height image).

(** A Starlette [UploadFile].  [filename] is the file name of the multipart
    part (a part is an upload because it has one); [content_type] is the
    part's Content-Type header, [None] when the part has none; [file] is
    what [read()] returns. *)
Record UploadFile := {
  filename : string;
  content_type : option string;
  file : bytes
}.

(** A [zipfile.ZipFile] opened for writing on a fresh buffer: its members in
    the order they were written. *)
Definition ZipFile := list (string * bytes).

(** The body of a response: JPEG bytes, or the bytes of a ZIP archive, kept
    as the archive they hold. *)
Inductive body :=
| Bytes (content : bytes)
| Zip (members : ZipFile).

Record Response := {
  content : body;
  status_code : Z;
  media_type : string;
  headers : list (string * string)
}.

(** The name [zipfile] keeps a member under: [ZipInfo] ends the name it is
    given at the first NUL. *)
Fixpoint stored_name (arcname : string) : string :=
  match arcname with
  | EmptyString => EmptyString
  | String c rest =>
      if Ascii.eqb c NUL then EmptyString else String c (stored_name rest)
  end.

(** Exceptions.  [Exception msg] is an exception of any class other than
    [HTTPException], with [str(e) = msg]. *)
Inductive exn :=
| HTTPException (status : Z) (detail : string)
| Exception (msg : string).

(** [str(e)]; Starlette prints an [HTTPException] as ["<status>: <detail>"]. *)
Definition str (e : exn) : string :=
  match e with
  | HTTPException status detail =>
      NilEmpty.string_of_int (Z.to_int status) ++ ": " ++ detail
  | Exception msg => msg
  end.

(** The first header value that does not encode as Latin-1, with the
    message of the error. *)
Fixpoint headers_error (hs : list (string * string)) : option string :=
  match hs with
  | [] => None
  | (_, value) :: rest =>
      match latin1_error value with
      | Some msg => Some msg
      | None => headers_error rest
      end
  end.

(** What FastAPI makes of a request: it refuses a request that does not
    bind to the parameters of the handler ([RequestValidationError], status
    422), and otherwise answers with what the handler returns or raises. *)
Inductive served :=
| Unprocessable
| Handled (outcome : exn + Response).

(** ** Configuration (lines 31-33) *)

Definition MAX_IMAGE_WIDTH : Z := 1024.
Definition BACKGROUND_COLOR : Z * Z * Z * Z := (248, 249, 250, 255).
Definition MAX_BATCH_SIZE : nat := 15.

(** ** The libraries

    What the module imports and calls.  A call that raises is [inl msg] with
    [msg] the text of the exception; none of these libraries raises an
    [HTTPException].  Pillow's operations are functions of their arguments.
    [remove] runs the segmentation model, whose state (sessions, the model
    held by the process) is the world [W]: it reads and may change it. *)
Record Externals (W : Type) := {
  (* Image.open(io.BytesIO(image_bytes)) *)
  Image_open : bytes -> string + Image;
  (* image.convert(mode) *)
  convert : Image -> string -> string + Image;
  (* image.resize(size, Image.Resampling.LANCZOS) *)
  resize : Image -> Z * Z -> string + Image;
  (* rembg.remove(image) *)
  remove : Image -> W -> (string + Image) * W;
  (* Image.new(mode, size, color) *)
  Image_new : string -> Z * Z -> Z * Z * Z * Z -> string + Image;
  (* background.paste(im, box, mask): the background after the paste *)
  paste : Image -> Image -> Z * Z -> Image -> string + Image;
  (* image.save(buffered, format=, quality=, optimize=); buffered.getvalue() *)
  save : Image -> string -> Z -> bool -> string + bytes
}.

Arguments Image_open {W}.
Arguments convert {W}.
Arguments resize {W}.
Arguments remove {W}.
Arguments Image_new {W}.
Arguments paste {W}.
Arguments save {W}.

(** ** Effects

    Every call that leaves the module is recorded, in order. *)
Inductive event :=
| EvRead (f : UploadFile)
| EvOpen (image_bytes : bytes)
| EvConvert (image : Image) (target : string)
| EvResize (image : Image) (new_size : Z * Z)
| EvRemove (image : Image)
| EvNew (target : string) (new_size : Z * Z)
| EvPaste (background overlay : Image)
| EvSave (image : Image)
| EvWritestr (arcname : string) (data : bytes).

Record state (W : Type) := {
  world : W;
  trace : list event
}.

Arguments world {W}.
Arguments trace {W}.

(** Computations: they read and change the state, and end in a value or in
    a raised exception. *)
Definition M (W A : Type) : Type := state W -> (exn + A) * state W.

Definition ret {W A} (a : A) : M W A := fun s => (inr a, s).

Definition bind {W A B} (m : M W A) (k : A -> M W B) : M W B :=
  fun s =>
    match m s with
    | (inl e, s') => (inl e, s')
    | (inr a, s') => k a s'
    end.

Definition raise {W A} (e : exn) : M W A := fun s => (inl e, s).

(** [try: body  except Exception as e: handler e] *)
Definition try_except {W A} (body : M W A) (handler : exn -> M W A) : M W A :=
  fun s =>
    match body s with
    | (inl e, s') => handler e s'
    | (inr a, s') => (inr a, s')
    end.

Declare Scope py_scope.
Delimit Scope py_scope with py.
Notation "x <- m ;; k" := (bind m (fun x => k))
  (at level 61, m at next level, right associativity) : py_scope.
Notation "m ;;; k" := (bind m (fun _ => k))
  (at level 61, right associativity) : py_scope.

Definition record {W} (ev : event) (s : state W) : state W :=
  {| world := world s; trace := trace s ++ [ev] |}.

(** A call to one of Pillow's functions. *)
Definition call {W A} (ev : event) (r : string + A) : M W A :=
  fun s =>
    (match r with inl msg => inl (Exception msg) | inr a => inr a end,
     record ev s).

(** ** The program *)

Section Program.

Context {W : Type} (E : Externals W).

Local Open Scope py_scope.

(** [remove(input_image)] *)
Definition call_remove (image : Image) : M W Image :=
  fun s =>
    let (r, w) := remove E image (world s) in
    (match r with inl msg => inl (Exception msg) | inr a => inr a end,
     {| world := w; trace := trace s ++ [EvRemove image] |}).

(** [await file.read()] *)
Definition read (f : UploadFile) : M W bytes :=
  fun s => (inr (file f), record (EvRead f) s).

(** [zip_file.writestr(zip_filename, processed_bytes)].  The member is kept
    under [stored_name arcname].  [writestr] looks at the last character of
    that name, an [IndexError] when there is none.  The header of the member
    holds the length of the name, in bytes, in 16 bits: for a longer name
    [struct.pack] raises before anything is written.  When [writestr] raises
    the archive stays as it was. *)
Definition writestr (zip_file : ZipFile) (arcname : string) (data : bytes)
  : M W ZipFile :=
  fun s =>
    let name := stored_name arcname in
    (match name with
     | EmptyString => inl (Exception "string index out of range")
     | String _ _ =>
         if Z.of_nat (String.length name) <=? 65535
         then inr (zip_file ++ [(name, data)])%list
         else inl (Exception "ushort format requires 0 <= number <= 65535")
     end,
     record (EvWritestr arcname data) s).

(** Starlette's [Response(content=, media_type=, headers=)], of status 200.
    [init_headers] encodes the value of every header as Latin-1, and the
    [UnicodeEncodeError] of a value that does not encode leaves the
    constructor.  (The header names and media types of the module are ASCII
    constants, which encode.) *)
Definition Response_init (body_ : body) (mime : string)
  (hs : list (string * string)) : M W Response :=
  match headers_error hs with
  | Some msg => raise (Exception msg)
  | None => ret {| content := body_;
                   status_code := 200;
                   media_type := mime;
                   headers := hs |}
  end.

(** [file.content_type.startswith('image/')]: an [AttributeError] when the
    part carried no content type. *)
Definition content_type_startswith (f : UploadFile) (prefix_ : string) : M W bool :=
  match content_type f with
  | Some ct => ret (startswith ct prefix_)
  | None => raise (Exception "'NoneType' object has no attribute 'startswith'")
  end.

(** Lines 39-40: [ratio = MAX_IMAGE_WIDTH / image.width] and
    [new_height = int(image.height * ratio)]. *)
Definition new_height_of (image : Image) : string + Z :=
  let ratio := truediv MAX_IMAGE_WIDTH (width image) in
  int_of_float (int_mul_float (height image) ratio).

(** Lines 36-43. *)
Definition optimize_image (image : Image) : M W Image :=
  if MAX_IMAGE_WIDTH <? width image then
    match new_height_of image with
    | inl msg => raise (Exception msg)
    | inr new_height =>
        call (EvResize image (MAX_IMAGE_WIDTH, new_height))
             (resize E image (MAX_IMAGE_WIDTH, new_height))
    end
  else ret image.

(** [input_image.mode in ('RGBA', 'LA', 'P')] *)
Definition mode_in (m : string) (modes : list string) : bool :=
  existsb (String.eqb m) modes.

(** Lines 56-59: the colour mode is normalised. *)
Definition normalize (input_image : Image) : M W Image :=
  if mode_in (mode input_image) ["RGBA"; "LA"; "P"] then
    call (EvConvert input_image "RGBA") (convert E input_image "RGBA")
  else
    call (EvConvert input_image "RGB") (convert E input_image "RGB").

(** Lines 53-81, the body of the [try]. *)
Definition process_image_body (image_bytes : bytes) : M W bytes :=
  input_image <- call (EvOpen image_bytes) (Image_open E image_bytes) ;;
  input_image <- normalize input_image ;;
  input_image <- optimize_image input_image ;;
  output_image <- call_remove input_image ;;
  background <- call (EvNew "RGBA" (size output_image))
                     (Image_new E "RGBA" (size output_image) BACKGROUND_COLOR) ;;
  background <- call (EvPaste background output_image)
                     (paste E background output_image (0, 0) output_image) ;;
  final_image <- call (EvConvert background "RGB") (convert E background "RGB") ;;
  img_bytes <- call (EvSave final_image) (save E final_image "JPEG" 90 true) ;;
  ret img_bytes.

(** Lines 46-85. *)
Definition process_image (image_bytes : bytes) : M W bytes :=
  try_except (process_image_body image_bytes)
    (fun e => raise (HTTPException 500 ("Error procesando imagen: " ++ str e))).

(** Lines 139-143 and 215-219:
    [except HTTPException as he: raise he]
    [except Exception as e: raise HTTPException(status_code=500, detail=str(e))] *)
Definition endpoint_handler {A} (e : exn) : M W A :=
  match e with
  | HTTPException _ _ => raise e
  | Exception _ => raise (HTTPException 500 (str e))
  end.

(** Lines 107-143. *)
Definition remove_background_single (f : UploadFile) : M W Response :=
  try_except
    (is_image <- content_type_startswith f "image/" ;;
     (if negb is_image
      then raise (HTTPException 400 "El archivo debe ser una imagen")
      else ret tt) ;;;
     image_bytes <- read f ;;
     processed_bytes <- process_image image_bytes ;;
     Response_init (Bytes processed_bytes) "image/jpeg"
       [("Content-Disposition",
         "attachment; filename=" ++ dquote ++ "processed_"
         ++ filename f ++ dquote)])
    endpoint_handler.

(** Lines 191-192. *)
Definition base_name_of (name : string) : string :=
  if str_in "." name then nth 0 (rsplit1 "." name) EmptyString else name.

Definition zip_filename_of (idx : nat) (name : string) : string :=
  format_03d idx ++ "_" ++ base_name_of name ++ ".jpg".

(** Lines 177-198: one turn of the loop.  [continue] leaves the archive as
    it is; [writestr] is the last statement of the [try] and writes nothing
    when it raises, so the archive the handler sees is the one the turn
    started with. *)
Definition batch_item (idx : nat) (f : UploadFile) (zip_file : ZipFile)
  : M W ZipFile :=
  try_except
    (is_image <- content_type_startswith f "image/" ;;
     if negb is_image then ret zip_file
     else
       image_bytes <- read f ;;
       processed_bytes <- process_image image_bytes ;;
       let base_name := base_name_of (filename f) in
       let zip_filename := format_03d idx ++ "_" ++ base_name ++ ".jpg" in
       writestr zip_file zip_filename processed_bytes)
    (fun _ => ret zip_file).

(** Line 176: [for idx, file in enumerate(files)], from index [idx] on. *)
Fixpoint batch_loop (idx : nat) (files : list UploadFile) (zip_file : ZipFile)
  : M W ZipFile :=
  match files with
  | [] => ret zip_file
  | f :: rest =>
      zip_file <- batch_item idx f zip_file ;;
      batch_loop (S idx) rest zip_file
  end.

(** Lines 160-167: the size of the batch is checked. *)
Definition validate_batch (files : list UploadFile) : M W unit :=
  (if (MAX_BATCH_SIZE <? List.length files)%nat
   then raise (HTTPException 400
                 ("Máximo " ++ str_of_nat MAX_BATCH_SIZE
                  ++ " imágenes por lote. Recibidas: "
                  ++ str_of_nat (List.length files)))
   else ret tt) ;;;
  (if (List.length files =? 0)%nat
   then raise (HTTPException 400 "No se recibieron imágenes")
   else ret tt).

(** Lines 146-219. *)
Definition remove_background_batch (files : list UploadFile) : M W Response :=
  try_except
    (validate_batch files ;;;
     zip_file <- batch_loop 0 files [] ;;
     Response_init (Zip zip_file) "application/zip"
       [("Content-Disposition",
         "attachment; filename=" ++ dquote
         ++ "processed_garments.zip" ++ dquote)])
    endpoint_handler.

(** Line 147, [files: List[UploadFile] = File(...)]: the parameter is
    required.  FastAPI calls the handler with the file parts of the request
    that are named [files], when there is one at least; a request with none
    is answered with 422 and the handler is not called. *)
Definition route_remove_background_batch (parts : list UploadFile)
  : state W -> served * state W :=
  fun s =>
    match parts with
    | [] => (Unprocessable, s)
    | _ :: _ => let (outcome, s') := remove_background_batch parts s in
                (Handled outcome, s')
    end.

End Program.

(** ** A stand-in for the libraries

    A small executable instance of [Externals], on which the program runs on
    concrete inputs.  Its decoder reads the dimensions from the first two
    bytes and rejects anything shorter; its resampler refuses empty sizes
    as Pillow's does; its removal model counts its calls in the world. *)
Module Stub.

Definition N_of_byte (b : byte) : Z := Z.of_N (Byte.to_N b).

Definition byte_of_Z (z : Z) : byte :=
  match Byte.of_N (Z.to_N (z mod 256)) with
  | Some b => b
  | None => x00
  end.

Definition stub_open (b : bytes) : string + Image :=
  match b with
  | w :: h :: pixels =>
      inr {| mode := "RGB"; width := N_of_byte w; height := N_of_byte h;
             im := map N_of_byte pixels |}
  | _ => inl "cannot identify image file"
  end.

Definition stub_convert (image : Image) (target : string) : string + Image :=
  inr {| mode := target; width := width image; height := height image;
         im := im image |}.

Definition stub_resize (image : Image) (new_size : Z * Z) : string + Image :=
  if (fst new_size <? 1) || (snd new_size <? 1)
  then inl "height and width must be > 0"
  else inr {| mode := mode image; width := fst new_size;
              height := snd new_size; im := im image |}.

Definition stub_remove (image : Image) (calls : nat) : (string + Image) * nat :=
  (inr {| mode := "RGBA"; width := width image; height := height image;
          im := im image |}, S calls).

Definition stub_new (target : string) (new_size : Z * Z) (color : Z * Z * Z * Z)
  : string + Image :=
  inr {| mode := target; width := fst new_size; height := snd new_size;
         im := [] |}.

Definition stub_paste (background overlay : Image) (box : Z * Z) (mask : Image)
  : string + Image :=
  inr {| mode := mode background; width := width background;
         height := height background; im := im overlay |}.

Definition stub_save (image : Image) (format : string) (quality : Z)
  (optimize : bool) : string + bytes :=
  inr (byte_of_Z (width image) :: byte_of_Z (height image)
       :: map byte_of_Z (im image)).

Definition stub : Externals nat := {|
  Image_open := stub_open;
  convert := stub_convert;
  resize := stub_resize;
  remove := stub_remove;
  Image_new := stub_new;
  paste := stub_paste;
  save := stub_save
|}.

(** A removal model whose answer depends on how often it was called. *)
Definition moody_remove (image : Image) (calls : nat) : (string + Image) * nat :=
  (inr {| mode := "RGBA"; width := width image; height := height image;
          im := Z.of_nat calls :: im image |}, S calls).

Definition moody : Externals nat := {|
  Image_open := stub_open;
  convert := stub_convert;
  resize := stub_resize;
  remove := moody_remove;
  Image_new := stub_new;
  paste := stub_paste;
  save := stub_save
|}.

Definition start : state nat := {| world := O; trace := [] |}.

Definition upload (name : string) (ct : option string) (data : bytes) : UploadFile :=
  {| filename := name; content_type := ct; file := data |}.

Definition photo : UploadFile := upload "shirt.png" (Some "image/png") [x04; x03; x07].
Definition notes : UploadFile := upload "notes.txt" (Some "text/plain") [x68; x69].
Definition broken : UploadFile := upload "broken.jpg" (Some "image/jpeg") [].
Definition untyped : UploadFile := upload "raw" None [x04; x03; x07].

(** Uploads with unusual file names: a NUL in the name, a name of one
    Chinese character, a name of 65600 letters. *)
Definition cut : UploadFile :=
  upload ("a" ++ String NUL "b.png") (Some "image/png") [x04; x03; x07].
Definition hanzi : UploadFile := upload "中.png" (Some "image/png") [x04; x03; x07].
Definition lengthy : UploadFile :=
  upload (String.concat "" (repeat "a" (64 * 1025)) ++ ".png") (Some "image/png")
         [x04; x03; x07].

(** The state and the archive after the loop has gone through [photo] alone. *)
Definition after_photo : state nat :=
  Eval vm_compute in snd (batch_loop stub 0 [photo] [] start).

Definition zip_photo : ZipFile := [("000_shirt.jpg", [x04; x03; x07])].

(** The state after [notes] has been passed over and [photo] read and
    processed. *)
Definition after_notes_photo : state nat :=
  Eval vm_compute in
    snd (process_image stub (file photo) (record (EvRead photo) start)).

End Stub.

(** ** The six steps

    The pipeline of [process_image] step by step: decode, normalise, resize,
    remove the background, composite, encode.  Each predicate says that the
    pipeline got through a step, with what image and in what state. *)
Section Steps.

Context {W : Type} (E : Externals W).

Local Open Scope py_scope.

(** Line 53. *)
Definition decode (image_bytes : bytes) : M W Image :=
  call (EvOpen image_bytes) (Image_open E image_bytes).

(** Lines 69-70. *)
Definition composite (output_image : Image) : M W Image :=
  background <- call (EvNew "RGBA" (size output_image))
                     (Image_new E "RGBA" (size output_image) BACKGROUND_COLOR) ;;
  call (EvPaste background output_image)
       (paste E background output_image (0, 0) output_image).

(** Lines 73-78. *)
Definition encode (background : Image) : M W bytes :=
  final_image <- call (EvConvert background "RGB") (convert E background "RGB") ;;
  call (EvSave final_image) (save E final_image "JPEG" 90 true).

Definition decoded (b : bytes) (s : state W) (i : Image) (s' : state W) : Prop :=
  decode b s = (inr i, s').

Definition normalized (b : bytes) (s : state W) (i : Image) (s' : state W) : Prop :=
  exists i0 s0, decoded b s i0 s0 /\ normalize E i0 s0 = (inr i, s').

Definition resized (b : bytes) (s : state W) (i : Image) (s' : state W) : Prop :=
  exists i0 s0, normalized b s i0 s0 /\ optimize_image E i0 s0 = (inr i, s').

Definition removed (b : bytes) (s : state W) (i : Image) (s' : state W) : Prop :=
  exists i0 s0, resized b s i0 s0 /\ call_remove E i0 s0 = (inr i, s').

Definition composited (b : bytes) (s : state W) (i : Image) (s' : state W) : Prop :=
  exists i0 s0, removed b s i0 s0 /\ composite i0 s0 = (inr i, s').

Definition encoded (b : bytes) (s : state W) (out : bytes) (s' : state W) : Prop :=
  exists i0 s0, composited b s i0 s0 /\ encode i0 s0 = (inr out, s').

(** One of the six steps raises [e], the steps before it having succeeded. *)
Inductive step_raises (b : bytes) (s : state W) (e : exn) (s' : state W) : Prop :=
| raises_decode :
    decode b s = (inl e, s') -> step_raises b s e s'
| raises_normalize i0 s0 :
    decoded b s i0 s0 -> normalize E i0 s0 = (inl e, s') -> step_raises b s e s'
| raises_resize i0 s0 :
    normalized b s i0 s0 -> optimize_image E i0 s0 = (inl e, s') -> step_raises b s e s'
| raises_removal i0 s0 :
    resized b s i0 s0 -> call_remove E i0 s0 = (inl e, s') -> step_raises b s e s'
| raises_composite i0 s0 :
    removed b s i0 s0 -> composite i0 s0 = (inl e, s') -> step_raises b s e s'
| raises_encode i0 s0 :
    composited b s i0 s0 -> encode i0 s0 = (inl e, s') -> step_raises b s e s'.

End Steps.

(** ** Notions used in the statements *)

(** The declared content type is an image type. *)
Definition declares_image (f : UploadFile) : bool :=
  match content_type f with
  | Some ct => startswith ct "image/"
  | None => false
  end.

(** The uploaded bytes are an image: Pillow can open them. *)
Definition is_image_data {W} (E : Externals W) (f : UploadFile) : Prop :=
  exists image, Image_open E (file f) = inr image.

(** The status FastAPI answers with: the response's own, that of an
    [HTTPException], and 500 for any other exception that escapes. *)
Definition http_status (r : exn + Response) : Z :=
  match r with
  | inr response => status_code response
  | inl (HTTPException status _) => status
  | inl (Exception _) => 500
  end.

(** [a / b] rounded to the nearest integer, ties to even: Python's [round]. *)
Definition round_div (a b : Z) : Z :=
  let q := a / b in
  let r := a mod b in
  if 2 * r <? b then q
  else if b <? 2 * r then q + 1
  else if Z.even q then q else q + 1.

(** The height after resizing in the words of the specification:
    round(original_height * 1024 / original_width). *)
Definition rounded_height (image : Image) : Z :=
  round_div (height image * 1024) (width image).

(** Pillow's resampler returns an image of the size it was asked for. *)
Definition resize_exact {W} (E : Externals W) : Prop :=
  forall image new_size image',
    resize E image new_size = inr image' -> size image' = new_size.

(** Pillow's colour modes, standard and of limited support, and among them
    those with an alpha channel ([Image.has_transparency_data]) and those
    with a palette. *)
Definition pillow_modes : list string :=
  ["1"; "L"; "P"; "RGB"; "RGBA"; "CMYK"; "YCbCr"; "LAB"; "HSV"; "I"; "F";
   "LA"; "PA"; "RGBX"; "RGBa"; "La"; "I;16"; "I;16L"; "I;16B"; "I;16N"].

Definition has_alpha (m : string) : bool :=
  mode_in m ["LA"; "La"; "PA"; "RGBA"; "RGBa"].

Definition has_palette (m : string) : bool :=
  mode_in m ["P"; "PA"].

(** The removal model answers alike whatever its state. *)
Definition deterministic_removal {W} (E : Externals W) : Prop :=
  forall image w1 w2, fst (remove E image w1) = fst (remove E image w2).

(** The outcome of a computation does not depend on the state it starts in. *)
Definition stateless {W A} (m : M W A) : Prop :=
  forall s1 s2, fst (m s1) = fst (m s2).

(** [writestr] takes the name: what is kept of it is not empty and fits the
    header of a member. *)
Definition fits (arcname : string) : bool :=
  match stored_name arcname with
  | EmptyString => false
  | String _ _ => Z.of_nat (String.length (stored_name arcname)) <=? 65535
  end.

(** What a call of [writestr] leaves in the archive: the member, under the
    name it is kept under, or nothing when the call raises. *)
Definition stored (arcname : string) (data : bytes) : ZipFile :=
  if fits arcname then [(stored_name arcname, data)] else [].

(** What the calls of [writestr] in a trace leave in the archive. *)
Definition archive_of (written : ZipFile) : ZipFile :=
  flat_map (fun member => stored (fst member) (snd member)) written.

(** [members] are made from [files], numbered from [idx] on: each file gives
    one member, kept under the name made from its own position, or none. *)
Inductive members_from : nat -> list UploadFile -> ZipFile -> Prop :=
| members_done idx : members_from idx [] []
| members_skip idx f rest members :
    members_from (S idx) rest members ->
    members_from idx (f :: rest) members
| members_keep idx f rest data members :
    members_from (S idx) rest members ->
    members_from idx (f :: rest)
      ((stored_name (zip_filename_of idx (filename f)), data) :: members).

(** The value of the Content-Disposition header of the single endpoint
    (line 135). *)
Definition content_disposition (f : UploadFile) : string :=
  "attachment; filename=" ++ dquote ++ "processed_" ++ filename f ++ dquote.

(** The status a request is answered with. *)
Definition served_status (r : served) : Z :=
  match r with
  | Unprocessable => 422
  | Handled outcome => http_status outcome
  end.

(** The batch loop leaves an item out: it declares no image type, or its
    processing raises in the state the loop reaches it in. *)
Definition left_out {W} (E : Externals W) (f : UploadFile) (s : state W) : Prop :=
  declares_image f = false
  \/ exists e s', process_image E (file f) (record (EvRead f) s) = (inl e, s').

(** ** The GET handlers and the routes

    Lines 88-104, and the decorators of the four handlers. *)

(** The JSON values the GET handlers return. *)
#[warnings="-register-all"]
Inductive json :=
| JString (s : string)
| JObject (fields : list (string * json)).

(** [j[key]] on an object. *)
Definition json_get (key : string) (j : json) : option json :=
  match j with
  | JObject fields =>
      option_map snd (find (fun kv => String.eqb (fst kv) key) fields)
  | JString _ => None
  end.

(** Lines 88-98. *)
Definition root {W} : M W json :=
  ret (JObject
         [("message", JString "Virtual Wardrobe API - Background Removal Service");
          ("endpoints",
           JObject [("single", JString "/remove-background");
                    ("batch", JString "/remove-background-batch")]);
          ("status", JString "online")]).

(** Lines 101-104. *)
Definition health_check {W} : M W json :=
  ret (JObject [("status", JString "healthy")]).

Inductive http_method := GET | POST.

(** The routes the decorators register (lines 88, 101, 107 and 146), with
    the name of the handler. *)
Definition routes : list (http_method * string * string) :=
  [(GET, "/", "root");
   (GET, "/health", "health_check");
   (POST, "/remove-background", "remove_background_single");
   (POST, "/remove-background-batch", "remove_background_batch")].

(** The paths a discovery payload lists under ["endpoints"]. *)
Definition advertised (payload : json) : list string :=
  match json_get "endpoints" payload with
  | Some (JObject fields) =>
      flat_map (fun kv => match snd kv with
                          | JString path => [path]
                          | JObject _ => []
                          end) fields
  | _ => []
  end.

(** ** Reading a trace *)

(** The uploads read, in the order they were read. *)
Definition reads_of (evs : list event) : list UploadFile :=
  flat_map (fun ev => match ev with EvRead f => [f] | _ => [] end) evs.

(** The images handed to the removal model, in order. *)
Definition removals_of (evs : list event) : list Image :=
  flat_map (fun ev => match ev with EvRemove image => [image] | _ => [] end) evs.

(** The members handed to [writestr], in order. *)
Definition writes_of (evs : list event) : ZipFile :=
  flat_map (fun ev => match ev with
                      | EvWritestr arcname data => [(arcname, data)]
                      | _ => []
                      end) evs.

(** What Pillow and rembg keep of the dimensions of an image: a conversion
    keeps the size and gives the mode asked for, the resampler and
    [Image.new] give the size asked for, the removal model and [paste] keep
    the size of the image they work on. *)
Record keeps_dimensions {W} (E : Externals W) : Prop := {
  convert_keeps : forall image target image',
    convert E image target = inr image' ->
    size image' = size image /\ mode image' = target;
  resize_gives : resize_exact E;
  remove_keeps : forall image w image' w',
    remove E image w = (inr image', w') -> size image' = size image;
  new_gives : forall target new_size color image',
    Image_new E target new_size color = inr image' -> size image' = new_size;
  paste_keeps : forall background overlay box mask background',
    paste E background overlay box mask = inr background' ->
    size background' = size background
}.

(** [enumerate(files)], counting from [idx]. *)
Fixpoint enumerate_from (idx : nat) (files : list UploadFile)
  : list (nat * UploadFile) :=
  match files with
  | [] => []
  | f :: rest => (idx, f) :: enumerate_from (S idx) rest
  end.

(** What one turn of the batch loop, on the file [f] at position [idx],
    leaves in the trace: nothing when [f] declares no image type; otherwise
    the reading of [f], at most one run of the removal model and at most one
    call of [writestr], under the name made from [idx]. *)
Definition turn (turn_of : nat * UploadFile) (evs : list event) : Prop :=
  let (idx, f) := turn_of in
  if declares_image f
  then reads_of evs = [f]
       /\ (List.length (removals_of evs) <= 1)%nat
       /\ (writes_of evs = []
           \/ exists data,
               writes_of evs = [(zip_filename_of idx (filename f), data)])
  else evs = [].

(** From [s] to [s'] the model's state is untouched and no upload is read,
    no member written and no image handed to the removal model. *)
Definition quiet {W} (s s' : state W) : Prop :=
  world s' = world s
  /\ exists evs, trace s' = (trace s ++ evs)%list
                 /\ reads_of evs = [] /\ writes_of evs = [] /\ removals_of evs = [].

(** * Properties *)

(** ** Strings *)

Lemma rpartition_none sep s :
  rpartition sep s = None <-> str_in sep s = false.
Proof.
  induction s as [|c rest IH]; simpl.
  - tauto.
  - destruct (rpartition sep rest) as [[before after]|].
    + split; [discriminate|].
      intros H. apply orb_false_iff in H. destruct H as [_ H].
      apply IH in H. discriminate.
    + destruct IH as [IH _]. rewrite (IH eq_refl), orb_false_r.
      destruct (Ascii.eqb c sep); split; congruence.
Qed.

(** Cutting at the rightmost separator: what follows it holds none. *)
Lemma rpartition_app sep stem ext :
  str_in sep ext = false ->
  rpartition sep (stem ++ String sep ext) = Some (stem, ext).
Proof.
  intros Hext. induction stem as [|c stem IH]; simpl.
  - apply rpartition_none in Hext. rewrite Hext, Ascii.eqb_refl. reflexivity.
  - rewrite IH. reflexivity.
Qed.

Lemma str_in_app sep a b : str_in sep (a ++ b) = str_in sep a || str_in sep b.
Proof.
  induction a as [|c a IH]; simpl; [reflexivity|].
  rewrite IH, orb_assoc. reflexivity.
Qed.

(** The base name is the file name without its last extension. *)
Lemma base_name_of_ext stem ext :
  str_in "." ext = false ->
  base_name_of (stem ++ String "." ext) = stem.
Proof.
  intros Hext. unfold base_name_of, rsplit1.
  rewrite str_in_app. simpl. rewrite orb_true_r.
  rewrite (rpartition_app _ _ _ Hext). reflexivity.
Qed.

Lemma base_name_of_plain name :
  str_in "." name = false -> base_name_of name = name.
Proof. intros H. unfold base_name_of. rewrite H. reflexivity. Qed.

(** *** The index printed in front of a member's name *)

Lemma all_digits_app a b :
  all_digits (a ++ b) = all_digits a && all_digits b.
Proof.
  induction a as [|c a IH]; simpl; [reflexivity|].
  rewrite IH, andb_assoc. reflexivity.
Qed.

Lemma all_digits_string_of_uint d :
  all_digits (NilEmpty.string_of_uint d) = true.
Proof. induction d; simpl; auto. Qed.

Lemma all_digits_zeros k : all_digits (zeros k) = true.
Proof. induction k; simpl; auto. Qed.

Lemma all_digits_format_03d n : all_digits (format_03d n) = true.
Proof.
  unfold format_03d, str_of_nat.
  rewrite all_digits_app, all_digits_zeros, all_digits_string_of_uint.
  reflexivity.
Qed.

Lemma leading_digits_app a c rest :
  all_digits a = true -> is_digit c = false ->
  leading_digits (a ++ String c rest) = a.
Proof.
  intros Ha Hc. induction a as [|d a IH]; simpl in *.
  - rewrite Hc. reflexivity.
  - apply andb_true_iff in Ha. destruct Ha as [Hd Ha].
    rewrite Hd, (IH Ha). reflexivity.
Qed.

Lemma of_uint_zeros k s d :
  NilEmpty.uint_of_string s = Some d ->
  exists d', NilEmpty.uint_of_string (zeros k ++ s) = Some d'
             /\ Nat.of_uint d' = Nat.of_uint d.
Proof.
  intros Hs. induction k as [|k [d' [Hd' Hv]]]; simpl.
  - exists d. auto.
  - exists (Decimal.D0 d'). rewrite Hd'. split; [reflexivity|exact Hv].
Qed.

(** Reading back the number printed by [{n:03d}]. *)
Lemma of_uint_format_03d n :
  option_map Nat.of_uint (NilEmpty.uint_of_string (format_03d n)) = Some n.
Proof.
  unfold format_03d, str_of_nat.
  destruct (of_uint_zeros (3 - String.length (NilEmpty.string_of_uint (Nat.to_uint n)))
              _ _ (NilEmpty.usu (Nat.to_uint n))) as [d' [Hd' Hv]].
  rewrite Hd'. simpl. rewrite Hv, DecimalNat.Unsigned.of_to. reflexivity.
Qed.

Lemma format_03d_inj n m : format_03d n = format_03d m -> n = m.
Proof.
  intros H. generalize (of_uint_format_03d n). rewrite H, of_uint_format_03d.
  congruence.
Qed.

Lemma index_of_zip_filename idx name :
  index_of_name (zip_filename_of idx name) = Some idx.
Proof.
  unfold index_of_name, zip_filename_of.
  change (format_03d idx ++ "_" ++ base_name_of name ++ ".jpg")
    with (format_03d idx ++ String "_" (base_name_of name ++ ".jpg")).
  rewrite leading_digits_app by (auto using all_digits_format_03d).
  apply of_uint_format_03d.
Qed.

(** Names made for different positions differ, whatever the file names. *)
Lemma zip_filename_of_inj idx idx' name name' :
  zip_filename_of idx name = zip_filename_of idx' name' -> idx = idx'.
Proof.
  intros H. generalize (index_of_zip_filename idx name).
  rewrite H, index_of_zip_filename. congruence.
Qed.

Lemma append_assoc (a b c : string) : (a ++ b) ++ c = a ++ (b ++ c).
Proof. induction a as [|x a IH]; simpl; [reflexivity|]. rewrite IH. reflexivity. Qed.

Lemma zip_filename_of_jpg idx name : endswith (zip_filename_of idx name) ".jpg".
Proof.
  exists (format_03d idx ++ "_" ++ base_name_of name).
  unfold zip_filename_of. rewrite !append_assoc. reflexivity.
Qed.

(** *** Names as the archive keeps them *)

Lemma stored_name_app a b :
  str_in NUL a = false -> stored_name (a ++ b) = a ++ stored_name b.
Proof.
  induction a as [|c a IH]; simpl; [reflexivity|].
  intros H. apply orb_false_iff in H. destruct H as [Hc Ha].
  rewrite Hc, (IH Ha). reflexivity.
Qed.

Lemma stored_name_clean a : str_in NUL a = false -> stored_name a = a.
Proof.
  induction a as [|c a IH]; simpl; [reflexivity|].
  intros H. apply orb_false_iff in H. destruct H as [Hc Ha].
  rewrite Hc, (IH Ha). reflexivity.
Qed.

(** What is kept of a name is what comes before its first NUL. *)
Lemma stored_name_cut a b : str_in NUL a = false ->
  stored_name (a ++ String NUL b) = a.
Proof.
  intros Ha. rewrite (stored_name_app _ _ Ha). simpl. clear Ha.
  induction a; simpl; congruence.
Qed.

Lemma stored_name_no_NUL a : str_in NUL (stored_name a) = false.
Proof.
  induction a as [|c a IH]; simpl; [reflexivity|].
  destruct (Ascii.eqb c NUL) eqn:Hc; simpl; [reflexivity|].
  rewrite Hc, IH. reflexivity.
Qed.

Lemma stored_name_length a : (String.length (stored_name a) <= String.length a)%nat.
Proof.
  induction a as [|c a IH]; simpl; [lia|].
  destruct (Ascii.eqb c NUL); simpl; lia.
Qed.

Lemma digits_hold_no_NUL a : all_digits a = true -> str_in NUL a = false.
Proof.
  induction a as [|c a IH]; simpl; [reflexivity|].
  intros H. apply andb_true_iff in H. destruct H as [Hc Ha].
  rewrite (IH Ha), orb_false_r.
  destruct (Ascii.eqb_spec c NUL) as [->|]; [discriminate Hc|reflexivity].
Qed.

(** The number in front of a name, and the underscore after it, are kept. *)
Lemma stored_zip_filename idx name :
  stored_name (zip_filename_of idx name)
  = format_03d idx ++ String "_" (stored_name (base_name_of name ++ ".jpg")).
Proof.
  unfold zip_filename_of.
  rewrite stored_name_app by (apply digits_hold_no_NUL, all_digits_format_03d).
  reflexivity.
Qed.

Lemma index_of_stored_name idx name :
  index_of_name (stored_name (zip_filename_of idx name)) = Some idx.
Proof.
  rewrite stored_zip_filename. unfold index_of_name.
  rewrite leading_digits_app by (auto using all_digits_format_03d).
  apply of_uint_format_03d.
Qed.

Lemma rpartition_some sep s before after :
  rpartition sep s = Some (before, after) -> s = before ++ String sep after.
Proof.
  revert before. induction s as [|c rest IH]; intros before; simpl; [discriminate|].
  destruct (rpartition sep rest) as [[b a]|].
  - intros H. inversion H; subst. rewrite (IH b eq_refl). reflexivity.
  - destruct (Ascii.eqb_spec c sep) as [->|]; [|discriminate].
    intros H. inversion H; subst. reflexivity.
Qed.

(** The base name is the beginning of the file name. *)
Lemma base_name_of_prefix name : exists rest, name = base_name_of name ++ rest.
Proof.
  unfold base_name_of, rsplit1. destruct (str_in "." name).
  - destruct (rpartition "." name) as [[before after]|] eqn:Hcut; simpl.
    + exists (String "." after). apply rpartition_some, Hcut.
    + exists EmptyString. clear. induction name; simpl; congruence.
  - exists EmptyString. clear. induction name; simpl; congruence.
Qed.

Lemma zip_filename_of_no_NUL idx name :
  str_in NUL name = false -> str_in NUL (zip_filename_of idx name) = false.
Proof.
  intros Hname. destruct (base_name_of_prefix name) as [rest Hcut].
  rewrite Hcut, str_in_app in Hname. apply orb_false_iff in Hname.
  destruct Hname as [Hbase _]. unfold zip_filename_of.
  rewrite str_in_app, (digits_hold_no_NUL _ (all_digits_format_03d idx)).
  simpl. rewrite str_in_app, Hbase. reflexivity.
Qed.

Lemma zip_filename_of_not_empty idx name :
  exists c rest, zip_filename_of idx name = String c rest.
Proof.
  unfold zip_filename_of. destruct (format_03d idx) as [|c digits]; simpl; eauto.
Qed.

(** A file name without NUL gives a name that is kept as it is. *)
Lemma stored_zip_filename_clean idx name :
  str_in NUL name = false ->
  stored_name (zip_filename_of idx name) = zip_filename_of idx name.
Proof. intros H. apply stored_name_clean, zip_filename_of_no_NUL, H. Qed.

(** Below a thousand the index takes exactly three characters. *)
Lemma format_03d_length n :
  (n < 1000)%nat -> String.length (format_03d n) = 3%nat.
Proof.
  intros Hn.
  assert (H : forallb (fun k => (String.length (format_03d k) =? 3)%nat)
                (seq 0 1000) = true) by (vm_compute; reflexivity).
  rewrite forallb_forall in H.
  apply Nat.eqb_eq, H, in_seq. lia.
Qed.

(** ** The single-image pipeline *)

Ltac break_match :=
  match goal with
  | |- context [match ?x with _ => _ end] => destruct x eqn:?
  | H : context [match ?x with _ => _ end] |- _ => destruct x eqn:?
  end.

Ltac invert_results :=
  repeat match goal with
         | H : (_, _) = (_, _) |- _ => inversion H; clear H; subst
         | H : inl _ = inl _ |- _ => inversion H; clear H; subst
         | H : inr _ = inr _ |- _ => inversion H; clear H; subst
         | H : inl _ = inr _ |- _ => discriminate H
         | H : inr _ = inl _ |- _ => discriminate H
         end.

Ltac run :=
  unfold bind, try_except, call, call_remove, read, writestr, ret, raise in *;
  simpl in *.

Arguments Response_init : simpl never.
Arguments latin1_error : simpl never.
Arguments stored_name : simpl nomatch.

(** The constructor of a response with one header. *)
Lemma Response_init_one {W} body_ mime name value (s : state W) :
  Response_init body_ mime [(name, value)] s
  = (match latin1_error value with
     | None => inr {| content := body_; status_code := 200;
                      media_type := mime; headers := [(name, value)] |}
     | Some msg => inl (Exception msg)
     end, s).
Proof.
  unfold Response_init, headers_error.
  destruct (latin1_error value); reflexivity.
Qed.

Section Pipeline.

Context {W : Type} (E : Externals W).

(** The body of [process_image] only raises what the libraries raise. *)
Lemma process_image_body_raises image_bytes s e s' :
  process_image_body E image_bytes s = (inl e, s') -> exists msg, e = Exception msg.
Proof.
  unfold process_image_body, normalize, optimize_image. run.
  repeat (break_match; run; try discriminate);
    intros H; invert_results; eauto.
Qed.

Lemma process_image_returns image_bytes s out s' :
  process_image_body E image_bytes s = (inr out, s') ->
  process_image E image_bytes s = (inr out, s').
Proof. unfold process_image, try_except. intros ->. reflexivity. Qed.

Lemma process_image_raises image_bytes s msg s' :
  process_image_body E image_bytes s = (inl (Exception msg), s') ->
  process_image E image_bytes s
  = (inl (HTTPException 500 ("Error procesando imagen: " ++ msg)), s').
Proof. unfold process_image, try_except. intros ->. reflexivity. Qed.

(** [process_image] returns bytes or raises an [HTTPException] with status 500. *)
Lemma process_image_cases image_bytes s :
  (exists out s', process_image_body E image_bytes s = (inr out, s')
                  /\ process_image E image_bytes s = (inr out, s'))
  \/ (exists msg s', process_image_body E image_bytes s = (inl (Exception msg), s')
                     /\ process_image E image_bytes s
                        = (inl (HTTPException 500 ("Error procesando imagen: " ++ msg)), s')).
Proof.
  destruct (process_image_body E image_bytes s) as [[e|out] s'] eqn:Hbody.
  - destruct (process_image_body_raises _ _ _ _ Hbody) as [msg ->].
    right. exists msg, s'. split; [reflexivity|].
    apply process_image_raises, Hbody.
  - left. exists out, s'. split; [reflexivity|].
    apply process_image_returns, Hbody.
Qed.

End Pipeline.

(** ** The six steps of the pipeline *)

Section StepsFacts.

Context {W : Type} (E : Externals W).

Local Open Scope py_scope.

(** The body of [process_image] is the six steps in a row. *)
Lemma process_image_body_steps image_bytes s :
  process_image_body E image_bytes s
  = (i0 <- decode E image_bytes ;;
     i1 <- normalize E i0 ;;
     i2 <- optimize_image E i1 ;;
     i3 <- call_remove E i2 ;;
     i4 <- composite E i3 ;;
     encode E i4) s.
Proof.
  unfold process_image_body, decode, composite, encode, bind, ret.
  repeat (break_match; try reflexivity; invert_results).
Qed.

Lemma body_returns_iff image_bytes s out s' :
  process_image_body E image_bytes s = (inr out, s') <-> encoded E image_bytes s out s'.
Proof.
  rewrite process_image_body_steps.
  unfold encoded, composited, removed, resized, normalized, decoded, bind.
  split.
  - intros H. repeat (break_match; try discriminate). eauto 20.
  - intros (i4 & s4 & (i3 & s3 & (i2 & s2 & (i1 & s1 & (i0 & s0 & H0 & H1) & H2) & H3) & H4) & H5).
    rewrite H0, H1, H2, H3, H4. exact H5.
Qed.

Lemma body_raises_iff image_bytes s e s' :
  process_image_body E image_bytes s = (inl e, s') <-> step_raises E image_bytes s e s'.
Proof.
  rewrite process_image_body_steps. unfold bind. split.
  - intros H.
    destruct (decode E image_bytes s) as [[e0|i0] s0] eqn:H0;
      [invert_results; apply raises_decode; assumption|].
    destruct (normalize E i0 s0) as [[e1|i1] s1] eqn:H1;
      [invert_results; eapply raises_normalize; eassumption|].
    assert (Hn : normalized E image_bytes s i1 s1) by (exists i0, s0; auto).
    destruct (optimize_image E i1 s1) as [[e2|i2] s2] eqn:H2;
      [invert_results; eapply raises_resize; eassumption|].
    assert (Hr : resized E image_bytes s i2 s2) by (exists i1, s1; auto).
    destruct (call_remove E i2 s2) as [[e3|i3] s3] eqn:H3;
      [invert_results; eapply raises_removal; eassumption|].
    assert (Hm : removed E image_bytes s i3 s3) by (exists i2, s2; auto).
    destruct (composite E i3 s3) as [[e4|i4] s4] eqn:H4;
      [invert_results; eapply raises_composite; eassumption|].
    assert (Hc : composited E image_bytes s i4 s4) by (exists i3, s3; auto).
    eapply raises_encode; eassumption.
  - unfold composited, removed, resized, normalized, decoded.
    intros [H0
           |i0 s0 H0 H1
           |i1 s1 (i0 & s0 & H0 & H1) H2
           |i2 s2 (i1 & s1 & (i0 & s0 & H0 & H1) & H2) H3
           |i3 s3 (i2 & s2 & (i1 & s1 & (i0 & s0 & H0 & H1) & H2) & H3) H4
           |i4 s4 (i3 & s3 & (i2 & s2 & (i1 & s1 & (i0 & s0 & H0 & H1) & H2) & H3) & H4) H5];
      unfold decoded in *;
      repeat match goal with H : _ = (_, _) |- _ => rewrite H; clear H end;
      reflexivity.
Qed.

End StepsFacts.

(** ** Binary64: rounding errors

    What is needed of IEEE 754 arithmetic to bound [int(height * ratio)]:
    a float of 53 digits converts exactly, and a division or a product is
    off by less than one unit of its last digit. *)
Module Binary64.

Lemma digits2_pos_bounds p :
  2 ^ (Zpos (digits2_pos p) - 1) <= Zpos p < 2 ^ Zpos (digits2_pos p).
Proof.
  induction p as [p IH|p IH|]; simpl digits2_pos.
  - rewrite Pos2Z.inj_succ.
    replace (Z.succ (Z.pos (digits2_pos p)) - 1) with (Z.succ (Z.pos (digits2_pos p) - 1)) by lia.
    rewrite !Z.pow_succ_r by lia. lia.
  - rewrite Pos2Z.inj_succ.
    replace (Z.succ (Z.pos (digits2_pos p)) - 1) with (Z.succ (Z.pos (digits2_pos p) - 1)) by lia.
    rewrite !Z.pow_succ_r by lia. lia.
  - simpl. lia.
Qed.

Lemma Zdigits2_bounds m :
  0 < m -> 2 ^ (Zdigits2 m - 1) <= m < 2 ^ Zdigits2 m.
Proof. destruct m; try lia. intros _. apply digits2_pos_bounds. Qed.

Lemma Zdigits2_pos m : 0 < m -> 0 < Zdigits2 m.
Proof. destruct m; simpl; lia. Qed.

Lemma Zdigits2_unique m d :
  2 ^ (d - 1) <= m < 2 ^ d -> 0 < d -> Zdigits2 m = d.
Proof.
  intros Hm Hd.
  assert (0 < m) by (pose proof (Z.pow_pos_nonneg 2 (d - 1)); lia).
  pose proof (Zdigits2_bounds m H) as Hb.
  pose proof (Zdigits2_pos m H) as Hp.
  destruct (Z.lt_trichotomy (Zdigits2 m) d) as [Hlt|[Heq|Hgt]]; [|exact Heq|].
  - assert (2 ^ Zdigits2 m <= 2 ^ (d - 1)) by (apply Z.pow_le_mono_r; lia). lia.
  - assert (2 ^ d <= 2 ^ (Zdigits2 m - 1)) by (apply Z.pow_le_mono_r; lia). lia.
Qed.

Lemma shr_1_m mrs : 0 <= shr_m mrs -> shr_m (shr_1 mrs) = shr_m mrs / 2.
Proof.
  destruct mrs as [m r s]. simpl shr_m at 1 3. intros Hm.
  rewrite <- Z.div2_div.
  destruct m as [|[p|p|]|p]; try reflexivity. lia.
Qed.

Lemma iter_pos_shr_m p : forall mrs,
  0 <= shr_m mrs -> shr_m (iter_pos shr_1 p mrs) = shr_m mrs / 2 ^ Zpos p.
Proof.
  assert (Hnn : forall mrs, 0 <= shr_m mrs -> 0 <= shr_m (shr_1 mrs)).
  { intros mrs H. rewrite shr_1_m by exact H. apply Z.div_pos; lia. }
  assert (Hp2 : forall k, 0 < 2 ^ Z.pos k) by (intros; apply Z.pow_pos_nonneg; lia).
  induction p as [p IH|p IH|]; intros mrs Hm; simpl iter_pos.
  - assert (He : 2 ^ Z.pos p~1 = 2 * (2 ^ Z.pos p * 2 ^ Z.pos p)).
    { replace (Z.pos p~1) with (1 + Z.pos p + Z.pos p) by lia.
      rewrite !Z.pow_add_r by lia. lia. }
    rewrite He.
    assert (H1 : 0 <= shr_m (shr_1 mrs)) by auto.
    assert (H2 : 0 <= shr_m (iter_pos shr_1 p (shr_1 mrs))).
    { rewrite IH by exact H1. apply Z.div_pos; [exact H1|apply Hp2]. }
    rewrite IH by exact H2. rewrite IH by exact H1. rewrite shr_1_m by exact Hm.
    pose proof (Hp2 p).
    rewrite !Z.div_div by lia. reflexivity.
  - assert (He : 2 ^ Z.pos p~0 = 2 ^ Z.pos p * 2 ^ Z.pos p).
    { replace (Z.pos p~0) with (Z.pos p + Z.pos p) by lia.
      rewrite !Z.pow_add_r by lia. reflexivity. }
    rewrite He.
    assert (H2 : 0 <= shr_m (iter_pos shr_1 p mrs)).
    { rewrite IH by exact Hm. apply Z.div_pos; [exact Hm|apply Hp2]. }
    rewrite IH by exact H2. rewrite IH by exact Hm.
    pose proof (Hp2 p).
    rewrite !Z.div_div by lia. reflexivity.
  - rewrite shr_1_m by exact Hm. reflexivity.
Qed.

Lemma round_nearest_even_range m l :
  m <= round_nearest_even m l <= m + 1.
Proof.
  unfold round_nearest_even. destruct l as [|[| |]]; try lia.
  destruct (Z.even m); lia.
Qed.

Lemma shr_record_of_loc_m m l : shr_m (shr_record_of_loc m l) = m.
Proof. destruct l as [|[| |]]; reflexivity. Qed.

(** Right shift down to 53 digits, away from the subnormal range. *)
Lemma shr_fexp_spec m e l :
  0 < m -> 53 <= Zdigits2 m -> -1074 <= e + Zdigits2 m - 53 ->
  exists mrs,
    shr_fexp 53 1024 m e l = (mrs, e + (Zdigits2 m - 53))
    /\ shr_m mrs = m / 2 ^ (Zdigits2 m - 53).
Proof.
  intros Hm Hd He. unfold shr_fexp, shr, fexp, emin.
  replace (Z.max (Zdigits2 m + e - 53) (3 - 1024 - 53) - e) with (Zdigits2 m - 53) by lia.
  destruct (Zdigits2 m - 53) as [|p|p] eqn:Hn; try lia.
  - eexists. split; [f_equal; lia|].
    rewrite shr_record_of_loc_m, Z.pow_0_r, Z.div_1_r. reflexivity.
  - eexists. split; [reflexivity|].
    rewrite iter_pos_shr_m; rewrite shr_record_of_loc_m; [reflexivity|lia].
Qed.

Lemma binary_round_aux_spec M e l :
  0 < M -> 53 <= Zdigits2 M ->
  -1074 <= e + Zdigits2 M - 53 -> e + Zdigits2 M - 53 < 971 ->
  exists R e_r,
    binary_round_aux 53 1024 false M e l = S754_finite false R e_r
    /\ Zdigits2 (Zpos R) = 53
    /\ e + (Zdigits2 M - 53) <= e_r <= e + (Zdigits2 M - 53) + 1
    /\ M - 2 ^ (Zdigits2 M - 53) < Zpos R * 2 ^ (e_r - e) <= M + 2 ^ (Zdigits2 M - 53).
Proof.
  intros HM Hd Hlo Hhi.
  set (n := Zdigits2 M - 53) in *.
  assert (Hn : 0 <= n) by lia.
  assert (Hpn : 0 < 2 ^ n) by (apply Z.pow_pos_nonneg; lia).
  pose proof (Zdigits2_bounds M HM) as HMb.
  replace (Zdigits2 M) with (n + 53) in HMb by lia.
  replace (n + 53 - 1) with (n + 52) in HMb by lia.
  rewrite !Z.pow_add_r in HMb by lia.
  set (M' := M / 2 ^ n).
  assert (HM' : M' * 2 ^ n <= M < (M' + 1) * 2 ^ n).
  { unfold M'. pose proof (Z.div_mod M (2 ^ n)). pose proof (Z.mod_pos_bound M (2 ^ n)). nia. }
  assert (HM'b : 2 ^ 52 <= M' < 2 ^ 53) by nia.
  unfold binary_round_aux.
  destruct (shr_fexp_spec M e l HM Hd) as [mrs1 [H1 H1m]]; [lia|].
  fold n in H1, H1m. fold M' in H1m. rewrite H1.
  set (R0 := round_nearest_even (shr_m mrs1) (loc_of_shr_record mrs1)).
  assert (HR0 : M' <= R0 <= M' + 1).
  { unfold R0. rewrite H1m. apply round_nearest_even_range. }
  destruct (Z.eq_dec R0 (2 ^ 53)) as [Heq|Hne].
  - (* the rounded mantissa takes 54 digits *)
    assert (Hd0 : Zdigits2 R0 = 54) by (rewrite Heq; reflexivity).
    destruct (shr_fexp_spec R0 (e + n) loc_Exact) as [mrs2 [H2 H2m]]; try lia.
    rewrite H2. rewrite H2m, Hd0, Heq. simpl Z.div.
    change (2 ^ 53 / 2 ^ (54 - 53)) with (Zpos (2 ^ 52)).
    cbv iota.
    destruct (Z.leb_spec (e + n + (54 - 53)) (1024 - 53)); [|lia].
    exists (2 ^ 52)%positive, (e + n + (54 - 53)).
    split; [reflexivity|]. split; [reflexivity|]. split; [lia|].
    replace (e + n + (54 - 53) - e) with (n + 1) by lia.
    rewrite Z.pow_add_r by lia.
    change (Z.pos (2 ^ 52) * (2 ^ n * 2 ^ 1)) with (2 ^ 52 * (2 ^ n * 2)).
    change (2 ^ 53) with (2 ^ 52 * 2) in Heq. nia.
  - assert (Hd0 : Zdigits2 R0 = 53) by (apply Zdigits2_unique; simpl; lia).
    destruct (shr_fexp_spec R0 (e + n) loc_Exact) as [mrs2 [H2 H2m]]; try lia.
    rewrite H2. rewrite H2m, Hd0. change (2 ^ (53 - 53)) with 1. rewrite Z.div_1_r.
    destruct R0 as [|R|R] eqn:HR; try lia.
    destruct (Z.leb_spec (e + n + (53 - 53)) (1024 - 53)); [|lia].
    exists R, (e + n + (53 - 53)).
    split; [reflexivity|]. split; [exact Hd0|]. split; [lia|].
    replace (e + n + (53 - 53) - e) with n by lia. nia.
Qed.

(** With 53 digits and nothing to round, the mantissa is kept. *)
Lemma binary_round_aux_exact M e :
  0 < M -> Zdigits2 M = 53 -> -1074 <= e -> e <= 971 ->
  binary_round_aux 53 1024 false M e loc_Exact = S754_finite false (Z.to_pos M) e.
Proof.
  intros HM Hd Hlo Hhi. unfold binary_round_aux.
  destruct (shr_fexp_spec M e loc_Exact HM) as [mrs1 [H1 H1m]]; try lia.
  assert (Hs : shr_fexp 53 1024 M e loc_Exact
               = ({| shr_m := M; shr_r := false; shr_s := false |}, e)).
  { unfold shr_fexp, shr, fexp, emin. rewrite Hd.
    replace (Z.max (53 + e - 53) (3 - 1024 - 53) - e) with 0 by lia. reflexivity. }
  rewrite Hs. simpl round_nearest_even. rewrite Hs. simpl shr_m.
  destruct M as [|p|p]; try lia.
  destruct (Z.leb_spec e (1024 - 53)); [reflexivity|lia].
Qed.

Lemma iter_xO m k : Zpos (Pos.iter xO m k) = Zpos m * 2 ^ Zpos k.
Proof.
  induction k as [|k IH] using Pos.peano_ind.
  - simpl. lia.
  - rewrite Pos.iter_succ, Pos2Z.inj_xO, IH, Pos2Z.inj_succ, Z.pow_succ_r by lia. lia.
Qed.

(** A positive integer below 2^53 converts exactly, to 53 digits. *)
Lemma float_of_int_spec z :
  0 < z < 2 ^ 53 ->
  exists mz,
    float_of_int z = S754_finite false mz (Zdigits2 z - 53)
    /\ Zdigits2 (Zpos mz) = 53
    /\ Zpos mz = z * 2 ^ (53 - Zdigits2 z).
Proof.
  intros Hz. destruct z as [|m|m]; try lia.
  pose proof (Zdigits2_bounds (Zpos m) ltac:(lia)) as Hb.
  pose proof (Zdigits2_pos (Zpos m) ltac:(lia)) as Hp.
  assert (Hd : Zdigits2 (Zpos m) <= 53).
  { destruct (Z.le_gt_cases (Zdigits2 (Zpos m)) 53) as [H|H]; [exact H|].
    assert (2 ^ 53 <= 2 ^ (Zdigits2 (Z.pos m) - 1)) by (apply Z.pow_le_mono_r; lia). lia. }
  unfold float_of_int, binary_normalize, binary_round, shl_align, fexp, emin, prec, emax.
  change (Z.pos (digits2_pos m)) with (Zdigits2 (Zpos m)).
  set (d := Zdigits2 (Zpos m)) in *.
  replace (Z.max (d + 0 - 53) (3 - 1024 - 53) - 0) with (d - 53) by lia.
  replace (Z.max (d + 0 - 53) (3 - 1024 - 53)) with (d - 53) by lia.
  destruct (d - 53) as [|k|k] eqn:Hk; try lia.
  - assert (d = 53) by lia.
    rewrite binary_round_aux_exact by (try lia; assumption).
    exists m. split; [reflexivity|]. split; [assumption|].
    replace (53 - d) with 0 by lia. lia.
  - assert (Hmz : Zpos (Pos.iter xO m k) = Zpos m * 2 ^ (53 - d)).
    { rewrite iter_xO. f_equal. f_equal. lia. }
    assert (Hdz : Zdigits2 (Zpos (Pos.iter xO m k)) = 53).
    { apply Zdigits2_unique; [|lia]. rewrite Hmz.
      replace (2 ^ (53 - 1)) with (2 ^ (d - 1) * 2 ^ (53 - d))
        by (rewrite <- Z.pow_add_r by lia; f_equal; lia).
      replace (2 ^ 53) with (2 ^ d * 2 ^ (53 - d))
        by (rewrite <- Z.pow_add_r by lia; f_equal; lia).
      assert (0 < 2 ^ (53 - d)) by (apply Z.pow_pos_nonneg; lia). nia. }
    rewrite binary_round_aux_exact by (try lia; assumption).
    exists (Pos.iter xO m k). split; [reflexivity|]. split; assumption.
Qed.

(** Division of two floats of 53 digits: the quotient of the mantissas,
    cut to 53 digits and rounded by at most one unit. *)
Lemma SFdiv_spec m1 e1 m2 e2 :
  Zdigits2 (Zpos m1) = 53 -> Zdigits2 (Zpos m2) = 53 ->
  -1021 <= e1 - e2 -> e1 - e2 < 1020 ->
  let q := Zpos m1 * 2 ^ 53 / Zpos m2 in
  let n := Zdigits2 q - 53 in
  exists R e_r,
    SFdiv 53 1024 (S754_finite false m1 e1) (S754_finite false m2 e2)
    = S754_finite false R e_r
    /\ Zdigits2 (Zpos R) = 53
    /\ 0 <= n <= 1
    /\ e1 - e2 - 53 + n <= e_r <= e1 - e2 - 53 + n + 1
    /\ q - 2 ^ n < Zpos R * 2 ^ (e_r - (e1 - e2 - 53)) <= q + 2 ^ n.
Proof.
  intros Hd1 Hd2 Hlo Hhi q n.
  pose proof (Zdigits2_bounds (Zpos m1) ltac:(lia)) as Hb1.
  pose proof (Zdigits2_bounds (Zpos m2) ltac:(lia)) as Hb2.
  rewrite Hd1 in Hb1. rewrite Hd2 in Hb2. simpl in Hb1, Hb2.
  assert (Hq : q * Zpos m2 <= Zpos m1 * 2 ^ 53 < (q + 1) * Zpos m2).
  { unfold q. pose proof (Z.div_mod (Zpos m1 * 2 ^ 53) (Zpos m2)).
    pose proof (Z.mod_pos_bound (Zpos m1 * 2 ^ 53) (Zpos m2)). nia. }
  assert (Hqb : 2 ^ 52 <= q < 2 ^ 54) by (simpl in *; nia).
  assert (Hdq : Zdigits2 q = 53 \/ Zdigits2 q = 54).
  { destruct (Z.lt_ge_cases q (2 ^ 53)).
    - left. apply Zdigits2_unique; simpl in *; lia.
    - right. apply Zdigits2_unique; simpl in *; lia. }
  unfold SFdiv, SFdiv_core_binary. fold q.
  rewrite Hd1, Hd2. unfold fexp, emin.
  replace (Z.min (Z.max (53 + e1 - (53 + e2) - 53) (3 - 1024 - 53)) (e1 - e2))
    with (e1 - e2 - 53) by lia.
  replace (e1 - e2 - (e1 - e2 - 53)) with 53 by lia.
  rewrite Z.shiftl_mul_pow2 by lia.
  rewrite (surjective_pairing (Z.div_eucl (Zpos m1 * 2 ^ 53) (Zpos m2))).
  change (fst (Z.div_eucl (Zpos m1 * 2 ^ 53) (Zpos m2))) with q.
  simpl xorb.
  destruct (binary_round_aux_spec q (e1 - e2 - 53)
              (new_location (Zpos m2) (snd (Z.div_eucl (Zpos m1 * 2 ^ 53) (Zpos m2)))))
    as (R & e_r & Hres & HdR & He & HV); try lia.
  exists R, e_r. fold n in He, HV.
  split; [exact Hres|]. split; [exact HdR|]. split; [unfold n; lia|].
  split; [lia|exact HV].
Qed.

(** Multiplication of two floats of 53 digits. *)
Lemma SFmul_spec m1 e1 m2 e2 :
  Zdigits2 (Zpos m1) = 53 -> Zdigits2 (Zpos m2) = 53 ->
  -1126 <= e1 + e2 -> e1 + e2 < 918 ->
  let M := Zpos m1 * Zpos m2 in
  let n := Zdigits2 M - 53 in
  exists R e_r,
    SFmul 53 1024 (S754_finite false m1 e1) (S754_finite false m2 e2)
    = S754_finite false R e_r
    /\ Zdigits2 (Zpos R) = 53
    /\ 52 <= n <= 53
    /\ e1 + e2 + n <= e_r <= e1 + e2 + n + 1
    /\ M - 2 ^ n < Zpos R * 2 ^ (e_r - (e1 + e2)) <= M + 2 ^ n.
Proof.
  intros Hd1 Hd2 Hlo Hhi M n.
  pose proof (Zdigits2_bounds (Zpos m1) ltac:(lia)) as Hb1.
  pose proof (Zdigits2_bounds (Zpos m2) ltac:(lia)) as Hb2.
  rewrite Hd1 in Hb1. rewrite Hd2 in Hb2. simpl in Hb1, Hb2.
  assert (HMb : 2 ^ 104 <= M < 2 ^ 106) by (unfold M; simpl; nia).
  assert (HdM : Zdigits2 M = 105 \/ Zdigits2 M = 106).
  { destruct (Z.lt_ge_cases M (2 ^ 105)).
    - left. apply Zdigits2_unique; simpl in *; lia.
    - right. apply Zdigits2_unique; simpl in *; lia. }
  unfold SFmul. simpl xorb.
  change (Z.pos (m1 * m2)) with M.
  destruct (binary_round_aux_spec M (e1 + e2) loc_Exact)
    as (R & e_r & Hres & HdR & He & HV); try lia.
  exists R, e_r. fold n in He, HV.
  split; [exact Hres|]. split; [exact HdR|]. split; [unfold n; lia|].
  split; [lia|exact HV].
Qed.

Lemma int_of_float_neg_exp m e :
  e < 0 -> int_of_float (S754_finite false m e) = inr (Zpos m / 2 ^ (- e)).
Proof.
  intros He. destruct e as [|p|p]; try lia.
  simpl. rewrite Z.shiftr_div_pow2 by lia. reflexivity.
Qed.

Lemma float_of_1024 : float_of_int 1024 = S754_finite false (2 ^ 52) (-42).
Proof. reflexivity. Qed.

Lemma Zdigits2_range z d :
  0 < z -> 2 ^ (d - 1) <= z -> z < 2 ^ 31 -> d <= Zdigits2 z <= 31.
Proof.
  intros Hz Hlo Hhi.
  pose proof (Zdigits2_bounds z Hz) as Hb.
  pose proof (Zdigits2_pos z Hz) as Hp.
  split.
  - destruct (Z.le_gt_cases d (Zdigits2 z)) as [H|H]; [exact H|].
    assert (2 ^ Zdigits2 z <= 2 ^ (d - 1)) by (apply Z.pow_le_mono_r; lia). lia.
  - destruct (Z.le_gt_cases (Zdigits2 z) 31) as [H|H]; [exact H|].
    assert (2 ^ 31 <= 2 ^ (Zdigits2 z - 1)) by (apply Z.pow_le_mono_r; lia). lia.
Qed.

Lemma height_sandwich (w h k q mw mh Rr Rp M N U T X A' B' : Z) :
  1024 < w < 2 ^ 31 -> 0 < h < 2 ^ 31 ->
  k * w <= h * 1024 < (k + 1) * w ->
  mw = w * A' -> 2 ^ 52 <= mw < 2 ^ 53 ->
  q * mw <= 2 ^ 105 < (q + 1) * mw ->
  q - 2 < Rr * U <= q + 2 ->
  mh = h * B' ->
  M = mh * Rr ->
  N * 2 ^ 52 <= M ->
  M - N < Rp * T <= M + N ->
  X * T * U * A' = 2 ^ 95 * B' ->
  0 < X -> 0 < T -> 0 < U -> 0 < A' -> 0 < B' -> 0 < N -> 0 < Rr ->
  k - 1 <= Rp / X <= k /\ (k * w < h * 1024 -> Rp / X = k).
Proof.
  change (2 ^ 31) with 2147483648.
  change (2 ^ 52) with 4503599627370496.
  change (2 ^ 53) with 9007199254740992.
  change (2 ^ 95) with 39614081257132168796771975168.
  change (2 ^ 105) with 40564819207303340847894502572032.
  intros Hw Hh Hk Hmw Hmwb Hq HVr Hmh HM HN HVp HD HX HT HU HA' HB' HN0 HRr.
  assert (Hmh0 : 0 < mh) by (rewrite Hmh; apply Z.mul_pos_pos; lia).
  assert (Hmhb : mh < 2147483648 * B').
  { rewrite Hmh. apply Z.mul_lt_mono_pos_r; lia. }
  assert (HMU : M * U = mh * (Rr * U)) by (rewrite HM; ring).
  set (V := Rp * T) in *. set (VR := Rr * U) in *.
  set (c := 4503599627370496) in *.
  set (Y := X * T * U) in *.
  assert (HY : 0 < Y) by (unfold Y; repeat apply Z.mul_pos_pos; assumption).
  assert (HYw : Y * mw = 39614081257132168796771975168 * B' * w).
  { rewrite Hmw, <- HD. ring. }
  assert (HM0 : 0 < M) by (rewrite HM; apply Z.mul_pos_pos; lia).
  (* V * U against the scaled quotient *)
  assert (S1 : V * c <= M * (c + 1)) by lia.
  assert (S1' : M * (c - 1) < V * c) by lia.
  assert (Hup : V * U * c * mw < (1024 * mh + B') * c * 39614081257132168796771975168).
  { assert (S2 : V * c * U <= M * (c + 1) * U)
      by (apply Z.mul_le_mono_nonneg_r; lia).
    assert (S3 : mh * VR <= mh * (q + 2))
      by (apply Z.mul_le_mono_nonneg_l; lia).
    assert (S4 : mh * VR * (c + 1) * mw <= mh * (q + 2) * (c + 1) * mw).
    { apply Z.mul_le_mono_nonneg_r; [lia|].
      apply Z.mul_le_mono_nonneg_r; [lia|exact S3]. }
    assert (S5 : mh * (c + 1) * (q * mw + 2 * mw)
                 <= mh * (c + 1) * (40564819207303340847894502572032 + 18014398509481984)).
    { apply Z.mul_le_mono_nonneg_l; [apply Z.mul_nonneg_nonneg; lia|lia]. }
    assert (S6 : V * c * U * mw <= M * (c + 1) * U * mw)
      by (apply Z.mul_le_mono_nonneg_r; lia).
    replace (M * (c + 1) * U * mw) with (mh * VR * (c + 1) * mw) in S6
      by (rewrite <- HMU; ring).
    replace (mh * (q + 2) * (c + 1) * mw) with (mh * (c + 1) * (q * mw + 2 * mw)) in S4
      by ring.
    replace (V * U * c * mw) with (V * c * U * mw) by ring.
    unfold c in *. lia. }
  assert (Hlo : (1024 * mh - B') * c * 39614081257132168796771975168 < V * U * c * mw).
  { assert (S2 : M * (c - 1) * U < V * c * U)
      by (apply Z.mul_lt_mono_pos_r; lia).
    assert (S3 : mh * (q - 1) <= mh * VR)
      by (apply Z.mul_le_mono_nonneg_l; lia).
    assert (S4 : mh * (q - 1) * (c - 1) * mw <= mh * VR * (c - 1) * mw).
    { apply Z.mul_le_mono_nonneg_r; [lia|].
      apply Z.mul_le_mono_nonneg_r; [unfold c; lia|exact S3]. }
    assert (S5 : mh * (c - 1) * (40564819207303340847894502572032 - 18014398509481984)
                 <= mh * (c - 1) * ((q + 1) * mw - 2 * mw)).
    { apply Z.mul_le_mono_nonneg_l; [apply Z.mul_nonneg_nonneg; unfold c; lia|lia]. }
    assert (S6 : M * (c - 1) * U * mw < V * c * U * mw)
      by (apply Z.mul_lt_mono_pos_r; lia).
    replace (M * (c - 1) * U * mw) with (mh * VR * (c - 1) * mw) in S6
      by (rewrite <- HMU; ring).
    replace (mh * (q - 1) * (c - 1) * mw) with (mh * (c - 1) * ((q + 1) * mw - 2 * mw)) in S4
      by ring.
    replace (V * U * c * mw) with (V * c * U * mw) by ring.
    unfold c in *. lia. }
  assert (Hc0 : 0 < c * mw) by (apply Z.mul_pos_pos; unfold c; lia).
  (* every multiple of the unit that lies below the exact height lies below
     the result *)
  assert (Hge : forall j, j * w <= 1024 * h - 1 -> X * j <= Rp).
  { intros j Hj.
    destruct (Z.le_gt_cases (X * j) Rp) as [H|H]; [exact H|exfalso].
    assert (H1 : V < X * j * T) by (unfold V; apply Z.mul_lt_mono_pos_r; lia).
    assert (H2 : V * U < X * j * T * U) by (apply Z.mul_lt_mono_pos_r; lia).
    replace (X * j * T * U) with (Y * j) in H2 by (unfold Y; ring).
    assert (H3 : V * U * (c * mw) < Y * j * (c * mw))
      by (apply Z.mul_lt_mono_pos_r; lia).
    replace (Y * j * (c * mw)) with (c * (Y * mw) * j) in H3 by ring.
    rewrite HYw in H3.
    assert (H4 : B' * (j * w) <= B' * (1024 * h - 1))
      by (apply Z.mul_le_mono_nonneg_l; lia).
    rewrite Hmh in Hlo.
    replace (c * (39614081257132168796771975168 * B' * w) * j)
      with (c * 39614081257132168796771975168 * (B' * (j * w))) in H3 by ring.
    replace ((1024 * (h * B') - B') * c * 39614081257132168796771975168)
      with (c * 39614081257132168796771975168 * (B' * (1024 * h - 1))) in Hlo by ring.
    assert (H5 : c * 39614081257132168796771975168 * (B' * (j * w))
                 <= c * 39614081257132168796771975168 * (B' * (1024 * h - 1)))
      by (apply Z.mul_le_mono_nonneg_l; [unfold c; lia|exact H4]).
    lia. }
  assert (Hle : Rp / X <= k).
  { apply Z.lt_succ_r. apply Z.div_lt_upper_bound; [lia|].
    destruct (Z.lt_ge_cases Rp (X * Z.succ k)) as [H|H]; [exact H|exfalso].
    assert (H1 : X * Z.succ k * T <= V) by (unfold V; apply Z.mul_le_mono_nonneg_r; lia).
    assert (H2 : X * Z.succ k * T * U <= V * U) by (apply Z.mul_le_mono_nonneg_r; lia).
    replace (X * Z.succ k * T * U) with (Y * (k + 1)) in H2 by (unfold Y; ring).
    assert (H3 : Y * (k + 1) * (c * mw) <= V * U * (c * mw))
      by (apply Z.mul_le_mono_nonneg_r; lia).
    replace (Y * (k + 1) * (c * mw)) with (c * (Y * mw) * (k + 1)) in H3 by ring.
    rewrite HYw in H3.
    assert (H4 : B' * (1024 * h + 1) <= B' * ((k + 1) * w))
      by (apply Z.mul_le_mono_nonneg_l; lia).
    rewrite Hmh in Hup.
    replace (c * (39614081257132168796771975168 * B' * w) * (k + 1))
      with (c * 39614081257132168796771975168 * (B' * ((k + 1) * w))) in H3 by ring.
    replace ((1024 * (h * B') + B') * c * 39614081257132168796771975168)
      with (c * 39614081257132168796771975168 * (B' * (1024 * h + 1))) in Hup by ring.
    assert (H5 : c * 39614081257132168796771975168 * (B' * (1024 * h + 1))
                 <= c * 39614081257132168796771975168 * (B' * ((k + 1) * w)))
      by (apply Z.mul_le_mono_nonneg_l; [unfold c; lia|exact H4]).
    lia. }
  split; [split; [|exact Hle]|].
  - apply Z.div_le_lower_bound; [lia|]. apply Hge. lia.
  - intros Hk'. apply Z.le_antisymm; [exact Hle|].
    apply Z.div_le_lower_bound; [lia|]. apply Hge. lia.
Qed.

(** The new height for dimensions that fit a C [int]: no exception, and the
    floor of the exact quotient, or one less when the quotient is whole. *)
Lemma new_height_floor w h :
  1024 < w < 2 ^ 31 -> 0 <= h < 2 ^ 31 ->
  exists nh,
    int_of_float (int_mul_float h (truediv 1024 w)) = inr nh
    /\ h * 1024 / w - 1 <= nh <= h * 1024 / w
    /\ (h * 1024 / w * w < h * 1024 -> nh = h * 1024 / w).
Proof.
  intros Hw Hh. unfold int_mul_float, truediv.
  change (SFmul prec emax) with (SFmul 53 1024).
  change (SFdiv prec emax) with (SFdiv 53 1024).
  (* the ratio *)
  destruct (float_of_int_spec w) as (mw & Hfw & Hdw & Hmw); [simpl in *; lia|].
  pose proof (Zdigits2_range w 11 ltac:(lia) ltac:(simpl; lia) ltac:(lia)) as Ha.
  set (a := Zdigits2 w) in *.
  rewrite Hfw, float_of_1024.
  destruct (SFdiv_spec (2 ^ 52) (-42) mw (a - 53) eq_refl Hdw) as
    (Rr & er & Hdiv & HdRr & Hnq & Her & HVr); try lia.
  rewrite Hdiv.
  set (q := Z.pos (2 ^ 52) * 2 ^ 53 / Z.pos mw) in *.
  set (nq := Zdigits2 q - 53) in *.
  destruct (Z.eq_dec h 0) as [->|Hh0].
  { exists 0. split; [reflexivity|]. rewrite Z.mul_0_l, Z.div_0_l by lia. lia. }
  (* the product *)
  destruct (float_of_int_spec h) as (mh & Hfh & Hdh & Hmh); [simpl in *; lia|].
  pose proof (Zdigits2_range h 1 ltac:(lia) ltac:(simpl; lia) ltac:(lia)) as Hb.
  set (b := Zdigits2 h) in *.
  rewrite Hfh.
  destruct (SFmul_spec mh (b - 53) Rr er Hdh HdRr) as
    (Rp & ep & Hmul & HdRp & Hnp & Hep & HVp); try lia.
  rewrite Hmul.
  set (M := Z.pos mh * Z.pos Rr) in *.
  set (np := Zdigits2 M - 53) in *.
  rewrite int_of_float_neg_exp by lia.
  eexists. split; [reflexivity|].
  (* powers of two, by name *)
  set (u := er - (-42 - (a - 53) - 53)) in *.
  set (t := ep - (b - 53 + er)) in *.
  assert (Hu : 0 <= u <= 2) by (unfold u; lia).
  assert (Ht : 52 <= t <= 54) by (unfold t; lia).
  set (k := h * 1024 / w).
  assert (Hk : k * w <= h * 1024 < (k + 1) * w).
  { unfold k. pose proof (Z.div_mod (h * 1024) w). pose proof (Z.mod_pos_bound (h * 1024) w). nia. }
  assert (Hpow : forall x, 0 <= x -> 0 < 2 ^ x) by (intros; apply Z.pow_pos_nonneg; lia).
  pose proof (Zdigits2_bounds (Zpos mw) ltac:(lia)) as Hmwb. rewrite Hdw in Hmwb.
  change (2 ^ (53 - 1)) with 4503599627370496 in Hmwb.
  change (2 ^ 53) with 9007199254740992 in Hmwb.
  assert (Hq : q * Zpos mw <= 2 ^ 105 < (q + 1) * Zpos mw).
  { unfold q. change (Z.pos (2 ^ 52) * 2 ^ 53) with (2 ^ 105).
    pose proof (Z.div_mod (2 ^ 105) (Zpos mw)). pose proof (Z.mod_pos_bound (2 ^ 105) (Zpos mw)). nia. }
  assert (HM0 : 0 < M) by (unfold M; lia).
  pose proof (Zdigits2_bounds M HM0) as HMb.
  replace (Zdigits2 M - 1) with (np + 52) in HMb by (unfold np; lia).
  rewrite Z.pow_add_r in HMb by lia.
  set (N := 2 ^ np) in *. set (U := 2 ^ u) in *. set (T := 2 ^ t) in *.
  set (X := 2 ^ (- ep)).
  set (A' := 2 ^ (53 - a)) in *. set (B' := 2 ^ (53 - b)) in *.
  assert (HX : 0 < X) by (apply Hpow; lia).
  assert (HT : 0 < T) by (apply Hpow; lia).
  assert (HU : 0 < U) by (apply Hpow; lia).
  assert (HA' : 0 < A') by (apply Hpow; lia).
  assert (HB' : 0 < B') by (apply Hpow; lia).
  assert (HN : 0 < N) by (apply Hpow; lia).
  assert (HNq : 1 <= 2 ^ nq <= 2).
  { destruct (Z.eq_dec nq 0) as [->|]; [simpl; lia|].
    replace nq with 1 by lia. simpl. lia. }
  assert (HD : X * T * U * A' = 2 ^ 95 * B').
  { unfold X, T, U, A', B'. rewrite <- !Z.pow_add_r by lia. f_equal. unfold t, u. lia. }
  apply (height_sandwich w h k q (Zpos mw) (Zpos mh) (Zpos Rr) (Zpos Rp) M N U T X A' B');
    try assumption; try lia.
Qed.

End Binary64.

(** ** The resize step *)

(** [int] truncates toward zero: the magnitude is cut down to an integer
    and the sign put back. *)
Lemma int_of_float_truncates sign m e :
  int_of_float (S754_finite sign m e)
  = inr (cond_Zopp sign (if e <? 0 then Zpos m / 2 ^ (- e) else Zpos m * 2 ^ e)).
Proof.
  unfold int_of_float. f_equal. f_equal.
  destruct e as [|p|p]; simpl Z.ltb; cbv iota.
  - rewrite Z.shiftl_0_r. simpl. lia.
  - rewrite Z.shiftl_mul_pow2 by lia. reflexivity.
  - rewrite Z.shiftr_div_pow2 by lia. reflexivity.
Qed.

Example new_height_1025x2 :
  new_height_of {| mode := "RGB"; width := 1025; height := 2; im := [] |} = inr 1.
Proof. vm_compute. reflexivity. Qed.

Example new_height_4000x3000 :
  new_height_of {| mode := "RGB"; width := 4000; height := 3000; im := [] |} = inr 768.
Proof. vm_compute. reflexivity. Qed.

Section Resize.

Context {W : Type} (E : Externals W).

Lemma optimize_image_small image s :
  width image <= MAX_IMAGE_WIDTH -> optimize_image E image s = (inr image, s).
Proof.
  intros Hw. unfold optimize_image.
  destruct (Z.ltb_spec MAX_IMAGE_WIDTH (width image)); [lia|reflexivity].
Qed.

Lemma optimize_image_large image s new_height :
  MAX_IMAGE_WIDTH < width image ->
  new_height_of image = inr new_height ->
  optimize_image E image s
  = call (EvResize image (MAX_IMAGE_WIDTH, new_height))
         (resize E image (MAX_IMAGE_WIDTH, new_height)) s.
Proof.
  intros Hw Hh. unfold optimize_image. rewrite Hh.
  destruct (Z.ltb_spec MAX_IMAGE_WIDTH (width image)); [reflexivity|lia].
Qed.

End Resize.

(** Rounding to nearest gives the floor of the quotient or one more, and
    the floor itself when the quotient is whole. *)
Lemma round_div_floor a b :
  0 < b ->
  a / b <= round_div a b <= a / b + 1
  /\ (a / b * b = a -> round_div a b = a / b).
Proof.
  intros Hb. unfold round_div.
  pose proof (Z.div_mod a b ltac:(lia)) as Hdm.
  pose proof (Z.mod_pos_bound a b Hb) as Hr.
  split.
  - destruct (2 * (a mod b) <? b); [lia|].
    destruct (b <? 2 * (a mod b)); [lia|].
    destruct (Z.even (a / b)); lia.
  - intros Hwhole. assert (Hz : a mod b = 0) by lia. rewrite Hz.
    destruct (Z.ltb_spec (2 * 0) b); [reflexivity|lia].
Qed.

(** C1, as the code has it.  An image at most 1024 pixels wide is returned
    as it is, with no call to the resampler.  For a wider image the resampler
    is asked for width 1024 and height [int(height * (1024 / width))], the
    binary64 product truncated toward zero; when it returns an image, that
    image is the result and has exactly this size.  For dimensions below
    2^31 the product never fails and the new height is the exact
    proportional height rounded down, or one less: it is round(height *
    1024 / width) or one below it. *)
Theorem optimize_image_dimensions {W} (E : Externals W) (image : Image) (s : state W) :
  (width image <= 1024 -> optimize_image E image s = (inr image, s))
  /\ (1024 < width image ->
      forall new_height,
        int_of_float (int_mul_float (height image) (truediv 1024 (width image)))
        = inr new_height ->
        optimize_image E image s
        = call (EvResize image (1024, new_height))
               (resize E image (1024, new_height)) s
        /\ (forall image',
               resize E image (1024, new_height) = inr image' ->
               optimize_image E image s
               = (inr image', record (EvResize image (1024, new_height)) s))
        /\ (forall image' s',
               resize_exact E ->
               optimize_image E image s = (inr image', s') ->
               width image' = 1024 /\ height image' = new_height))
  /\ (1024 < width image < 2 ^ 31 -> 0 <= height image < 2 ^ 31 ->
      exists new_height,
        int_of_float (int_mul_float (height image) (truediv 1024 (width image)))
        = inr new_height
        /\ new_height * width image <= height image * 1024
           <= (new_height + 1) * width image
        /\ rounded_height image - 1 <= new_height <= rounded_height image).
Proof.
  split; [|split].
  - apply optimize_image_small.
  - intros Hw new_height Hh.
    pose proof (optimize_image_large E image s new_height Hw Hh) as Hrun.
    change MAX_IMAGE_WIDTH with 1024 in Hrun.
    split; [exact Hrun|]. split.
    + intros image' Hres. rewrite Hrun. unfold call. rewrite Hres. reflexivity.
    + intros image' s' Hexact. rewrite Hrun. unfold call.
      destruct (resize E image (1024, new_height)) as [msg|image''] eqn:Hres;
        [discriminate|].
      intros H. invert_results.
      apply Hexact in Hres. unfold size in Hres. inversion Hres. auto.
  - intros Hw Hh.
    destruct (Binary64.new_height_floor (width image) (height image) Hw Hh)
      as (nh & Hnh & Hbounds & Hexact).
    exists nh. split; [exact Hnh|].
    set (k := height image * 1024 / width image) in *.
    assert (Hk : k * width image <= height image * 1024 < (k + 1) * width image).
    { unfold k. pose proof (Z.div_mod (height image * 1024) (width image)).
      pose proof (Z.mod_pos_bound (height image * 1024) (width image)). nia. }
    destruct (round_div_floor (height image * 1024) (width image) ltac:(lia))
      as [Hround Hwhole].
    fold k in Hround, Hwhole. fold (rounded_height image) in Hround, Hwhole.
    destruct (Z.eq_dec (k * width image) (height image * 1024)) as [Hdiv|Hdiv].
    + specialize (Hwhole Hdiv). split; [|lia].
      assert (nh = k \/ nh = k - 1) as [->| ->] by lia; lia.
    + assert (nh = k) as -> by (apply Hexact; lia). lia.
Qed.

Lemma optimize_image_dimensions_witness :
  exists new_height,
    int_of_float (int_mul_float 3000 (truediv 1024 4000)) = inr new_height
    /\ new_height * 4000 <= 3000 * 1024 <= (new_height + 1) * 4000
    /\ rounded_height {| mode := "RGB"; width := 4000; height := 3000; im := [] |} - 1
       <= new_height
       <= rounded_height {| mode := "RGB"; width := 4000; height := 3000; im := [] |}.
Proof.
  apply (proj2 (proj2 (optimize_image_dimensions Stub.stub
                         {| mode := "RGB"; width := 4000; height := 3000; im := [] |}
                         Stub.start)));
    simpl; lia.
Defined.

Example optimize_image_1122_square :
  new_height_of {| mode := "RGB"; width := 1122; height := 1122; im := [] |} = inr 1023
  /\ rounded_height {| mode := "RGB"; width := 1122; height := 1122; im := [] |} = 1024.
Proof. split; vm_compute; reflexivity. Qed.

(** C1 fails as stated: a 1025 x 2 image is resized to 1024 x 1, where
    round(2 * 1024 / 1025) = 2. *)
Lemma optimize_image_truncates_height :
  exists image image' : Image,
    width image = 1025 /\ height image = 2
    /\ resize_exact Stub.stub
    /\ fst (optimize_image Stub.stub image Stub.start) = inr image'
    /\ width image' = 1024
    /\ height image' = 1
    /\ rounded_height image = 2.
Proof.
  exists {| mode := "RGB"; width := 1025; height := 2; im := [] |}.
  exists {| mode := "RGB"; width := 1024; height := 1; im := [] |}.
  repeat split.
  intros image new_size image'. unfold Stub.stub, resize, Stub.stub_resize.
  destruct ((fst new_size <? 1) || (snd new_size <? 1)); [discriminate|].
  intros H. invert_results. destruct new_size. reflexivity.
Qed.

(** ** The normalisation step *)

Lemma mode_in_iff m modes : mode_in m modes = true <-> In m modes.
Proof.
  unfold mode_in. rewrite existsb_exists. split.
  - intros [x [Hin Heq]]. apply String.eqb_eq in Heq. subst. exact Hin.
  - intros Hin. exists m. split; [exact Hin|apply String.eqb_refl].
Qed.

(** C6, as the code has it.  The image is converted to RGBA exactly when its
    mode is one of RGBA, LA and P, and to RGB in every other case.  On
    Pillow's modes these three are the ones with an alpha channel or a
    palette, except for PA, La and RGBa, which have one and go to RGB. *)
Theorem normalize_target {W} (E : Externals W) (image : Image) (s : state W) :
  (In (mode image) ["RGBA"; "LA"; "P"] ->
   normalize E image s
   = call (EvConvert image "RGBA") (convert E image "RGBA") s)
  /\ (~ In (mode image) ["RGBA"; "LA"; "P"] ->
      normalize E image s
      = call (EvConvert image "RGB") (convert E image "RGB") s)
  /\ (In (mode image) pillow_modes ->
      ~ In (mode image) ["PA"; "La"; "RGBa"] ->
      (has_alpha (mode image) || has_palette (mode image) = true
       <-> In (mode image) ["RGBA"; "LA"; "P"])).
Proof.
  unfold normalize. repeat split.
  - intros Hin. apply mode_in_iff in Hin. rewrite Hin. reflexivity.
  - intros Hin.
    destruct (mode_in (mode image) ["RGBA"; "LA"; "P"]) eqn:Hm; [|reflexivity].
    apply mode_in_iff in Hm. contradiction.
  - revert H H0. unfold pillow_modes. simpl In.
    intros Hm Hn Ha.
    repeat (destruct Hm as [Hm|Hm];
            [rewrite <- Hm in *; clear Hm; simpl in *; try discriminate; tauto|]).
    contradiction.
  - revert H H0. unfold pillow_modes. simpl In.
    intros Hm Hn Ha.
    repeat (destruct Hm as [Hm|Hm];
            [rewrite <- Hm in *; clear Hm; vm_compute; try reflexivity;
             repeat (destruct Ha as [Ha|Ha]; try discriminate); try contradiction|]).
    contradiction.
Qed.

Lemma normalize_target_witness :
  normalize Stub.stub {| mode := "P"; width := 4; height := 3; im := [] |} Stub.start
  = call (EvConvert {| mode := "P"; width := 4; height := 3; im := [] |} "RGBA")
         (convert Stub.stub {| mode := "P"; width := 4; height := 3; im := [] |} "RGBA")
         Stub.start.
Proof.
  apply (proj1 (normalize_target Stub.stub
                  {| mode := "P"; width := 4; height := 3; im := [] |} Stub.start)).
  simpl. auto.
Defined.

(** C6 fails as stated: a PA image has a palette and an alpha channel, and
    is converted to RGB. *)
Lemma normalize_PA_goes_to_RGB :
  exists image image' : Image,
    mode image = "PA"
    /\ has_alpha (mode image) = true
    /\ has_palette (mode image) = true
    /\ (forall W (E : Externals W) s,
           normalize E image s
           = call (EvConvert image "RGB") (convert E image "RGB") s)
    /\ fst (normalize Stub.stub image Stub.start) = inr image'
    /\ mode image' = "RGB".
Proof.
  exists {| mode := "PA"; width := 4; height := 3; im := [] |}.
  exists {| mode := "RGB"; width := 4; height := 3; im := [] |}.
  repeat split.
Qed.

(** ** The single-image endpoint *)

Section Single.

Context {W : Type} (E : Externals W).

Lemma declares_image_true f :
  declares_image f = true ->
  exists ct, content_type f = Some ct /\ startswith ct "image/" = true.
Proof.
  unfold declares_image. destruct (content_type f) as [ct|]; [|discriminate].
  intros H. exists ct. auto.
Qed.

Lemma single_not_declared_image f s ct :
  content_type f = Some ct -> startswith ct "image/" = false ->
  remove_background_single E f s
  = (inl (HTTPException 400 "El archivo debe ser una imagen"), s).
Proof.
  intros Hct Hprefix. unfold remove_background_single, content_type_startswith.
  rewrite Hct. run. rewrite Hprefix. reflexivity.
Qed.

Lemma single_no_content_type f s :
  content_type f = None ->
  remove_background_single E f s
  = (inl (HTTPException 500 "'NoneType' object has no attribute 'startswith'"), s).
Proof.
  intros Hct. unfold remove_background_single, content_type_startswith.
  rewrite Hct. reflexivity.
Qed.

(** A failure of [process_image] leaves the endpoint as it was raised. *)
Lemma single_processing_fails f s detail s' :
  declares_image f = true ->
  process_image E (file f) (record (EvRead f) s)
  = (inl (HTTPException 500 detail), s') ->
  remove_background_single E f s = (inl (HTTPException 500 detail), s').
Proof.
  intros Himg Hproc. destruct (declares_image_true f Himg) as [ct [Hct Hprefix]].
  unfold remove_background_single, content_type_startswith.
  rewrite Hct. run. rewrite Hprefix. simpl. rewrite Hproc. reflexivity.
Qed.

(** What the handler does once [process_image] has returned: it builds the
    response, which takes a file name that encodes as Latin-1. *)
Lemma single_processing_returns f s out s' :
  declares_image f = true ->
  process_image E (file f) (record (EvRead f) s) = (inr out, s') ->
  remove_background_single E f s
  = (match latin1_error (content_disposition f) with
     | None => inr {| content := Bytes out;
                      status_code := 200;
                      media_type := "image/jpeg";
                      headers := [("Content-Disposition", content_disposition f)] |}
     | Some msg => inl (HTTPException 500 msg)
     end, s').
Proof.
  intros Himg Hproc. destruct (declares_image_true f Himg) as [ct [Hct Hprefix]].
  unfold remove_background_single, content_type_startswith.
  rewrite Hct. run. rewrite Hprefix. simpl. rewrite Hproc.
  rewrite Response_init_one. unfold content_disposition. simpl.
  destruct (latin1_error _); reflexivity.
Qed.

End Single.

(** C4, as the code has it.  A declared content type that does not start
    with image/ is answered with HTTP 400 and the message "El archivo debe
    ser una imagen", and the upload is not read. *)
Theorem single_declared_non_image_is_400 {W} (E : Externals W)
  (f : UploadFile) (s : state W) (ct : string) :
  content_type f = Some ct ->
  startswith ct "image/" = false ->
  remove_background_single E f s
  = (inl (HTTPException 400 "El archivo debe ser una imagen"), s)
  /\ http_status (fst (remove_background_single E f s)) = 400.
Proof.
  intros Hct Hprefix.
  rewrite (single_not_declared_image E f s ct Hct Hprefix). split; reflexivity.
Qed.

Lemma single_declared_non_image_is_400_witness :
  content_type Stub.notes = Some "text/plain"
  /\ startswith "text/plain" "image/" = false
  /\ http_status (fst (remove_background_single Stub.stub Stub.notes Stub.start)) = 400.
Proof.
  split; [reflexivity|]. split; [reflexivity|].
  apply (single_declared_non_image_is_400 Stub.stub Stub.notes Stub.start "text/plain");
    reflexivity.
Defined.

(** C4 fails as stated: bytes that are no image, uploaded as image/jpeg, are
    answered with HTTP 500. *)
Lemma single_non_image_data_is_500 :
  exists f : UploadFile,
    ~ is_image_data Stub.stub f
    /\ fst (remove_background_single Stub.stub f Stub.start)
       = inl (HTTPException 500 "Error procesando imagen: cannot identify image file")
    /\ http_status (fst (remove_background_single Stub.stub f Stub.start)) = 500.
Proof.
  exists Stub.broken. split; [|split; reflexivity].
  intros [image H]. discriminate H.
Qed.

(** ** Failures of the pipeline *)

(** C7.  When one of the six steps raises, [process_image] raises one
    [HTTPException] with status 500 whose detail is "Error procesando
    imagen: " followed by the message of the exception raised, and the
    single-image endpoint passes it on unchanged.  [process_image] returns
    bytes only when all six steps have succeeded, and otherwise raises. *)
Theorem process_image_failure_is_500 {W} (E : Externals W)
  (image_bytes : bytes) (s : state W) :
  (forall e s',
      step_raises E image_bytes s e s' ->
      exists msg,
        e = Exception msg
        /\ process_image E image_bytes s
           = (inl (HTTPException 500 ("Error procesando imagen: " ++ msg)), s')
        /\ forall f s0,
            declares_image f = true -> file f = image_bytes ->
            s = record (EvRead f) s0 ->
            remove_background_single E f s0
            = (inl (HTTPException 500 ("Error procesando imagen: " ++ msg)), s')
            /\ http_status (fst (remove_background_single E f s0)) = 500)
  /\ (forall out s',
         process_image E image_bytes s = (inr out, s') ->
         encoded E image_bytes s out s')
  /\ ((exists out s', process_image E image_bytes s = (inr out, s'))
      \/ (exists e s', step_raises E image_bytes s e s')).
Proof.
  split; [|split].
  - intros e s' Hstep. apply body_raises_iff in Hstep.
    destruct (process_image_body_raises E _ _ _ _ Hstep) as [msg ->].
    exists msg. split; [reflexivity|].
    pose proof (process_image_raises E _ _ _ _ Hstep) as Hproc.
    split; [exact Hproc|].
    intros f s0 Himg Hfile Hs. subst.
    rewrite (single_processing_fails E f s0 _ s' Himg Hproc).
    split; reflexivity.
  - intros out s' Hproc. apply body_returns_iff.
    destruct (process_image_cases E image_bytes s)
      as [(out' & s'' & Hbody & Hp)|(msg & s'' & Hbody & Hp)];
      rewrite Hp in Hproc; invert_results.
    exact Hbody.
  - destruct (process_image_cases E image_bytes s)
      as [(out' & s'' & Hbody & Hp)|(msg & s'' & Hbody & Hp)].
    + left. eauto.
    + right. exists (Exception msg), s''. apply body_raises_iff. exact Hbody.
Qed.

Lemma process_image_failure_is_500_witness :
  step_raises Stub.stub [] (record (EvRead Stub.broken) Stub.start)
    (Exception "cannot identify image file")
    (record (EvOpen []) (record (EvRead Stub.broken) Stub.start))
  /\ exists msg,
      Exception "cannot identify image file" = Exception msg
      /\ process_image Stub.stub [] (record (EvRead Stub.broken) Stub.start)
         = (inl (HTTPException 500 ("Error procesando imagen: " ++ msg)),
            record (EvOpen []) (record (EvRead Stub.broken) Stub.start))
      /\ forall f s0,
          declares_image f = true -> file f = [] ->
          record (EvRead Stub.broken) Stub.start = record (EvRead f) s0 ->
          remove_background_single Stub.stub f s0
          = (inl (HTTPException 500 ("Error procesando imagen: " ++ msg)),
             record (EvOpen []) (record (EvRead Stub.broken) Stub.start))
          /\ http_status (fst (remove_background_single Stub.stub f s0)) = 500.
Proof.
  assert (H : step_raises Stub.stub [] (record (EvRead Stub.broken) Stub.start)
                (Exception "cannot identify image file")
                (record (EvOpen []) (record (EvRead Stub.broken) Stub.start)))
    by (apply raises_decode; reflexivity).
  split; [exact H|].
  exact (proj1 (process_image_failure_is_500 Stub.stub []
                  (record (EvRead Stub.broken) Stub.start)) _ _ H).
Defined.

(** ** Runs of the pipeline from different states

    Among the calls of the module only [remove] is given the state of the
    model.  These lemmas carry that through the pipeline; they serve to
    compare what the batch loop and the single endpoint make of one
    upload. *)

Section Stateless.

Context {W : Type}.

Lemma stateless_ret {A} (a : A) : stateless (@ret W A a).
Proof. intros s1 s2. reflexivity. Qed.

Lemma stateless_raise {A} (e : exn) : stateless (@raise W A e).
Proof. intros s1 s2. reflexivity. Qed.

Lemma stateless_call {A} (ev : event) (r : string + A) : stateless (@call W A ev r).
Proof. intros s1 s2. reflexivity. Qed.

Lemma stateless_bind {A B} (m : M W A) (k : A -> M W B) :
  stateless m -> (forall a, stateless (k a)) -> stateless (bind m k).
Proof.
  intros Hm Hk s1 s2. unfold bind. specialize (Hm s1 s2).
  destruct (m s1) as [[e1|a1] s1'], (m s2) as [[e2|a2] s2']; simpl in Hm;
    try discriminate; inversion Hm; subst; [reflexivity|apply Hk].
Qed.

Lemma stateless_try_except {A} (body : M W A) (handler : exn -> M W A) :
  stateless body -> (forall e, stateless (handler e)) ->
  stateless (try_except body handler).
Proof.
  intros Hb Hh s1 s2. unfold try_except. specialize (Hb s1 s2).
  destruct (body s1) as [[e1|a1] s1'], (body s2) as [[e2|a2] s2']; simpl in Hb;
    try discriminate; inversion Hb; subst; [apply Hh|reflexivity].
Qed.

Variable E : Externals W.

Lemma stateless_normalize image : stateless (normalize E image).
Proof. unfold normalize. destruct (mode_in _ _); apply stateless_call. Qed.

Lemma stateless_optimize_image image : stateless (optimize_image E image).
Proof.
  unfold optimize_image. destruct (_ <? _); [|apply stateless_ret].
  destruct (new_height_of image); [apply stateless_raise|apply stateless_call].
Qed.

Hypothesis removal : deterministic_removal E.

Lemma stateless_call_remove image : stateless (call_remove E image).
Proof.
  intros s1 s2. unfold call_remove.
  specialize (removal image (world s1) (world s2)).
  destruct (remove E image (world s1)) as [r1 w1],
           (remove E image (world s2)) as [r2 w2].
  simpl in *. subst. reflexivity.
Qed.

Lemma stateless_process_image image_bytes : stateless (process_image E image_bytes).
Proof.
  unfold process_image, process_image_body.
  apply stateless_try_except; [|intros e; apply stateless_raise].
  repeat (apply stateless_bind; [|intros ?]);
    auto using stateless_call, stateless_ret, stateless_normalize,
      stateless_optimize_image, stateless_call_remove.
Qed.

End Stateless.

Lemma stub_removal_deterministic : deterministic_removal Stub.stub.
Proof. intros image w1 w2. reflexivity. Qed.

(** A model that answers by its state gives two different outputs for the
    same bytes. *)
Example moody_runs_differ :
  fst (process_image Stub.moody (file Stub.photo) Stub.start)
  <> fst (process_image Stub.moody (file Stub.photo)
            (snd (process_image Stub.moody (file Stub.photo) Stub.start))).
Proof. vm_compute. discriminate. Qed.

(** ** The batch loop *)

Section Batch.

Context {W : Type} (E : Externals W).

(** An item that does not declare an image type leaves the archive and the
    state as they are: it is not read. *)
Lemma batch_item_not_declared idx f zip_file s :
  declares_image f = false ->
  batch_item E idx f zip_file s = (inr zip_file, s).
Proof.
  unfold declares_image, batch_item, content_type_startswith.
  destruct (content_type f) as [ct|]; run; [|reflexivity].
  intros ->. reflexivity.
Qed.

(** An item whose processing raises leaves the archive as it is. *)
Lemma batch_item_failure idx f zip_file s e s' :
  declares_image f = true ->
  process_image E (file f) (record (EvRead f) s) = (inl e, s') ->
  batch_item E idx f zip_file s = (inr zip_file, s').
Proof.
  intros Himg Hproc. destruct (declares_image_true f Himg) as [ct [Hct Hprefix]].
  unfold batch_item, content_type_startswith. rewrite Hct. run.
  rewrite Hprefix. simpl. rewrite Hproc. reflexivity.
Qed.

(** An item that is processed is handed to [writestr] under the name of its
    position; the archive gains what that call leaves in it. *)
Lemma batch_item_processed idx f zip_file s data s' :
  declares_image f = true ->
  process_image E (file f) (record (EvRead f) s) = (inr data, s') ->
  batch_item E idx f zip_file s
  = (inr (zip_file ++ stored (zip_filename_of idx (filename f)) data)%list,
     record (EvWritestr (zip_filename_of idx (filename f)) data) s').
Proof.
  intros Himg Hproc. destruct (declares_image_true f Himg) as [ct [Hct Hprefix]].
  unfold batch_item, content_type_startswith. rewrite Hct.
  unfold bind, try_except, ret, read. rewrite Hprefix. cbn beta iota delta [negb].
  rewrite Hproc. unfold writestr, stored, fits.
  fold (zip_filename_of idx (filename f)). cbv zeta.
  destruct (stored_name (zip_filename_of idx (filename f))) as [|c name];
    [rewrite app_nil_r; reflexivity|].
  destruct (Z.of_nat (String.length (String c name)) <=? 65535); [reflexivity|].
  rewrite app_nil_r. reflexivity.
Qed.

(** An item that is processed and whose name fits is written. *)
Lemma batch_item_success idx f zip_file s data s' :
  declares_image f = true ->
  process_image E (file f) (record (EvRead f) s) = (inr data, s') ->
  fits (zip_filename_of idx (filename f)) = true ->
  batch_item E idx f zip_file s
  = (inr (zip_file
          ++ [(stored_name (zip_filename_of idx (filename f)), data)])%list,
     record (EvWritestr (zip_filename_of idx (filename f)) data) s').
Proof.
  intros Himg Hproc Hfits.
  rewrite (batch_item_processed idx f zip_file s data s' Himg Hproc).
  unfold stored. rewrite Hfits. reflexivity.
Qed.

Lemma batch_item_cases idx f zip_file s :
  exists s',
    batch_item E idx f zip_file s = (inr zip_file, s')
    \/ exists data,
        batch_item E idx f zip_file s
        = (inr (zip_file
                ++ [(stored_name (zip_filename_of idx (filename f)), data)])%list, s').
Proof.
  destruct (declares_image f) eqn:Himg.
  - destruct (process_image E (file f) (record (EvRead f) s)) as [[e|data] s'] eqn:Hproc.
    + exists s'. left. eapply batch_item_failure; eassumption.
    + eexists. rewrite (batch_item_processed idx f zip_file s data s' Himg Hproc).
      unfold stored. destruct (fits _).
      * right. exists data. reflexivity.
      * left. rewrite app_nil_r. reflexivity.
  - exists s. left. apply batch_item_not_declared, Himg.
Qed.

Lemma batch_loop_cons idx f rest zip_file s zip_file' s' :
  batch_item E idx f zip_file s = (inr zip_file', s') ->
  batch_loop E idx (f :: rest) zip_file s = batch_loop E (S idx) rest zip_file' s'.
Proof. intros H. simpl. unfold bind. rewrite H. reflexivity. Qed.

(** The loop over a list in two parts: the second part goes on from the
    archive, the state and the index the first part ends with. *)
Lemma batch_loop_app pre post : forall idx zip_file s zip_pre s1,
  batch_loop E idx pre zip_file s = (inr zip_pre, s1) ->
  batch_loop E idx (pre ++ post) zip_file s
  = batch_loop E (idx + List.length pre) post zip_pre s1.
Proof.
  induction pre as [|f pre IH]; intros idx zip_file s zip_pre s1 Hpre; simpl in *.
  - unfold ret in Hpre. invert_results. rewrite Nat.add_0_r. reflexivity.
  - unfold bind in *.
    destruct (batch_item E idx f zip_file s) as [[e|z] s0]; [discriminate|].
    rewrite (IH _ _ _ _ _ Hpre). f_equal. lia.
Qed.

(** The loop never raises, only adds to the archive, and adds members made
    from the files in their order. *)
Lemma batch_loop_members files : forall idx zip_file s,
  exists members s',
    batch_loop E idx files zip_file s = (inr (zip_file ++ members)%list, s')
    /\ members_from idx files members.
Proof.
  induction files as [|f rest IH]; intros idx zip_file s.
  - exists [], s. simpl. rewrite app_nil_r. split; [reflexivity|constructor].
  - destruct (batch_item_cases idx f zip_file s) as [s0 [Hskip|[data Hkeep]]].
    + destruct (IH (S idx) zip_file s0) as (members & s' & Hrest & Hfrom).
      exists members, s'. rewrite (batch_loop_cons _ _ _ _ _ _ _ Hskip).
      split; [exact Hrest|constructor; exact Hfrom].
    + destruct (IH (S idx)
                  (zip_file ++ [(stored_name (zip_filename_of idx (filename f)), data)])%list
                  s0)
        as (members & s' & Hrest & Hfrom).
      exists ((stored_name (zip_filename_of idx (filename f)), data) :: members), s'.
      rewrite (batch_loop_cons _ _ _ _ _ _ _ Hkeep), Hrest, <- app_assoc.
      split; [reflexivity|constructor; exact Hfrom].
Qed.

(** What a turn adds to the archive does not depend on what the archive
    holds. *)
Lemma batch_item_archive idx f zip_file zip_file0 s :
  exists members s',
    batch_item E idx f zip_file s = (inr (zip_file ++ members)%list, s')
    /\ batch_item E idx f zip_file0 s = (inr (zip_file0 ++ members)%list, s').
Proof.
  destruct (declares_image f) eqn:Himg.
  - destruct (process_image E (file f) (record (EvRead f) s)) as [[e|data] s'] eqn:Hproc.
    + exists [], s'. rewrite !app_nil_r.
      split; eapply batch_item_failure; eassumption.
    + eexists. eexists. split; eapply batch_item_processed; eassumption.
  - exists [], s. rewrite !app_nil_r. split; apply batch_item_not_declared, Himg.
Qed.

Lemma batch_loop_archive files : forall idx zip_file zip_file0 s,
  exists members s',
    batch_loop E idx files zip_file s = (inr (zip_file ++ members)%list, s')
    /\ batch_loop E idx files zip_file0 s = (inr (zip_file0 ++ members)%list, s').
Proof.
  induction files as [|f rest IH]; intros idx zip_file zip_file0 s.
  - exists [], s. simpl. rewrite !app_nil_r. split; reflexivity.
  - destruct (batch_item_archive idx f zip_file zip_file0 s)
      as (m1 & s1 & Hitem & Hitem0).
    destruct (IH (S idx) (zip_file ++ m1)%list (zip_file0 ++ m1)%list s1)
      as (m2 & s2 & Hrest & Hrest0).
    exists (m1 ++ m2)%list, s2.
    rewrite (batch_loop_cons _ _ _ _ _ _ _ Hitem), Hrest.
    rewrite (batch_loop_cons _ _ _ _ _ _ _ Hitem0), Hrest0.
    rewrite !app_assoc. split; reflexivity.
Qed.

Lemma validate_batch_ok files (s : state W) :
  (1 <= List.length files <= 15)%nat -> validate_batch files s = (inr tt, s).
Proof.
  intros Hlen. unfold validate_batch, MAX_BATCH_SIZE. run.
  destruct (Nat.ltb_spec 15 (List.length files)); [lia|].
  destruct (Nat.eqb_spec (List.length files) 0); [lia|reflexivity].
Qed.

(** A batch of admissible size is answered with the archive the loop made. *)
Lemma batch_endpoint_valid files s zip_file s' :
  (1 <= List.length files <= 15)%nat ->
  batch_loop E 0 files [] s = (inr zip_file, s') ->
  remove_background_batch E files s
  = (inr {| content := Zip zip_file;
            status_code := 200;
            media_type := "application/zip";
            headers := [("Content-Disposition",
                         "attachment; filename=" ++ dquote
                         ++ "processed_garments.zip" ++ dquote)] |}, s').
Proof.
  intros Hlen Hloop. unfold remove_background_batch, try_except, bind.
  rewrite (validate_batch_ok files s Hlen), Hloop. reflexivity.
Qed.

Lemma batch_endpoint_rejects files s :
  (List.length files = 0 \/ 15 < List.length files)%nat ->
  exists detail,
    remove_background_batch E files s = (inl (HTTPException 400 detail), s).
Proof.
  intros Hlen. unfold remove_background_batch, validate_batch, MAX_BATCH_SIZE. run.
  destruct (Nat.ltb_spec 15 (List.length files)).
  - eexists. reflexivity.
  - destruct (Nat.eqb_spec (List.length files) 0); [|lia].
    eexists. reflexivity.
Qed.

End Batch.

(** *** Members of the archive *)

Lemma members_from_names idx files members :
  members_from idx files members ->
  Forall (fun name => exists i, (idx <= i < idx + List.length files)%nat
                                /\ index_of_name name = Some i)
         (map fst members).
Proof.
  induction 1 as [idx|idx f rest members _ IH|idx f rest data members _ IH]; simpl.
  - constructor.
  - eapply Forall_impl; [|exact IH].
    intros name (i & Hi & Hname). exists i. split; [lia|exact Hname].
  - constructor.
    + exists idx. split; [lia|apply index_of_stored_name].
    + eapply Forall_impl; [|exact IH].
      intros name (i & Hi & Hname). exists i. split; [lia|exact Hname].
Qed.

(** Members made from files whose names hold no NUL end in ".jpg". *)
Lemma members_from_jpg idx files members :
  members_from idx files members ->
  (forall f, In f files -> str_in NUL (filename f) = false) ->
  Forall (fun name => endswith name ".jpg") (map fst members).
Proof.
  induction 1 as [idx|idx f rest members _ IH|idx f rest data members _ IH];
    intros Hclean; simpl.
  - constructor.
  - apply IH. intros g Hg. apply Hclean. right. exact Hg.
  - constructor.
    + rewrite stored_zip_filename_clean by (apply Hclean; left; reflexivity).
      apply zip_filename_of_jpg.
    + apply IH. intros g Hg. apply Hclean. right. exact Hg.
Qed.

Lemma members_from_NoDup idx files members :
  members_from idx files members -> NoDup (map fst members).
Proof.
  induction 1 as [idx|idx f rest members _ IH|idx f rest data members Hfrom IH]; simpl.
  - constructor.
  - exact IH.
  - constructor; [|exact IH].
    intros Hin. pose proof (members_from_names _ _ _ Hfrom) as Hnames.
    rewrite Forall_forall in Hnames.
    destruct (Hnames _ Hin) as (i & Hi & Hname).
    rewrite index_of_stored_name in Hname. inversion Hname. lia.
Qed.

Lemma members_from_length idx files members :
  members_from idx files members -> (List.length members <= List.length files)%nat.
Proof. induction 1; simpl; lia. Qed.

(** ** The batch endpoint *)

(** The check of the handler (lines 160-167).  Called with an empty list or
    with more than 15 files it raises [HTTPException] 400 in the state it
    was called in: nothing has been read, decoded or written.  A list of 1
    to 15 files passes the check and is answered with a response. *)
Lemma batch_size_validation {W} (E : Externals W)
  (files : list UploadFile) (s : state W) :
  (List.length files = 0%nat ->
   remove_background_batch E files s
   = (inl (HTTPException 400 "No se recibieron imágenes"), s))
  /\ ((15 < List.length files)%nat ->
      remove_background_batch E files s
      = (inl (HTTPException 400
                ("Máximo 15 imágenes por lote. Recibidas: "
                 ++ str_of_nat (List.length files))), s))
  /\ ((List.length files = 0 \/ 15 < List.length files)%nat ->
      http_status (fst (remove_background_batch E files s)) = 400
      /\ trace (snd (remove_background_batch E files s)) = trace s)
  /\ ((1 <= List.length files <= 15)%nat ->
      validate_batch files s = (inr tt, s)
      /\ exists response s',
          remove_background_batch E files s = (inr response, s')).
Proof.
  split; [|split; [|split]].
  - intros Hlen. unfold remove_background_batch, validate_batch. run.
    rewrite Hlen. reflexivity.
  - intros Hlen. unfold remove_background_batch, validate_batch, MAX_BATCH_SIZE. run.
    destruct (Nat.ltb_spec 15 (List.length files)); [reflexivity|lia].
  - intros Hlen. destruct (batch_endpoint_rejects E files s Hlen) as [detail ->].
    split; reflexivity.
  - intros Hlen. split; [apply validate_batch_ok, Hlen|].
    destruct (batch_loop_members E files 0%nat [] s) as (members & s' & Hloop & _).
    eexists. exists s'. apply batch_endpoint_valid; eassumption.
Qed.

(** C5.  A batch request without files does not get the 400 of lines
    166-167.  The parameter [files] is required (line 147), so FastAPI
    answers such a request with 422 and does not call the handler: the check
    for an empty list, which raises 400 when the handler is called with one,
    is never reached.  A request with files reaches the handler: with more
    than 15 it is answered with 400 in the state it arrived in, with 1 to 15
    it passes the check. *)
Theorem batch_request_without_files_is_422 {W} (E : Externals W)
  (files : list UploadFile) (s : state W) :
  route_remove_background_batch E [] s = (Unprocessable, s)
  /\ served_status (fst (route_remove_background_batch E [] s)) = 422
  /\ remove_background_batch E [] s
     = (inl (HTTPException 400 "No se recibieron imágenes"), s)
  /\ ((15 < List.length files)%nat ->
      route_remove_background_batch E files s
      = (Handled (inl (HTTPException 400
                         ("Máximo 15 imágenes por lote. Recibidas: "
                          ++ str_of_nat (List.length files)))), s)
      /\ served_status (fst (route_remove_background_batch E files s)) = 400)
  /\ ((1 <= List.length files <= 15)%nat ->
      validate_batch files s = (inr tt, s)
      /\ exists response s',
          route_remove_background_batch E files s = (Handled (inr response), s')).
Proof.
  destruct (batch_size_validation E files s) as (_ & Hmany & _ & Hfew).
  split; [reflexivity|]. split; [reflexivity|].
  split; [apply (batch_size_validation E [] s); reflexivity|].
  split.
  - intros Hlen. unfold route_remove_background_batch.
    destruct files as [|f rest]; [simpl in Hlen; lia|].
    rewrite (Hmany Hlen). split; reflexivity.
  - intros Hlen. destruct (Hfew Hlen) as (Hcheck & response & s' & Hrun).
    split; [exact Hcheck|]. exists response, s'.
    unfold route_remove_background_batch.
    destruct files as [|f rest]; [simpl in Hlen; lia|].
    rewrite Hrun. reflexivity.
Qed.

Example batch_request_of_sixteen_is_400 :
  route_remove_background_batch Stub.stub (repeat Stub.photo 16) Stub.start
  = (Handled (inl (HTTPException 400 "Máximo 15 imágenes por lote. Recibidas: 16")),
     Stub.start).
Proof. reflexivity. Qed.

Example batch_of_sixteen_is_400 :
  remove_background_batch Stub.stub (repeat Stub.photo 16) Stub.start
  = (inl (HTTPException 400 "Máximo 15 imágenes por lote. Recibidas: 16"), Stub.start).
Proof. reflexivity. Qed.

Example batch_of_none_is_400 :
  remove_background_batch Stub.stub [] Stub.start
  = (inl (HTTPException 400 "No se recibieron imágenes"), Stub.start).
Proof. reflexivity. Qed.

Example batch_of_fifteen_names :
  exists response s',
    remove_background_batch Stub.stub (repeat Stub.photo 15) Stub.start
    = (inr response, s')
    /\ exists members,
        content response = Zip members
        /\ map fst members
           = ["000_shirt.jpg"; "001_shirt.jpg"; "002_shirt.jpg"; "003_shirt.jpg";
              "004_shirt.jpg"; "005_shirt.jpg"; "006_shirt.jpg"; "007_shirt.jpg";
              "008_shirt.jpg"; "009_shirt.jpg"; "010_shirt.jpg"; "011_shirt.jpg";
              "012_shirt.jpg"; "013_shirt.jpg"; "014_shirt.jpg"].
Proof.
  eexists. eexists. split; [vm_compute; reflexivity|].
  eexists. split; reflexivity.
Qed.

Section BatchSkips.

Context {W : Type} (E : Externals W).

Lemma batch_item_left_out idx f zip_file s :
  left_out E f s ->
  exists s', batch_item E idx f zip_file s = (inr zip_file, s')
             /\ (declares_image f = false -> s' = s).
Proof.
  intros [Htype|(e & s' & Hproc)].
  - exists s. split; [apply batch_item_not_declared, Htype|reflexivity].
  - destruct (declares_image f) eqn:Himg.
    + exists s'. split; [eapply batch_item_failure; eassumption|discriminate].
    + exists s. split; [apply batch_item_not_declared, Himg|reflexivity].
Qed.

Lemma batch_loop_all_left_out files : forall idx zip_file s,
  (forall f s0, In f files -> left_out E f s0) ->
  exists s', batch_loop E idx files zip_file s = (inr zip_file, s').
Proof.
  induction files as [|f rest IH]; intros idx zip_file s Hall.
  - exists s. reflexivity.
  - destruct (batch_item_left_out idx f zip_file s (Hall f s (or_introl eq_refl)))
      as (s0 & Hitem & _).
    destruct (IH (S idx) zip_file s0) as [s' Hrest].
    + intros g s1 Hin. apply Hall. right. exact Hin.
    + exists s'. rewrite (batch_loop_cons E _ _ _ _ _ _ _ Hitem). exact Hrest.
Qed.

End BatchSkips.

Section BatchItems.

Context {W : Type} (E : Externals W).

Lemma batch_loop_from_start pre s zip_pre s1 :
  batch_loop E 0 pre [] s = (inr zip_pre, s1) -> members_from 0 pre zip_pre.
Proof.
  intros Hpre.
  destruct (batch_loop_members E pre 0%nat [] s) as (members & s' & Hloop & Hfrom).
  rewrite Hloop in Hpre. simpl in Hpre. invert_results. exact Hfrom.
Qed.

(** The loop at the item that follows [pre]. *)
Lemma batch_loop_at pre f post s zip_pre s1 zip_file s2 :
  batch_loop E 0 pre [] s = (inr zip_pre, s1) ->
  batch_item E (List.length pre) f zip_pre s1 = (inr zip_file, s2) ->
  batch_loop E 0 (pre ++ f :: post) [] s
  = batch_loop E (S (List.length pre)) post zip_file s2.
Proof.
  intros Hpre Hitem.
  rewrite (batch_loop_app E pre (f :: post) _ _ _ _ _ Hpre). simpl plus.
  apply batch_loop_cons, Hitem.
Qed.

End BatchItems.

(** C2, as the code has it.  In a batch of 1 to 15 files, an item that
    declares an image type, whose processing returns [data] and whose file
    name holds no NUL and gives a member name of at most 65535 bytes, is
    kept in the archive as [{index:03d}_{basename}.jpg], where index is the
    number of files before it in the list, whatever became of them, and
    basename is its file name up to the last dot, or the whole file name
    when it has no dot.  The member comes after those made from the files
    before it, whose names start with smaller numbers, and before those made
    from the files after it, whose names start with larger ones. *)
Theorem batch_member_named_by_position {W} (E : Externals W)
  (pre post : list UploadFile) (f : UploadFile) (s s1 s2 : state W)
  (zip_pre : ZipFile) (data : bytes) :
  (1 <= List.length (pre ++ f :: post) <= 15)%nat ->
  batch_loop E 0 pre [] s = (inr zip_pre, s1) ->
  declares_image f = true ->
  process_image E (file f) (record (EvRead f) s1) = (inr data, s2) ->
  str_in NUL (filename f) = false ->
  Z.of_nat (String.length (zip_filename_of (List.length pre) (filename f))) <= 65535 ->
  exists zip_post response s3,
    remove_background_batch E (pre ++ f :: post) s = (inr response, s3)
    /\ content response
       = Zip (zip_pre
              ++ ((format_03d (List.length pre) ++ "_"
                   ++ base_name_of (filename f) ++ ".jpg")%string, data)
                 :: zip_post)%list
    /\ members_from 0 pre zip_pre
    /\ members_from (S (List.length pre)) post zip_post
    /\ Forall (fun name => exists i, (i < List.length pre)%nat
                                     /\ index_of_name name = Some i)
              (map fst zip_pre)
    /\ Forall (fun name => exists i, (List.length pre < i)%nat
                                     /\ index_of_name name = Some i)
              (map fst zip_post)
    /\ (forall stem ext,
           filename f = stem ++ "." ++ ext -> str_in "." ext = false ->
           base_name_of (filename f) = stem)
    /\ (str_in "." (filename f) = false -> base_name_of (filename f) = filename f)
    /\ String.length (format_03d (List.length pre)) = 3%nat
    /\ option_map Nat.of_uint (NilEmpty.uint_of_string (format_03d (List.length pre)))
       = Some (List.length pre).
Proof.
  intros Hlen Hpre Himg Hproc Hclean Hshort.
  pose proof (stored_zip_filename_clean (List.length pre) (filename f) Hclean) as Hname.
  assert (Hfits : fits (zip_filename_of (List.length pre) (filename f)) = true).
  { unfold fits. rewrite Hname.
    destruct (zip_filename_of_not_empty (List.length pre) (filename f))
      as (c & rest & Hcons).
    rewrite Hcons in *. apply Z.leb_le, Hshort. }
  pose proof (batch_item_success E (List.length pre) f zip_pre s1 data s2 Himg Hproc Hfits)
    as Hitem.
  rewrite Hname in Hitem.
  destruct (batch_loop_members E post (S (List.length pre))
              (zip_pre ++ [(zip_filename_of (List.length pre) (filename f), data)])%list
              (record (EvWritestr (zip_filename_of (List.length pre) (filename f)) data) s2))
    as (zip_post & s3 & Hpost & Hfrom).
  pose proof (batch_loop_at E pre f post s zip_pre s1 _ _ Hpre Hitem) as Hall.
  rewrite Hpost, <- app_assoc in Hall. simpl app in Hall.
  exists zip_post. eexists. exists s3.
  split; [apply batch_endpoint_valid; eassumption|].
  split; [reflexivity|].
  pose proof (batch_loop_from_start E pre s zip_pre s1 Hpre) as Hfrom_pre.
  split; [exact Hfrom_pre|].
  split; [exact Hfrom|].
  split.
  { eapply Forall_impl; [|eapply members_from_names; exact Hfrom_pre].
    intros name (i & Hi & Hidx). exists i. split; [lia|exact Hidx]. }
  split.
  { eapply Forall_impl; [|eapply members_from_names; exact Hfrom].
    intros name (i & Hi & Hidx). exists i. split; [lia|exact Hidx]. }
  split; [intros stem ext Hcut Hext; rewrite Hcut; apply base_name_of_ext, Hext|].
  split; [apply base_name_of_plain|].
  split; [|apply of_uint_format_03d].
  apply format_03d_length. rewrite length_app in Hlen. simpl in Hlen. lia.
Qed.

Lemma batch_member_named_by_position_witness :
  (1 <= List.length ([Stub.notes] ++ Stub.photo :: [Stub.broken]) <= 15)%nat
  /\ batch_loop Stub.stub 0 [Stub.notes] [] Stub.start = (inr [], Stub.start)
  /\ declares_image Stub.photo = true
  /\ process_image Stub.stub (file Stub.photo) (record (EvRead Stub.photo) Stub.start)
     = (inr [x04; x03; x07], Stub.after_notes_photo)
  /\ str_in NUL (filename Stub.photo) = false
  /\ Z.of_nat (String.length (zip_filename_of 1 (filename Stub.photo))) <= 65535
  /\ exists zip_post response s3,
      remove_background_batch Stub.stub
        ([Stub.notes] ++ Stub.photo :: [Stub.broken]) Stub.start
      = (inr response, s3)
      /\ content response = Zip ([] ++ ("001_shirt.jpg", [x04; x03; x07]) :: zip_post)%list.
Proof.
  assert (Hlen : (1 <= List.length ([Stub.notes] ++ Stub.photo :: [Stub.broken]) <= 15)%nat)
    by (simpl; lia).
  assert (Hpre : batch_loop Stub.stub 0 [Stub.notes] [] Stub.start = (inr [], Stub.start))
    by reflexivity.
  assert (Himg : declares_image Stub.photo = true) by reflexivity.
  assert (Hproc : process_image Stub.stub (file Stub.photo)
                    (record (EvRead Stub.photo) Stub.start)
                  = (inr [x04; x03; x07], Stub.after_notes_photo)) by reflexivity.
  assert (Hclean : str_in NUL (filename Stub.photo) = false) by reflexivity.
  assert (Hshort : Z.of_nat (String.length (zip_filename_of 1 (filename Stub.photo)))
                   <= 65535) by (vm_compute; discriminate).
  split; [exact Hlen|]. split; [exact Hpre|]. split; [exact Himg|].
  split; [exact Hproc|]. split; [exact Hclean|]. split; [exact Hshort|].
  destruct (batch_member_named_by_position Stub.stub [Stub.notes] [Stub.broken]
              Stub.photo Stub.start Stub.start Stub.after_notes_photo [] [x04; x03; x07]
              Hlen Hpre Himg Hproc Hclean Hshort)
    as (zip_post & response & s3 & Hrun & Hcontent & _).
  exists zip_post, response, s3. split; [exact Hrun|exact Hcontent].
Defined.

(** C2 fails as stated: an upload named a, NUL, b.png is processed, and its
    member is kept as 000_a, which is not the name made from its position
    and base name: [zipfile] ends a name at the first NUL. *)
Lemma batch_member_name_is_cut_at_NUL :
  exists data s1 response s2,
    declares_image Stub.cut = true
    /\ process_image Stub.stub (file Stub.cut) (record (EvRead Stub.cut) Stub.start)
       = (inr data, s1)
    /\ remove_background_batch Stub.stub [Stub.cut] Stub.start = (inr response, s2)
    /\ content response = Zip [("000_a", data)]
    /\ zip_filename_of 0 (filename Stub.cut) = "000_a" ++ String NUL "b.jpg"
    /\ ~ In (zip_filename_of 0 (filename Stub.cut)) (map fst [("000_a", data)]).
Proof.
  do 4 eexists. split; [reflexivity|]. split; [vm_compute; reflexivity|].
  split; [vm_compute; reflexivity|]. split; [reflexivity|].
  split; [reflexivity|]. intros [H|[]]. discriminate H.
Qed.

(** A name of more than 65535 bytes is no better: [writestr] raises, the
    loop passes on, and the upload has no member at all. *)
Example batch_drops_a_lengthy_name :
  exists data response,
    fst (process_image Stub.stub (file Stub.lengthy)
           (record (EvRead Stub.lengthy) Stub.start)) = inr data
    /\ fits (zip_filename_of 0 (filename Stub.lengthy)) = false
    /\ fst (remove_background_batch Stub.stub [Stub.lengthy; Stub.photo] Stub.start)
       = inr response
    /\ content response = Zip [("001_shirt.jpg", data)].
Proof.
  do 2 eexists. split; [vm_compute; reflexivity|].
  split; [vm_compute; reflexivity|].
  split; [vm_compute; reflexivity|reflexivity].
Qed.

(** C8.  A batch of 1 to 15 files is answered with HTTP 200 and a ZIP
    archive whatever becomes of its items; when every item is left out the
    archive has no member. *)
Theorem batch_of_failures_is_200 {W} (E : Externals W)
  (files : list UploadFile) (s : state W) :
  (1 <= List.length files <= 15)%nat ->
  exists zip_file s',
    remove_background_batch E files s
    = (inr {| content := Zip zip_file;
              status_code := 200;
              media_type := "application/zip";
              headers := [("Content-Disposition",
                           "attachment; filename=" ++ dquote
                           ++ "processed_garments.zip" ++ dquote)] |}, s')
    /\ http_status (fst (remove_background_batch E files s)) = 200
    /\ ((forall f s0, In f files -> left_out E f s0) -> zip_file = []).
Proof.
  intros Hlen.
  destruct (batch_loop_members E files 0%nat [] s) as (members & s' & Hloop & _).
  simpl in Hloop. exists members, s'.
  rewrite (batch_endpoint_valid E files s members s' Hlen Hloop).
  split; [reflexivity|]. split; [reflexivity|].
  intros Hall. destruct (batch_loop_all_left_out E files 0%nat [] s Hall) as [s'' Hnone].
  rewrite Hnone in Hloop. invert_results. reflexivity.
Qed.

Lemma batch_of_failures_is_200_witness :
  (1 <= List.length [Stub.notes; Stub.broken; Stub.untyped] <= 15)%nat
  /\ (forall f s0, In f [Stub.notes; Stub.broken; Stub.untyped] ->
                   left_out Stub.stub f s0)
  /\ exists s',
      remove_background_batch Stub.stub [Stub.notes; Stub.broken; Stub.untyped] Stub.start
      = (inr {| content := Zip [];
                status_code := 200;
                media_type := "application/zip";
                headers := [("Content-Disposition",
                             "attachment; filename=" ++ dquote
                             ++ "processed_garments.zip" ++ dquote)] |}, s').
Proof.
  assert (Hlen : (1 <= List.length [Stub.notes; Stub.broken; Stub.untyped] <= 15)%nat)
    by (simpl; lia).
  assert (Hall : forall f s0, In f [Stub.notes; Stub.broken; Stub.untyped] ->
                              left_out Stub.stub f s0).
  { intros f s0 [<-|[<-|[<-|[]]]].
    - left. reflexivity.
    - right. eexists. eexists. reflexivity.
    - left. reflexivity. }
  split; [exact Hlen|]. split; [exact Hall|].
  destruct (batch_of_failures_is_200 Stub.stub [Stub.notes; Stub.broken; Stub.untyped]
              Stub.start Hlen) as (zip_file & s' & Hrun & _ & Hempty).
  exists s'. rewrite <- (Hempty Hall). exact Hrun.
Defined.

(** C10, as the code has it.  The members of the archive the batch endpoint
    returns have pairwise distinct names, each starting with the position of
    its file in the uploaded list, also when uploaded files share a file
    name; and each name ends in ".jpg" when no file name holds a NUL. *)
Theorem batch_member_names_distinct {W} (E : Externals W)
  (files : list UploadFile) (s s' : state W) (response : Response) :
  remove_background_batch E files s = (inr response, s') ->
  exists zip_file,
    content response = Zip zip_file
    /\ NoDup (map fst zip_file)
    /\ Forall (fun name =>
                 exists i, (i < List.length files)%nat
                           /\ index_of_name name = Some i)
              (map fst zip_file)
    /\ ((forall f, In f files -> str_in NUL (filename f) = false) ->
        Forall (fun name => endswith name ".jpg") (map fst zip_file)).
Proof.
  intros Hrun.
  assert (Hlen : (1 <= List.length files <= 15)%nat).
  { destruct (Nat.eq_dec (List.length files) 0) as [H0|H0];
      [|destruct (Nat.lt_ge_cases 15 (List.length files)) as [H15|H15]; [|lia]].
    - destruct (batch_endpoint_rejects E files s (or_introl H0)) as [detail Hrej].
      rewrite Hrej in Hrun. discriminate.
    - destruct (batch_endpoint_rejects E files s (or_intror H15)) as [detail Hrej].
      rewrite Hrej in Hrun. discriminate. }
  destruct (batch_loop_members E files 0%nat [] s) as (members & s'' & Hloop & Hfrom).
  simpl in Hloop.
  rewrite (batch_endpoint_valid E files s members s'' Hlen Hloop) in Hrun.
  invert_results. exists members. split; [reflexivity|].
  split; [eapply members_from_NoDup; eassumption|].
  split; [|apply (members_from_jpg _ _ _ Hfrom)].
  eapply Forall_impl; [|eapply members_from_names; eassumption].
  intros name (i & Hi & Hidx). exists i. split; [lia|exact Hidx].
Qed.

Lemma batch_member_names_distinct_witness :
  exists response s',
    remove_background_batch Stub.stub [Stub.photo; Stub.photo; Stub.photo] Stub.start
    = (inr response, s')
    /\ exists zip_file,
        content response = Zip zip_file
        /\ NoDup (map fst zip_file)
        /\ Forall (fun name =>
                     exists i, (i < 3)%nat /\ index_of_name name = Some i)
                  (map fst zip_file)
        /\ ((forall f, In f [Stub.photo; Stub.photo; Stub.photo] ->
                       str_in NUL (filename f) = false) ->
            Forall (fun name => endswith name ".jpg") (map fst zip_file)).
Proof.
  eexists. eexists. split; [vm_compute; reflexivity|].
  eapply (batch_member_names_distinct Stub.stub [Stub.photo; Stub.photo; Stub.photo]
            Stub.start).
  vm_compute. reflexivity.
Defined.

(** C10 fails as stated: the member made from an upload named a, NUL, b.png
    is kept as 000_a, which does not end in ".jpg". *)
Lemma batch_member_name_without_jpg :
  exists response s',
    remove_background_batch Stub.stub [Stub.photo; Stub.cut] Stub.start
    = (inr response, s')
    /\ exists zip_file,
        content response = Zip zip_file
        /\ map fst zip_file = ["000_shirt.jpg"; "001_a"]
        /\ ~ Forall (fun name => endswith name ".jpg") (map fst zip_file).
Proof.
  do 2 eexists. split; [vm_compute; reflexivity|].
  eexists. split; [reflexivity|]. split; [reflexivity|].
  intros H. inversion H as [|? ? _ Hrest]; subst.
  inversion Hrest as [|? ? [stem Hstem] _]; subst.
  do 5 (destruct stem as [|? stem]; simpl in Hstem;
        [discriminate Hstem|injection Hstem as _ Hstem]).
  destruct stem; discriminate Hstem.
Qed.

(** * Further properties *)

(** ** Resizing: what the new height can be *)

Lemma new_height_of_zero image :
  1024 < width image < 2 ^ 31 -> height image = 0 -> new_height_of image = inr 0.
Proof.
  intros Hw Hh. unfold new_height_of, int_mul_float, truediv, MAX_IMAGE_WIDTH.
  rewrite Hh.
  change (SFmul prec emax) with (SFmul 53 1024).
  change (SFdiv prec emax) with (SFdiv 53 1024).
  destruct (Binary64.float_of_int_spec (width image)) as (mw & Hfw & Hdw & _);
    [simpl in *; lia|].
  pose proof (Binary64.Zdigits2_range (width image) 11
                ltac:(lia) ltac:(simpl; lia) ltac:(lia)) as Ha.
  rewrite Hfw, Binary64.float_of_1024.
  destruct (Binary64.SFdiv_spec (2 ^ 52) (-42) mw (Zdigits2 (width image) - 53)
              eq_refl Hdw) as (Rr & er & Hdiv & _); try lia.
  rewrite Hdiv. reflexivity.
Qed.

(** The new height of an image wider than 1024 whose dimensions fit a C
    [int], against the floor of the exact quotient. *)
Lemma new_height_range image :
  1024 < width image < 2 ^ 31 -> 0 <= height image < 2 ^ 31 ->
  exists nh,
    new_height_of image = inr nh
    /\ 0 <= nh
    /\ height image * 1024 / width image - 1 <= nh <= height image * 1024 / width image
    /\ (height image * 1024 / width image * width image < height image * 1024 ->
        nh = height image * 1024 / width image).
Proof.
  intros Hw Hh.
  destruct (Z.eq_dec (height image) 0) as [H0|H0].
  - exists 0. rewrite (new_height_of_zero image Hw H0), H0.
    rewrite Z.mul_0_l, Z.div_0_l by lia. repeat split; lia.
  - destruct (Binary64.new_height_floor (width image) (height image) Hw Hh)
      as (nh & Hnh & Hbounds & Hexact).
    exists nh. split; [exact Hnh|]. split; [|split; assumption].
    set (k := height image * 1024 / width image) in *.
    assert (Hk : k * width image <= height image * 1024 < (k + 1) * width image).
    { unfold k. pose proof (Z.div_mod (height image * 1024) (width image)).
      pose proof (Z.mod_pos_bound (height image * 1024) (width image)). nia. }
    destruct (Z.eq_dec k 0) as [Hk0|Hk0].
    + rewrite Hexact; [lia|]. rewrite Hk0. lia.
    + assert (0 <= k) by (apply Z.div_pos; lia). lia.
Qed.

(** X1.  Resizing never enlarges: for an image wider than 1024 whose
    dimensions fit a C [int], the new height is computed without error, is
    not negative and is at most the old height, and strictly below it
    unless the image has height 0. *)
Theorem new_height_never_grows (image : Image) :
  1024 < width image < 2 ^ 31 -> 0 <= height image < 2 ^ 31 ->
  exists new_height,
    new_height_of image = inr new_height
    /\ 0 <= new_height <= height image
    /\ (0 < height image -> new_height < height image).
Proof.
  intros Hw Hh.
  destruct (new_height_range image Hw Hh) as (nh & Hnh & Hpos & Hbounds & _).
  exists nh. split; [exact Hnh|].
  set (k := height image * 1024 / width image) in *.
  assert (Hk : k * width image <= height image * 1024).
  { unfold k. pose proof (Z.div_mod (height image * 1024) (width image)).
    pose proof (Z.mod_pos_bound (height image * 1024) (width image)). nia. }
  assert (Hkh : k <= height image) by nia.
  split; [lia|]. intros Hh0.
  assert (k < height image) by nia. lia.
Qed.

Lemma new_height_never_grows_witness :
  exists new_height,
    new_height_of {| mode := "RGB"; width := 4000; height := 3000; im := [] |}
    = inr new_height
    /\ 0 <= new_height <= 3000
    /\ (0 < 3000 -> new_height < 3000).
Proof.
  apply (new_height_never_grows
           {| mode := "RGB"; width := 4000; height := 3000; im := [] |});
    simpl; lia.
Defined.

(** X2.  A strip more than 1024 times as wide as it is high is resized to
    height 0: the resampler is asked for the size (1024, 0). *)
Theorem thin_image_requests_empty_size {W} (E : Externals W)
  (image : Image) (s : state W) :
  width image < 2 ^ 31 -> 0 <= height image ->
  height image * 1024 < width image ->
  1024 < width image ->
  new_height_of image = inr 0
  /\ optimize_image E image s
     = call (EvResize image (1024, 0)) (resize E image (1024, 0)) s.
Proof.
  intros Hw Hh Hthin Hwide.
  assert (Hnh : new_height_of image = inr 0).
  { destruct (new_height_range image ltac:(lia) ltac:(lia))
      as (nh & Hnh & Hpos & Hbounds & _).
    rewrite Z.div_small in Hbounds by lia.
    rewrite Hnh. f_equal. lia. }
  split; [exact Hnh|].
  apply (optimize_image_large E image s 0 Hwide Hnh).
Qed.

Lemma thin_image_requests_empty_size_witness :
  new_height_of {| mode := "RGB"; width := 2049; height := 2; im := [] |} = inr 0
  /\ optimize_image Stub.stub {| mode := "RGB"; width := 2049; height := 2; im := [] |}
       Stub.start
     = call (EvResize {| mode := "RGB"; width := 2049; height := 2; im := [] |} (1024, 0))
            (resize Stub.stub {| mode := "RGB"; width := 2049; height := 2; im := [] |}
               (1024, 0))
            Stub.start.
Proof.
  apply (thin_image_requests_empty_size Stub.stub
           {| mode := "RGB"; width := 2049; height := 2; im := [] |} Stub.start);
    simpl; lia.
Defined.

(** Binary64 rounding alone can take the height to 0: 49 * (1024 / 50176)
    is just below 1. *)
Example new_height_50176x49 :
  new_height_of {| mode := "RGB"; width := 50176; height := 49; im := [] |} = inr 0
  /\ 49 * 1024 / 50176 = 1.
Proof. split; vm_compute; reflexivity. Qed.

(** X3.  Binary64 rounding shows only when the exact quotient is whole: if
    [width] does not divide [height * 1024], the new height is the exact
    quotient rounded down. *)
Theorem new_height_is_floor_unless_whole (image : Image) :
  1024 < width image < 2 ^ 31 -> 0 <= height image < 2 ^ 31 ->
  (height image * 1024) mod width image <> 0 ->
  new_height_of image = inr (height image * 1024 / width image).
Proof.
  intros Hw Hh Hmod.
  destruct (new_height_range image Hw Hh) as (nh & Hnh & _ & _ & Hexact).
  rewrite Hnh. f_equal. apply Hexact.
  pose proof (Z.div_mod (height image * 1024) (width image) ltac:(lia)).
  pose proof (Z.mod_pos_bound (height image * 1024) (width image) ltac:(lia)).
  nia.
Qed.

Lemma new_height_is_floor_unless_whole_witness :
  new_height_of {| mode := "RGB"; width := 1025; height := 2; im := [] |}
  = inr (2 * 1024 / 1025).
Proof.
  apply (new_height_is_floor_unless_whole
           {| mode := "RGB"; width := 1025; height := 2; im := [] |});
    simpl; try lia.
  vm_compute. discriminate.
Defined.

(** X4.  Resizing twice is resizing once: an image that came out of
    [optimize_image] goes through it again unchanged, with no further call
    to the resampler. *)
Theorem optimize_image_idempotent {W} (E : Externals W)
  (image image' : Image) (s s' s'' : state W) :
  resize_exact E ->
  optimize_image E image s = (inr image', s') ->
  optimize_image E image' s'' = (inr image', s'').
Proof.
  intros Hexact Hrun.
  apply optimize_image_small.
  unfold optimize_image in Hrun.
  destruct (Z.ltb_spec MAX_IMAGE_WIDTH (width image)) as [Hwide|Hsmall].
  - destruct (new_height_of image) as [msg|nh]; [discriminate|].
    unfold call in Hrun.
    destruct (resize E image (MAX_IMAGE_WIDTH, nh)) as [msg|resized_image] eqn:Hres;
      [discriminate|].
    invert_results. apply Hexact in Hres. unfold size in Hres.
    inversion Hres. lia.
  - unfold ret in Hrun. invert_results. exact Hsmall.
Qed.

Lemma stub_resize_exact : resize_exact Stub.stub.
Proof.
  intros image new_size image'. unfold Stub.stub, resize, Stub.stub_resize.
  destruct ((fst new_size <? 1) || (snd new_size <? 1)); [discriminate|].
  intros H. invert_results. destruct new_size. reflexivity.
Qed.

Lemma optimize_image_idempotent_witness :
  optimize_image Stub.stub {| mode := "RGB"; width := 1024; height := 768; im := [] |}
    (record (EvResize {| mode := "RGB"; width := 4000; height := 3000; im := [] |}
               (1024, 768)) Stub.start)
  = (inr {| mode := "RGB"; width := 1024; height := 768; im := [] |},
     record (EvResize {| mode := "RGB"; width := 4000; height := 3000; im := [] |}
               (1024, 768)) Stub.start).
Proof.
  apply (optimize_image_idempotent Stub.stub
           {| mode := "RGB"; width := 4000; height := 3000; im := [] |}
           {| mode := "RGB"; width := 1024; height := 768; im := [] |}
           Stub.start
           (record (EvResize {| mode := "RGB"; width := 4000; height := 3000; im := [] |}
                      (1024, 768)) Stub.start)
           (record (EvResize {| mode := "RGB"; width := 4000; height := 3000; im := [] |}
                      (1024, 768)) Stub.start)
           stub_resize_exact).
  vm_compute. reflexivity.
Defined.

(** ** The pipeline: dimensions of what is encoded *)

Lemma new_height_of_size image image' :
  size image' = size image -> new_height_of image' = new_height_of image.
Proof.
  unfold size, new_height_of. intros H. inversion H as [[Hw Hh]].
  rewrite Hw, Hh. reflexivity.
Qed.

Lemma call_returns {W A} (ev : event) (r : string + A) (s s' : state W) (a : A) :
  call ev r s = (inr a, s') -> r = inr a /\ s' = record ev s.
Proof.
  unfold call. destruct r as [msg|a']; intros H; invert_results. auto.
Qed.

(** X5.  With libraries that keep dimensions as Pillow and rembg do, the
    image handed to the JPEG encoder is in mode RGB and has the size of the
    decoded image when that is at most 1024 wide, and otherwise width 1024
    and the height [optimize_image] computes from the decoded size. *)
Theorem process_image_output_dimensions {W} (E : Externals W)
  (image_bytes out : bytes) (s s' : state W) :
  keeps_dimensions E ->
  process_image E image_bytes s = (inr out, s') ->
  exists decoded_image final_image,
    Image_open E image_bytes = inr decoded_image
    /\ save E final_image "JPEG" 90 true = inr out
    /\ mode final_image = "RGB"
    /\ (width decoded_image <= 1024 -> size final_image = size decoded_image)
    /\ (1024 < width decoded_image ->
        width final_image = 1024
        /\ new_height_of decoded_image = inr (height final_image)).
Proof.
  intros Hlaws Hrun.
  assert (Hbody : process_image_body E image_bytes s = (inr out, s')).
  { destruct (process_image_cases E image_bytes s)
      as [(out' & s1 & Hb & Hp)|(msg & s1 & Hb & Hp)];
      rewrite Hp in Hrun; invert_results. exact Hb. }
  apply body_returns_iff in Hbody.
  destruct Hbody as (i4 & s4 & (i3 & s3 & (i2 & s2 & (i1 & s1 & (i0 & s0 & Hdec & Hnorm)
                     & Hopt) & Hrem) & Hcomp) & Henc).
  unfold decoded, decode in Hdec. apply call_returns in Hdec. destruct Hdec as [Hopen _].
  (* normalise *)
  assert (Hsize1 : size i1 = size i0).
  { unfold normalize in Hnorm.
    destruct (mode_in (mode i0) ["RGBA"; "LA"; "P"]);
      apply call_returns in Hnorm; destruct Hnorm as [Hc _];
      apply (convert_keeps E Hlaws) in Hc; tauto. }
  (* remove, composite, encode *)
  assert (Hsize3 : size i3 = size i2).
  { unfold call_remove in Hrem.
    destruct (remove E i2 (world s2)) as [[msg|i3'] w'] eqn:Hr; invert_results.
    apply (remove_keeps E Hlaws) in Hr. exact Hr. }
  assert (Hsize4 : size i4 = size i3).
  { unfold composite, bind in Hcomp.
    destruct (call (EvNew "RGBA" (size i3))
                (Image_new E "RGBA" (size i3) BACKGROUND_COLOR) s3)
      as [[e|background] s3'] eqn:Hnew; [discriminate|].
    apply call_returns in Hnew. destruct Hnew as [Hnew _].
    apply call_returns in Hcomp. destruct Hcomp as [Hpaste _].
    apply (new_gives E Hlaws) in Hnew. apply (paste_keeps E Hlaws) in Hpaste.
    congruence. }
  unfold encode, bind in Henc.
  destruct (call (EvConvert i4 "RGB") (convert E i4 "RGB") s4)
    as [[e|final_image] s4'] eqn:Hconv; [discriminate|].
  apply call_returns in Hconv. destruct Hconv as [Hconv _].
  apply call_returns in Henc. destruct Henc as [Hsave _].
  apply (convert_keeps E Hlaws) in Hconv. destruct Hconv as [Hsize5 Hmode].
  exists i0, final_image.
  split; [exact Hopen|]. split; [exact Hsave|]. split; [exact Hmode|].
  assert (Hw1 : width i1 = width i0) by (unfold size in Hsize1; congruence).
  split.
  - intros Hsmall.
    rewrite (optimize_image_small E i1 s1) in Hopt by (unfold MAX_IMAGE_WIDTH; lia).
    invert_results. congruence.
  - intros Hwide. unfold optimize_image in Hopt.
    destruct (Z.ltb_spec MAX_IMAGE_WIDTH (width i1)) as [_|Hno];
      [|unfold MAX_IMAGE_WIDTH in Hno; lia].
    rewrite <- (new_height_of_size i0 i1 Hsize1).
    destruct (new_height_of i1) as [msg|nh]; [discriminate|].
    apply call_returns in Hopt. destruct Hopt as [Hres _].
    apply (resize_gives E Hlaws) in Hres.
    assert (Hfinal : size final_image = (MAX_IMAGE_WIDTH, nh)) by congruence.
    unfold size in Hfinal. inversion Hfinal as [[Hfw Hfh]].
    split; [exact Hfw|rewrite Hfh; reflexivity].
Qed.

Lemma stub_keeps_dimensions : keeps_dimensions Stub.stub.
Proof.
  constructor.
  - intros image target image' H. simpl in H. unfold Stub.stub_convert in H.
    invert_results. split; reflexivity.
  - exact stub_resize_exact.
  - intros image w image' w' H. simpl in H. unfold Stub.stub_remove in H.
    invert_results. reflexivity.
  - intros target new_size color image' H. simpl in H. unfold Stub.stub_new in H.
    invert_results. destruct new_size. reflexivity.
  - intros background overlay box mask background' H. simpl in H.
    unfold Stub.stub_paste in H. invert_results. reflexivity.
Qed.

Lemma process_image_output_dimensions_witness :
  exists decoded_image final_image,
    Image_open Stub.stub (file Stub.photo) = inr decoded_image
    /\ save Stub.stub final_image "JPEG" 90 true = inr [x04; x03; x07]
    /\ mode final_image = "RGB"
    /\ (width decoded_image <= 1024 -> size final_image = size decoded_image)
    /\ (1024 < width decoded_image ->
        width final_image = 1024
        /\ new_height_of decoded_image = inr (height final_image)).
Proof.
  apply (process_image_output_dimensions Stub.stub (file Stub.photo) [x04; x03; x07]
           (record (EvRead Stub.photo) Stub.start) Stub.after_notes_photo
           stub_keeps_dimensions).
  reflexivity.
Defined.

(** ** What a run leaves in the trace *)

Lemma reads_of_app a b : reads_of (a ++ b) = (reads_of a ++ reads_of b)%list.
Proof. apply flat_map_app. Qed.

Lemma writes_of_app a b : writes_of (a ++ b) = (writes_of a ++ writes_of b)%list.
Proof. apply flat_map_app. Qed.

Lemma removals_of_app a b :
  removals_of (a ++ b) = (removals_of a ++ removals_of b)%list.
Proof. apply flat_map_app. Qed.

Section Quiet.

Context {W : Type} (E : Externals W).

Lemma quiet_refl (s : state W) : quiet s s.
Proof. split; [reflexivity|]. exists []. rewrite app_nil_r. auto. Qed.

Lemma quiet_trans (s1 s2 s3 : state W) : quiet s1 s2 -> quiet s2 s3 -> quiet s1 s3.
Proof.
  intros [Hw1 (e1 & Ht1 & Hr1 & Hz1 & Hm1)] [Hw2 (e2 & Ht2 & Hr2 & Hz2 & Hm2)].
  split; [congruence|]. exists (e1 ++ e2)%list.
  rewrite Ht2, Ht1, <- app_assoc, reads_of_app, writes_of_app, removals_of_app.
  rewrite Hr1, Hr2, Hz1, Hz2, Hm1, Hm2. auto.
Qed.

(** A call to Pillow is quiet. *)
Lemma quiet_call {A} (ev : event) (r : string + A) (s s' : state W) x :
  reads_of [ev] = [] -> writes_of [ev] = [] -> removals_of [ev] = [] ->
  call ev r s = (x, s') -> quiet s s'.
Proof.
  intros Hr Hz Hm Hcall. unfold call in Hcall. invert_results.
  split; [reflexivity|]. exists [ev]. auto.
Qed.

Lemma quiet_decode b (s s' : state W) x : decode E b s = (x, s') -> quiet s s'.
Proof. apply quiet_call; reflexivity. Qed.

Lemma quiet_normalize image (s s' : state W) x :
  normalize E image s = (x, s') -> quiet s s'.
Proof.
  unfold normalize. destruct (mode_in _ _); apply quiet_call; reflexivity.
Qed.

Lemma quiet_optimize_image image (s s' : state W) x :
  optimize_image E image s = (x, s') -> quiet s s'.
Proof.
  unfold optimize_image. destruct (_ <? _).
  - destruct (new_height_of image).
    + unfold raise. intros H. invert_results. apply quiet_refl.
    + apply quiet_call; reflexivity.
  - unfold ret. intros H. invert_results. apply quiet_refl.
Qed.

Lemma quiet_composite image (s s' : state W) x :
  composite E image s = (x, s') -> quiet s s'.
Proof.
  unfold composite, bind.
  destruct (call (EvNew "RGBA" (size image))
              (Image_new E "RGBA" (size image) BACKGROUND_COLOR) s)
    as [[e|background] s1] eqn:Hnew; intros H.
  - invert_results. eapply quiet_call in Hnew; auto.
  - eapply quiet_trans; [eapply quiet_call in Hnew; eauto|].
    eapply quiet_call in H; auto.
Qed.

Lemma quiet_encode image (s s' : state W) x :
  encode E image s = (x, s') -> quiet s s'.
Proof.
  unfold encode, bind.
  destruct (call (EvConvert image "RGB") (convert E image "RGB") s)
    as [[e|final_image] s1] eqn:Hconv; intros H.
  - invert_results. eapply quiet_call in Hconv; auto.
  - eapply quiet_trans; [eapply quiet_call in Hconv; eauto|].
    eapply quiet_call in H; auto.
Qed.

(** The one call that is not quiet. *)
Lemma call_remove_effect image (s s' : state W) x :
  call_remove E image s = (x, s') ->
  world s' = snd (remove E image (world s))
  /\ trace s' = (trace s ++ [EvRemove image])%list.
Proof.
  unfold call_remove. destruct (remove E image (world s)) as [r w].
  intros H. invert_results. split; reflexivity.
Qed.

(** The handler of [process_image] raises in the state it is given. *)
Lemma process_image_state image_bytes (s : state W) :
  snd (process_image E image_bytes s) = snd (process_image_body E image_bytes s).
Proof.
  unfold process_image, try_except.
  destruct (process_image_body E image_bytes s) as [[e|out] s']; reflexivity.
Qed.

(** What a run of [process_image] does to the state: nothing is read or
    written, and the removal model is run once, on the resized image, or
    not at all when the steps before it did not all succeed. *)
Lemma process_image_effect image_bytes (s : state W) :
  exists evs,
    trace (snd (process_image E image_bytes s)) = (trace s ++ evs)%list
    /\ reads_of evs = [] /\ writes_of evs = []
    /\ ((exists image s0,
            resized E image_bytes s image s0
            /\ removals_of evs = [image]
            /\ world (snd (process_image E image_bytes s))
               = snd (remove E image (world s)))
        \/ ((forall image s0, ~ resized E image_bytes s image s0)
            /\ removals_of evs = []
            /\ world (snd (process_image E image_bytes s)) = world s)).
Proof.
  rewrite process_image_state, process_image_body_steps. unfold bind.
  assert (Hnone : forall s' : state W, quiet s s' ->
            (forall image s0, ~ resized E image_bytes s image s0) ->
            exists evs,
              trace s' = (trace s ++ evs)%list
              /\ reads_of evs = [] /\ writes_of evs = []
              /\ ((exists image s0,
                      resized E image_bytes s image s0
                      /\ removals_of evs = [image]
                      /\ world s' = snd (remove E image (world s)))
                  \/ ((forall image s0, ~ resized E image_bytes s image s0)
                      /\ removals_of evs = [] /\ world s' = world s))).
  { intros s' [Hw (evs & Ht & Hr & Hz & Hm)] Hno. exists evs. auto 10. }
  destruct (decode E image_bytes s) as [[e0|i0] s0] eqn:H0.
  { apply Hnone; [eapply quiet_decode; eassumption|].
    intros image sx (i1 & s1 & (i0' & s0' & Hd & _) & _).
    unfold decoded in Hd. congruence. }
  destruct (normalize E i0 s0) as [[e1|i1] s1] eqn:H1.
  { apply Hnone;
      [eapply quiet_trans; [eapply quiet_decode|eapply quiet_normalize]; eassumption|].
    intros image sx (i1' & s1' & (i0' & s0' & Hd & Hn) & _).
    unfold decoded in Hd. rewrite H0 in Hd. invert_results. congruence. }
  destruct (optimize_image E i1 s1) as [[e2|i2] s2] eqn:H2.
  { apply Hnone;
      [eapply quiet_trans;
         [eapply quiet_trans; [eapply quiet_decode|eapply quiet_normalize]
         |eapply quiet_optimize_image]; eassumption|].
    intros image sx (i1' & s1' & (i0' & s0' & Hd & Hn) & Ho).
    unfold decoded in Hd. rewrite H0 in Hd. invert_results.
    rewrite H1 in Hn. invert_results. congruence. }
  assert (Hpre : quiet s s2).
  { eapply quiet_trans;
      [eapply quiet_trans; [eapply quiet_decode|eapply quiet_normalize]
      |eapply quiet_optimize_image]; eassumption. }
  assert (Hres : resized E image_bytes s i2 s2).
  { exists i1, s1. split; [|exact H2]. exists i0, s0. split; [exact H0|exact H1]. }
  assert (Hsome : forall (s3 s' : state W) r,
            call_remove E i2 s2 = (r, s3) -> quiet s3 s' ->
            exists evs,
              trace s' = (trace s ++ evs)%list
              /\ reads_of evs = [] /\ writes_of evs = []
              /\ ((exists image s0,
                      resized E image_bytes s image s0
                      /\ removals_of evs = [image]
                      /\ world s' = snd (remove E image (world s)))
                  \/ ((forall image s0, ~ resized E image_bytes s image s0)
                      /\ removals_of evs = [] /\ world s' = world s))).
  { intros s3 s' r Hrem [Hw3 (e3 & Ht3 & Hr3 & Hz3 & Hm3)].
    destruct Hpre as [Hw2 (e2 & Ht2 & Hr2 & Hz2 & Hm2)].
    apply call_remove_effect in Hrem. destruct Hrem as [Hwr Htr].
    exists (e2 ++ [EvRemove i2] ++ e3)%list.
    split; [rewrite Ht3, Htr, Ht2, <- !app_assoc; reflexivity|].
    rewrite !reads_of_app, !writes_of_app, !removals_of_app.
    rewrite Hr2, Hr3, Hz2, Hz3, Hm2, Hm3. simpl.
    split; [reflexivity|]. split; [reflexivity|].
    left. exists i2, s2. split; [exact Hres|]. split; [reflexivity|].
    rewrite Hw3, Hwr, Hw2. reflexivity. }
  destruct (call_remove E i2 s2) as [[e3|i3] s3] eqn:H3.
  { apply (Hsome s3 s3 (inl e3)); [reflexivity|apply quiet_refl]. }
  destruct (composite E i3 s3) as [[e4|i4] s4] eqn:H4.
  { apply (Hsome s3 s4 (inr i3)); [reflexivity|].
    eapply quiet_composite; eassumption. }
  destruct (encode E i4 s4) as [r s5] eqn:H5.
  apply (Hsome s3 s5 (inr i3)); [reflexivity|].
  eapply quiet_trans; [eapply quiet_composite|eapply quiet_encode]; eassumption.
Qed.

End Quiet.

(** X6.  A run of [process_image] hands one image to the removal model,
    the decoded, normalised and resized one, when those three steps
    succeed, and none otherwise; the model's state changes by that one call
    or not at all.  Bytes that do not decode never reach the model. *)
Theorem removal_model_runs_once_or_never {W} (E : Externals W)
  (image_bytes : bytes) (s : state W) :
  exists evs,
    trace (snd (process_image E image_bytes s)) = (trace s ++ evs)%list
    /\ ((exists image s0,
            resized E image_bytes s image s0
            /\ removals_of evs = [image]
            /\ world (snd (process_image E image_bytes s))
               = snd (remove E image (world s)))
        \/ ((forall image s0, ~ resized E image_bytes s image s0)
            /\ removals_of evs = []
            /\ world (snd (process_image E image_bytes s)) = world s))
    /\ (forall msg,
           Image_open E image_bytes = inl msg ->
           removals_of evs = []
           /\ world (snd (process_image E image_bytes s)) = world s).
Proof.
  destruct (process_image_effect E image_bytes s) as (evs & Ht & _ & _ & Hcases).
  exists evs. split; [exact Ht|]. split; [exact Hcases|].
  intros msg Hopen.
  destruct Hcases as [(image & s0 & Hres & _)|(_ & Hm & Hw)]; [|auto].
  destruct Hres as (i1 & s1 & (i0 & s0' & Hd & _) & _).
  unfold decoded, decode, call in Hd. rewrite Hopen in Hd. discriminate.
Qed.

Lemma archive_of_app (a b : ZipFile) :
  archive_of (a ++ b)%list = (archive_of a ++ archive_of b)%list.
Proof. apply flat_map_app. Qed.

Section BatchEffects.

Context {W : Type} (E : Externals W).

(** A turn of the loop on an upload that declares an image type: the upload
    is read, and the archive gains what [writestr] leaves in it when
    [process_image] returns, and nothing when it raises. *)
Lemma batch_item_declared idx f zip_file (s : state W) :
  declares_image f = true ->
  exists zip_f evs s',
    batch_item E idx f zip_file s = (inr (zip_file ++ zip_f)%list, s')
    /\ trace s' = (trace s ++ EvRead f :: evs)%list
    /\ reads_of evs = []
    /\ (List.length (removals_of evs) <= 1)%nat
    /\ (forall data sp,
           process_image E (file f) (record (EvRead f) s) = (inr data, sp) ->
           zip_f = stored (zip_filename_of idx (filename f)) data
           /\ writes_of evs = [(zip_filename_of idx (filename f), data)])
    /\ (forall e sp,
           process_image E (file f) (record (EvRead f) s) = (inl e, sp) ->
           zip_f = [] /\ writes_of evs = []).
Proof.
  intros Himg.
  destruct (process_image_effect E (file f) (record (EvRead f) s))
    as (evp & Ht & Hr & Hz & Hm).
  assert (Hone : (List.length (removals_of evp) <= 1)%nat).
  { destruct Hm as [(i & s0 & _ & -> & _)|(_ & -> & _)]; simpl; lia. }
  destruct (process_image E (file f) (record (EvRead f) s)) as [[e|data] sp] eqn:Hproc;
    simpl in Ht.
  - exists [], evp, sp.
    split; [rewrite app_nil_r; eapply batch_item_failure; eassumption|].
    split; [rewrite Ht, <- app_assoc; reflexivity|].
    split; [exact Hr|]. split; [exact Hone|].
    split; [intros ? ? Heq; discriminate Heq|auto].
  - exists (stored (zip_filename_of idx (filename f)) data),
           (evp ++ [EvWritestr (zip_filename_of idx (filename f)) data])%list.
    eexists.
    split; [eapply batch_item_processed; eassumption|].
    split; [simpl; rewrite Ht, <- !app_assoc; reflexivity|].
    rewrite reads_of_app, removals_of_app, writes_of_app, Hr, Hz. simpl.
    rewrite app_nil_r.
    split; [reflexivity|]. split; [exact Hone|].
    split; [|intros ? ? Heq; discriminate Heq].
    intros data' sp' Heq. inversion Heq. auto.
Qed.

Lemma batch_item_effect idx f zip_file (s : state W) :
  exists evs zip_file' s',
    batch_item E idx f zip_file s = (inr zip_file', s')
    /\ trace s' = (trace s ++ evs)%list
    /\ turn (idx, f) evs
    /\ zip_file' = (zip_file ++ archive_of (writes_of evs))%list.
Proof.
  unfold turn. destruct (declares_image f) eqn:Himg.
  - destruct (batch_item_declared idx f zip_file s Himg)
      as (zip_f & evs & s' & Hitem & Ht & Hr & Hone & Hgood & Hbad).
    exists (EvRead f :: evs), (zip_file ++ zip_f)%list, s'.
    split; [exact Hitem|]. split; [exact Ht|]. simpl. rewrite Hr.
    destruct (process_image E (file f) (record (EvRead f) s)) as [[e|data] sp].
    + destruct (Hbad e sp eq_refl) as [-> ->]. auto 6.
    + destruct (Hgood data sp eq_refl) as [-> ->].
      split; [eauto 6|]. unfold archive_of. simpl. rewrite app_nil_r. reflexivity.
  - exists [], zip_file, s.
    split; [apply batch_item_not_declared, Himg|].
    rewrite !app_nil_r. auto.
Qed.

Lemma batch_loop_effect files : forall idx zip_file (s : state W),
  exists turns zip_file' s',
    batch_loop E idx files zip_file s = (inr zip_file', s')
    /\ trace s' = (trace s ++ List.concat turns)%list
    /\ Forall2 turn (enumerate_from idx files) turns
    /\ zip_file' = (zip_file ++ archive_of (writes_of (List.concat turns)))%list.
Proof.
  induction files as [|f rest IH]; intros idx zip_file s.
  - exists [], zip_file, s. simpl. rewrite !app_nil_r. auto.
  - destruct (batch_item_effect idx f zip_file s)
      as (e1 & z1 & s1 & Hitem & Ht1 & Hturn & Hz1).
    destruct (IH (S idx) z1 s1) as (turns & z2 & s2 & Hrest & Ht2 & Hturns & Hz2).
    exists (e1 :: turns), z2, s2.
    split; [rewrite (batch_loop_cons E _ _ _ _ _ _ _ Hitem); exact Hrest|].
    split; [simpl; rewrite Ht2, Ht1, <- app_assoc; reflexivity|].
    split; [constructor; assumption|].
    simpl. rewrite writes_of_app, archive_of_app, Hz2, Hz1, <- app_assoc.
    reflexivity.
Qed.

End BatchEffects.

(** The uploads read over the turns of a loop are those that declare an
    image type, and the removal model is run no more often. *)
Lemma turns_read_declared_images files : forall idx turns,
  Forall2 turn (enumerate_from idx files) turns ->
  reads_of (List.concat turns) = filter declares_image files
  /\ (List.length (removals_of (List.concat turns))
      <= List.length (filter declares_image files))%nat.
Proof.
  induction files as [|f rest IH]; intros idx turns Hturns; simpl in Hturns;
    inversion Hturns as [|? evs ? turns' Hturn Hrest]; subst; simpl.
  - split; [reflexivity|lia].
  - destruct (IH _ _ Hrest) as [Hreads Hruns].
    rewrite reads_of_app, removals_of_app, length_app, Hreads.
    unfold turn in Hturn. destruct (declares_image f).
    + destruct Hturn as (-> & Hone & _). simpl. split; [reflexivity|lia].
    + subst evs. simpl. split; [reflexivity|lia].
Qed.

(** X7.  A batch of 1 to 15 files goes through the uploads in the order of
    the list, one turn each.  The turn of an upload that declares no image
    type leaves nothing in the trace: the upload is not read.  The turn of
    an upload that declares one reads it once, runs the removal model at
    most once and calls [writestr] at most once, under the name made from
    the position of the upload.  The archive returned holds what those
    calls of [writestr] left in it, in their order. *)
Theorem batch_reads_declared_images {W} (E : Externals W)
  (files : list UploadFile) (s : state W) :
  (1 <= List.length files <= 15)%nat ->
  exists turns zip_file response s',
    remove_background_batch E files s = (inr response, s')
    /\ content response = Zip zip_file
    /\ trace s' = (trace s ++ List.concat turns)%list
    /\ Forall2 turn (enumerate_from 0 files) turns
    /\ reads_of (List.concat turns) = filter declares_image files
    /\ zip_file = archive_of (writes_of (List.concat turns)).
Proof.
  intros Hlen.
  destruct (batch_loop_effect E files 0%nat [] s)
    as (turns & zip_file & s' & Hloop & Ht & Hturns & Hz).
  exists turns, zip_file. eexists. exists s'.
  split; [apply batch_endpoint_valid; eassumption|].
  split; [reflexivity|]. split; [exact Ht|]. split; [exact Hturns|].
  split; [apply (turns_read_declared_images files 0%nat turns Hturns)|exact Hz].
Qed.

Lemma batch_reads_declared_images_witness :
  exists turns zip_file response s',
    remove_background_batch Stub.stub
      [Stub.photo; Stub.notes; Stub.cut; Stub.untyped] Stub.start
    = (inr response, s')
    /\ content response = Zip zip_file
    /\ trace s' = (trace Stub.start ++ List.concat turns)%list
    /\ Forall2 turn (enumerate_from 0 [Stub.photo; Stub.notes; Stub.cut; Stub.untyped])
                turns
    /\ reads_of (List.concat turns)
       = filter declares_image [Stub.photo; Stub.notes; Stub.cut; Stub.untyped]
    /\ zip_file = archive_of (writes_of (List.concat turns)).
Proof.
  apply (batch_reads_declared_images Stub.stub
           [Stub.photo; Stub.notes; Stub.cut; Stub.untyped] Stub.start).
  simpl. lia.
Defined.

(** The names handed to [writestr] and the names in the archive differ for
    a file name with a NUL. *)
Example batch_writes_and_keeps :
  exists response,
    fst (remove_background_batch Stub.stub [Stub.photo; Stub.cut] Stub.start)
    = inr response
    /\ map fst (writes_of (trace (snd (remove_background_batch Stub.stub
                                         [Stub.photo; Stub.cut] Stub.start))))
       = ["000_shirt.jpg"; "001_a" ++ String NUL "b.jpg"]
    /\ content response
       = Zip [("000_shirt.jpg", [x04; x03; x07]); ("001_a", [x04; x03; x07])].
Proof.
  eexists. split; [vm_compute; reflexivity|]. split; reflexivity.
Qed.

(** ** Items left out of a batch *)



(** The archive of that batch: the upload after the two left out is there,
    under the number 3. *)
Example batch_goes_on_after_failures :
  exists response,
    fst (remove_background_batch Stub.stub
           [Stub.photo; Stub.notes; Stub.broken; Stub.photo] Stub.start)
    = inr response
    /\ content response
       = Zip [("000_shirt.jpg", [x04; x03; x07]); ("003_shirt.jpg", [x04; x03; x07])].
Proof. eexists. split; [vm_compute; reflexivity|reflexivity]. Qed.

(** ** The batch and the single endpoint together *)

(** No member made from [files], numbered from [idx] on, carries a number
    outside their range. *)
Lemma members_from_other_index idx files members i name data :
  members_from idx files members ->
  (i < idx \/ idx + List.length files <= i)%nat ->
  ~ In (stored_name (zip_filename_of i name), data) members.
Proof.
  intros Hfrom Hi Hin.
  pose proof (members_from_names _ _ _ Hfrom) as Hnames.
  rewrite Forall_forall in Hnames.
  destruct (Hnames (stored_name (zip_filename_of i name))) as (j & Hj & Hname).
  - apply in_map_iff. exists (stored_name (zip_filename_of i name), data). auto.
  - rewrite index_of_stored_name in Hname. inversion Hname. lia.
Qed.

Section Together.

Context {W : Type} (E : Externals W).

Lemma single_not_declared f (s : state W) :
  declares_image f = false ->
  exists e, remove_background_single E f s = (inl e, s).
Proof.
  unfold declares_image. destruct (content_type f) as [ct|] eqn:Hct; intros Himg.
  - eexists. apply (single_not_declared_image E f s ct Hct Himg).
  - eexists. apply (single_no_content_type E f s Hct).
Qed.

(** What the single endpoint answers once the upload declares an image type
    is decided by [process_image] and, when that returns, by the encoding
    of the header that carries the file name. *)
Lemma single_declared f (s : state W) :
  declares_image f = true ->
  (exists out s',
      process_image E (file f) (record (EvRead f) s) = (inr out, s')
      /\ remove_background_single E f s
         = (match latin1_error (content_disposition f) with
            | None => inr {| content := Bytes out;
                             status_code := 200;
                             media_type := "image/jpeg";
                             headers := [("Content-Disposition",
                                          content_disposition f)] |}
            | Some msg => inl (HTTPException 500 msg)
            end, s'))
  \/ (exists msg s',
         process_image E (file f) (record (EvRead f) s)
         = (inl (HTTPException 500 ("Error procesando imagen: " ++ msg)), s')
         /\ remove_background_single E f s
            = (inl (HTTPException 500 ("Error procesando imagen: " ++ msg)), s')).
Proof.
  intros Himg.
  destruct (process_image_cases E (file f) (record (EvRead f) s))
    as [(out & s' & _ & Hp)|(msg & s' & _ & Hp)].
  - left. exists out, s'. split; [exact Hp|].
    apply single_processing_returns; assumption.
  - right. exists msg, s'. split; [exact Hp|].
    apply single_processing_fails; assumption.
Qed.

End Together.

(** X8.  With a removal model that answers alike whatever its state, the
    batch and the single endpoint agree on an upload whose file name encodes
    as Latin-1 in the header of the single answer and whose member name
    fits a ZIP header: the archive holds a member under the name kept for
    the upload's position exactly when the single endpoint answers that
    upload with an image, and the member's data are the bytes of that
    answer. *)
Theorem batch_agrees_with_single {W} (E : Externals W)
  (pre post : list UploadFile) (f : UploadFile) (s s0 : state W) :
  deterministic_removal E ->
  (1 <= List.length (pre ++ f :: post) <= 15)%nat ->
  latin1_error (content_disposition f) = None ->
  fits (zip_filename_of (List.length pre) (filename f)) = true ->
  exists zip_file response s',
    remove_background_batch E (pre ++ f :: post) s = (inr response, s')
    /\ content response = Zip zip_file
    /\ forall data,
        In (stored_name (zip_filename_of (List.length pre) (filename f)), data) zip_file
        <-> exists answer s1,
              remove_background_single E f s0 = (inr answer, s1)
              /\ content answer = Bytes data.
Proof.
  intros Hdet Hlen Hlatin Hfits.
  destruct (batch_loop_members E pre 0%nat [] s) as (zip_pre & s1 & Hpre & Hfrom_pre).
  simpl in Hpre.
  assert (Hno_pre : forall data,
            ~ In (stored_name (zip_filename_of (List.length pre) (filename f)), data)
                 zip_pre).
  { intros data. eapply members_from_other_index; [exact Hfrom_pre|]. right. lia. }
  assert (Hno_post : forall zip_post data,
            members_from (S (List.length pre)) post zip_post ->
            ~ In (stored_name (zip_filename_of (List.length pre) (filename f)), data)
                 zip_post).
  { intros zip_post data Hfrom. eapply members_from_other_index; [exact Hfrom|].
    left. lia. }
  destruct (declares_image f) eqn:Himg.
  - pose proof (stateless_process_image E Hdet (file f)
                  (record (EvRead f) s1) (record (EvRead f) s0)) as Hsame.
    destruct (single_declared E f s0 Himg)
      as [(out & sx & Hp0 & Hsingle)|(msg & sx & Hp0 & Hsingle)];
      rewrite Hp0 in Hsame; simpl in Hsame;
      destruct (process_image E (file f) (record (EvRead f) s1)) as [r1 s2] eqn:Hp1;
      simpl in Hsame; subst r1.
    + rewrite Hlatin in Hsingle.
      pose proof (batch_item_success E (List.length pre) f zip_pre s1 out s2 Himg Hp1
                    Hfits) as Hitem.
      destruct (batch_loop_members E post (S (List.length pre))
                  (zip_pre ++ [(stored_name (zip_filename_of (List.length pre)
                                               (filename f)), out)])%list
                  (record (EvWritestr (zip_filename_of (List.length pre) (filename f)) out)
                     s2))
        as (zip_post & s3 & Hpost & Hfrom).
      pose proof (batch_loop_at E pre f post s zip_pre s1 _ _ Hpre Hitem) as Hall.
      rewrite Hpost in Hall.
      eexists. eexists. exists s3.
      split; [apply batch_endpoint_valid; eassumption|]. split; [reflexivity|].
      intros data. rewrite Hsingle. split.
      * intros Hin. apply in_app_or in Hin. destruct Hin as [Hin|Hin].
        -- apply in_app_or in Hin. destruct Hin as [Hin|[Hin|[]]].
           ++ exfalso. exact (Hno_pre data Hin).
           ++ inversion Hin. subst. eexists. eexists. split; reflexivity.
        -- exfalso. exact (Hno_post zip_post data Hfrom Hin).
      * intros (answer & sy & Heq & Hcontent). invert_results.
        simpl in Hcontent. inversion Hcontent. subst.
        apply in_or_app. left. apply in_or_app. right. left. reflexivity.
    + pose proof (batch_item_failure E (List.length pre) f zip_pre s1 _ s2 Himg Hp1)
        as Hitem.
      destruct (batch_loop_members E post (S (List.length pre)) zip_pre s2)
        as (zip_post & s3 & Hpost & Hfrom).
      pose proof (batch_loop_at E pre f post s zip_pre s1 _ _ Hpre Hitem) as Hall.
      rewrite Hpost in Hall.
      eexists. eexists. exists s3.
      split; [apply batch_endpoint_valid; eassumption|]. split; [reflexivity|].
      intros data. rewrite Hsingle. split.
      * intros Hin. exfalso. apply in_app_or in Hin. destruct Hin as [Hin|Hin].
        -- exact (Hno_pre data Hin).
        -- exact (Hno_post zip_post data Hfrom Hin).
      * intros (answer & sy & Heq & _). discriminate.
  - pose proof (batch_item_not_declared E (List.length pre) f zip_pre s1 Himg) as Hitem.
    destruct (batch_loop_members E post (S (List.length pre)) zip_pre s1)
      as (zip_post & s3 & Hpost & Hfrom).
    pose proof (batch_loop_at E pre f post s zip_pre s1 _ _ Hpre Hitem) as Hall.
    rewrite Hpost in Hall.
    eexists. eexists. exists s3.
    split; [apply batch_endpoint_valid; eassumption|]. split; [reflexivity|].
    intros data. destruct (single_not_declared E f s0 Himg) as [e Hsingle].
    rewrite Hsingle. split.
    + intros Hin. exfalso. apply in_app_or in Hin. destruct Hin as [Hin|Hin].
      * exact (Hno_pre data Hin).
      * exact (Hno_post zip_post data Hfrom Hin).
    + intros (answer & sy & Heq & _). discriminate.
Qed.

Lemma batch_agrees_with_single_witness :
  deterministic_removal Stub.stub
  /\ latin1_error (content_disposition Stub.cut) = None
  /\ fits (zip_filename_of 1 (filename Stub.cut)) = true
  /\ exists zip_file response s',
      remove_background_batch Stub.stub ([Stub.notes] ++ Stub.cut :: [Stub.broken])
        Stub.start
      = (inr response, s')
      /\ content response = Zip zip_file
      /\ forall data,
          In (stored_name (zip_filename_of 1 (filename Stub.cut)), data) zip_file
          <-> exists answer s1,
                remove_background_single Stub.stub Stub.cut Stub.after_photo
                = (inr answer, s1)
                /\ content answer = Bytes data.
Proof.
  assert (Hlatin : latin1_error (content_disposition Stub.cut) = None)
    by (vm_compute; reflexivity).
  assert (Hfits : fits (zip_filename_of 1 (filename Stub.cut)) = true)
    by (vm_compute; reflexivity).
  split; [exact stub_removal_deterministic|]. split; [exact Hlatin|].
  split; [exact Hfits|].
  apply (batch_agrees_with_single Stub.stub [Stub.notes] [Stub.broken] Stub.cut
           Stub.start Stub.after_photo stub_removal_deterministic);
    [simpl; lia|exact Hlatin|exact Hfits].
Defined.

(** Where the two part ways.  A file name with a character past U+00FF: the
    batch keeps the processed upload, the single endpoint raises 500 once it
    has processed it, for the header that cannot be encoded.  A file name
    too long for a ZIP header: the single endpoint answers with the image,
    the batch leaves the upload out. *)
Example hanzi_in_batch_and_single :
  exists response,
    fst (remove_background_batch Stub.stub [Stub.hanzi] Stub.start) = inr response
    /\ content response = Zip [("000_中.jpg", [x04; x03; x07])]
    /\ fst (remove_background_single Stub.stub Stub.hanzi Stub.start)
       = inl (HTTPException 500
                ("'latin-1' codec can't encode character '\u4e2d' in position 32: "
                 ++ "ordinal not in range(256)")).
Proof.
  eexists. split; [vm_compute; reflexivity|]. split; [reflexivity|].
  vm_compute. reflexivity.
Qed.

Example lengthy_in_batch_and_single :
  http_status (fst (remove_background_single Stub.stub Stub.lengthy Stub.start)) = 200
  /\ exists response,
      fst (remove_background_batch Stub.stub [Stub.lengthy] Stub.start) = inr response
      /\ content response = Zip [].
Proof.
  split; [vm_compute; reflexivity|].
  eexists. split; [vm_compute; reflexivity|reflexivity].
Qed.

(** Without that assumption they can differ: the second upload of a batch
    meets the model in another state than a single request does. *)
Example moody_batch_differs_from_single :
  exists data answer s1 response s',
    remove_background_batch Stub.moody [Stub.photo; Stub.photo] Stub.start
    = (inr response, s')
    /\ content response = Zip [("000_shirt.jpg", answer); ("001_shirt.jpg", data)]
    /\ fst (remove_background_single Stub.moody Stub.photo Stub.start)
       = inr s1
    /\ content s1 = Bytes answer
    /\ data <> answer.
Proof.
  do 5 eexists. split; [vm_compute; reflexivity|].
  split; [reflexivity|]. split; [vm_compute; reflexivity|].
  split; [reflexivity|]. discriminate.
Qed.

(** X9.  Files added at the end of a batch leave the members made from the
    files before them as they are: the archive of the longer batch starts
    with the archive of the shorter one, and goes on with what the loop
    makes of the added files, numbered from the length of the shorter batch
    and met in the state the shorter batch ends in. *)
Theorem batch_prefix_stable {W} (E : Externals W)
  (pre post : list UploadFile) (s : state W) :
  (1 <= List.length pre)%nat ->
  (List.length (pre ++ post) <= 15)%nat ->
  exists zip_pre zip_post short long s1 s2,
    remove_background_batch E pre s = (inr short, s1)
    /\ content short = Zip zip_pre
    /\ remove_background_batch E (pre ++ post) s = (inr long, s2)
    /\ content long = Zip (zip_pre ++ zip_post)%list
    /\ batch_loop E (List.length pre) post [] s1 = (inr zip_post, s2)
    /\ members_from (List.length pre) post zip_post.
Proof.
  intros Hpre_len Hlen. rewrite length_app in Hlen.
  destruct (batch_loop_members E pre 0%nat [] s) as (zip_pre & s1 & Hpre & _).
  simpl in Hpre.
  destruct (batch_loop_members E post (List.length pre) zip_pre s1)
    as (zip_post & s2 & Hpost & Hfrom).
  destruct (batch_loop_archive E post (List.length pre) zip_pre [] s1)
    as (members & s2' & Hfull & Hempty).
  rewrite Hpost in Hfull. inversion Hfull as [[Heq Hs]]. subst s2'.
  apply app_inv_head in Heq. subst members. simpl in Hempty.
  pose proof (batch_loop_app E pre post 0%nat [] s zip_pre s1 Hpre) as Hall.
  simpl in Hall. rewrite Hpost in Hall.
  exists zip_pre, zip_post. eexists. eexists. exists s1, s2.
  split; [apply batch_endpoint_valid; [lia|exact Hpre]|].
  split; [reflexivity|].
  split; [apply batch_endpoint_valid; [rewrite length_app; lia|exact Hall]|].
  split; [reflexivity|]. split; [exact Hempty|exact Hfrom].
Qed.

Lemma batch_prefix_stable_witness :
  exists zip_pre zip_post short long s1 s2,
    remove_background_batch Stub.stub [Stub.photo; Stub.notes] Stub.start
    = (inr short, s1)
    /\ content short = Zip zip_pre
    /\ remove_background_batch Stub.stub
         ([Stub.photo; Stub.notes] ++ [Stub.cut; Stub.broken]) Stub.start
       = (inr long, s2)
    /\ content long = Zip (zip_pre ++ zip_post)%list
    /\ batch_loop Stub.stub 2 [Stub.cut; Stub.broken] [] s1 = (inr zip_post, s2)
    /\ members_from 2 [Stub.cut; Stub.broken] zip_post.
Proof.
  apply (batch_prefix_stable Stub.stub [Stub.photo; Stub.notes]
           [Stub.cut; Stub.broken] Stub.start); simpl; lia.
Defined.

Section AllProcessed.

Context {W : Type} (E : Externals W).

Lemma batch_loop_all_processed files : forall idx zip_file (s : state W),
  (forall f s0, In f files ->
                declares_image f = true
                /\ exists data s1, process_image E (file f) s0 = (inr data, s1)) ->
  (forall i f, In (i, f) (enumerate_from idx files) ->
               fits (zip_filename_of i (filename f)) = true) ->
  exists members s',
    batch_loop E idx files zip_file s = (inr (zip_file ++ members)%list, s')
    /\ map fst members
       = map (fun p => stored_name (zip_filename_of (fst p) (filename (snd p))))
             (enumerate_from idx files).
Proof.
  induction files as [|f rest IH]; intros idx zip_file s Hall Hfit.
  - exists [], s. simpl. rewrite app_nil_r. auto.
  - destruct (Hall f (record (EvRead f) s) (or_introl eq_refl))
      as (Himg & data & s1 & Hproc).
    pose proof (batch_item_success E idx f zip_file s data s1 Himg Hproc
                  (Hfit idx f (or_introl eq_refl))) as Hitem.
    destruct (IH (S idx)
                (zip_file ++ [(stored_name (zip_filename_of idx (filename f)), data)])%list
                (record (EvWritestr (zip_filename_of idx (filename f)) data) s1))
      as (members & s' & Hrest & Hnames).
    { intros g s0 Hin. apply Hall. right. exact Hin. }
    { intros i g Hin. apply Hfit. right. exact Hin. }
    exists ((stored_name (zip_filename_of idx (filename f)), data) :: members), s'.
    rewrite (batch_loop_cons E _ _ _ _ _ _ _ Hitem), Hrest, <- app_assoc.
    split; [reflexivity|]. simpl. rewrite Hnames. reflexivity.
Qed.

End AllProcessed.

(** X10.  When every upload of a batch of 1 to 15 files declares an image
    type and is processed, and the names made from the positions 0, 1, 2,
    ... of the uploads fit a ZIP header, the archive has one member per
    upload, in the order of the list, under those names as far as their
    first NUL. *)
Theorem batch_of_images_has_all_members {W} (E : Externals W)
  (files : list UploadFile) (s : state W) :
  (1 <= List.length files <= 15)%nat ->
  (forall f s0, In f files ->
                declares_image f = true
                /\ exists data s1, process_image E (file f) s0 = (inr data, s1)) ->
  (forall i f, In (i, f) (enumerate_from 0 files) ->
               fits (zip_filename_of i (filename f)) = true) ->
  exists zip_file response s',
    remove_background_batch E files s = (inr response, s')
    /\ content response = Zip zip_file
    /\ List.length zip_file = List.length files
    /\ map fst zip_file
       = map (fun p => stored_name (zip_filename_of (fst p) (filename (snd p))))
             (enumerate_from 0 files).
Proof.
  intros Hlen Hall Hfit.
  destruct (batch_loop_all_processed E files 0%nat [] s Hall Hfit)
    as (members & s' & Hloop & Hnames).
  simpl in Hloop. exists members. eexists. exists s'.
  split; [apply batch_endpoint_valid; eassumption|]. split; [reflexivity|].
  split; [|exact Hnames].
  rewrite <- (length_map fst members), Hnames, length_map.
  clear. generalize 0%nat. induction files as [|f rest IH]; intros n; simpl;
    [reflexivity|rewrite IH; reflexivity].
Qed.

Lemma batch_of_images_has_all_members_witness :
  exists zip_file response s',
    remove_background_batch Stub.stub [Stub.photo; Stub.cut] Stub.start
    = (inr response, s')
    /\ content response = Zip zip_file
    /\ List.length zip_file = List.length [Stub.photo; Stub.cut]
    /\ map fst zip_file
       = map (fun p => stored_name (zip_filename_of (fst p) (filename (snd p))))
             (enumerate_from 0 [Stub.photo; Stub.cut]).
Proof.
  apply (batch_of_images_has_all_members Stub.stub [Stub.photo; Stub.cut] Stub.start).
  - simpl. lia.
  - intros f s0 [<-|[<-|[]]]; (split; [reflexivity|]);
      eexists; eexists; reflexivity.
  - intros i f [H|[H|[]]]; inversion H; subst; vm_compute; reflexivity.
Defined.

(** ** The single-image endpoint: every outcome *)

(** X11.  The handler of the single endpoint returns a response of status
    200 or raises an [HTTPException] of status 400 or 500, and nothing else:
    400 exactly when a content type is declared that does not start with
    image/; 200 exactly when an image type is declared, [process_image]
    returns and the Content-Disposition value, which carries the file name,
    encodes as Latin-1, and then the body is what [process_image] returned,
    as image/jpeg, under the file name "processed_" followed by the name of
    the upload; 500 in the cases left: a missing content type, a failure of
    [process_image], or a file name that does not encode, which is found
    only after the upload has been processed. *)
Theorem single_endpoint_outcomes {W} (E : Externals W) (f : UploadFile) (s : state W) :
  (http_status (fst (remove_background_single E f s)) = 400
   <-> exists ct, content_type f = Some ct /\ startswith ct "image/" = false)
  /\ (http_status (fst (remove_background_single E f s)) = 200
      <-> declares_image f = true
          /\ (exists out s',
                 process_image E (file f) (record (EvRead f) s) = (inr out, s'))
          /\ latin1_error (content_disposition f) = None)
  /\ (http_status (fst (remove_background_single E f s)) = 500
      <-> content_type f = None
          \/ (declares_image f = true
              /\ ((exists e s',
                      process_image E (file f) (record (EvRead f) s) = (inl e, s'))
                  \/ exists msg, latin1_error (content_disposition f) = Some msg)))
  /\ (forall out s',
         declares_image f = true ->
         process_image E (file f) (record (EvRead f) s) = (inr out, s') ->
         (latin1_error (content_disposition f) = None ->
          remove_background_single E f s
          = (inr {| content := Bytes out;
                    status_code := 200;
                    media_type := "image/jpeg";
                    headers := [("Content-Disposition",
                                 "attachment; filename=" ++ dquote ++ "processed_"
                                 ++ filename f ++ dquote)] |}, s'))
         /\ (forall msg,
                latin1_error (content_disposition f) = Some msg ->
                remove_background_single E f s = (inl (HTTPException 500 msg), s')))
  /\ (http_status (fst (remove_background_single E f s)) = 200
      \/ http_status (fst (remove_background_single E f s)) = 400
      \/ http_status (fst (remove_background_single E f s)) = 500).
Proof.
  destruct (content_type f) as [ct|] eqn:Hct.
  - destruct (startswith ct "image/") eqn:Hprefix.
    + assert (Himg : declares_image f = true)
        by (unfold declares_image; rewrite Hct; exact Hprefix).
      destruct (single_declared E f s Himg)
        as [(out & s' & Hp & Hsingle)|(msg & s' & Hp & Hsingle)];
        rewrite Hsingle, Hp; [destruct (latin1_error (content_disposition f)) as [bad|]|];
        simpl; (split; [|split; [|split; [|split]]]).
      * split; [discriminate|]. intros (ct' & Heq & Hno). congruence.
      * split; [discriminate|]. intros (_ & _ & Hno). discriminate.
      * split; [intros _; right; split; [exact Himg|right; eauto]|reflexivity].
      * intros out' sx _ Heq. invert_results.
        split; [discriminate|]. intros msg Hmsg. inversion Hmsg. reflexivity.
      * right. right. reflexivity.
      * split; [discriminate|]. intros (ct' & Heq & Hno). congruence.
      * split; [intros _; split; [exact Himg|split; [eauto|reflexivity]]|reflexivity].
      * split; [discriminate|].
        intros [Hnone|(_ & [(e & sx & Heq)|(msg & Hmsg)])]; discriminate.
      * intros out' sx _ Heq. invert_results.
        split; [reflexivity|]. intros msg Hmsg. discriminate.
      * left. reflexivity.
      * split; [discriminate|]. intros (ct' & Heq & Hno). congruence.
      * split; [discriminate|]. intros (_ & (out & sx & Heq) & _). discriminate.
      * split; [intros _; right; split; [exact Himg|left; eauto]|reflexivity].
      * intros out' sx _ Heq. discriminate.
      * right. right. reflexivity.
    + assert (Himg : declares_image f = false)
        by (unfold declares_image; rewrite Hct; exact Hprefix).
      rewrite (single_not_declared_image E f s ct Hct Hprefix). simpl.
      rewrite Himg. split; [|split; [|split; [|split]]].
      * split; [intros _; exists ct; auto|reflexivity].
      * split; [discriminate|]. intros (Hno & _). discriminate.
      * split; [discriminate|]. intros [Hnone|(Hno & _)]; discriminate.
      * intros out' sx Hno. discriminate.
      * right. left. reflexivity.
  - assert (Himg : declares_image f = false)
      by (unfold declares_image; rewrite Hct; reflexivity).
    rewrite (single_no_content_type E f s Hct). simpl. rewrite Himg.
    split; [|split; [|split; [|split]]].
    + split; [discriminate|]. intros (ct & Heq & _). discriminate.
    + split; [discriminate|]. intros (Hno & _). discriminate.
    + split; [intros _; left; reflexivity|reflexivity].
    + intros out' sx Hno. discriminate.
    + right. right. reflexivity.
Qed.

(** A file name of plain ASCII always encodes. *)
Lemma ascii_code_points a :
  forallb (fun c => (N_of_ascii c <? 128)%N) (list_ascii_of_string a) = true ->
  forall pos, latin1_error_at pos (code_points a) = None.
Proof.
  induction a as [|c a IH]; intros Hall pos; [reflexivity|].
  simpl in Hall. apply andb_true_iff in Hall. destruct Hall as [Hc Ha].
  apply N.ltb_lt in Hc. simpl.
  destruct (N.ltb_spec (N_of_ascii c) 192) as [_|Hge]; [|lia].
  simpl. destruct (N.ltb_spec (N_of_ascii c) 256) as [_|Hge]; [|lia].
  apply IH, Ha.
Qed.

Lemma ascii_name_encodes f :
  forallb (fun c => (N_of_ascii c <? 128)%N) (list_ascii_of_string (filename f)) = true ->
  latin1_error (content_disposition f) = None.
Proof.
  intros Hname. apply ascii_code_points.
  unfold content_disposition, dquote.
  assert (Happ : forall a b,
            list_ascii_of_string (a ++ b)
            = (list_ascii_of_string a ++ list_ascii_of_string b)%list).
  { intros a b. induction a as [|x a IH]; simpl; [reflexivity|rewrite IH; reflexivity]. }
  rewrite !Happ, !forallb_app, Hname. reflexivity.
Qed.

(** X12.  An upload whose part carries no Content-Type header: the single
    endpoint answers 500 with the text of the [AttributeError] and does not
    read the upload; the batch loop passes over it, reads nothing and
    leaves the archive as it is. *)
Theorem missing_content_type {W} (E : Externals W)
  (f : UploadFile) (s : state W) (idx : nat) (zip_file : ZipFile) :
  content_type f = None ->
  remove_background_single E f s
  = (inl (HTTPException 500 "'NoneType' object has no attribute 'startswith'"), s)
  /\ batch_item E idx f zip_file s = (inr zip_file, s).
Proof.
  intros Hct. split; [apply single_no_content_type, Hct|].
  apply batch_item_not_declared. unfold declares_image. rewrite Hct. reflexivity.
Qed.

Lemma missing_content_type_witness :
  remove_background_single Stub.stub Stub.untyped Stub.start
  = (inl (HTTPException 500 "'NoneType' object has no attribute 'startswith'"),
     Stub.start)
  /\ batch_item Stub.stub 3 Stub.untyped Stub.zip_photo Stub.start
     = (inr Stub.zip_photo, Stub.start).
Proof.
  apply (missing_content_type Stub.stub Stub.untyped Stub.start 3 Stub.zip_photo).
  reflexivity.
Defined.

(** ** The pipeline: what a success is made of *)

(** X13.  [process_image] returns [out] exactly when the library calls
    succeed in a chain: the bytes decode; the decoded image converts to
    RGBA or RGB by its mode; the converted image is kept when at most 1024
    wide and resampled to (1024, new height) otherwise; the removal model
    answers on that image; a canvas of the answer's size is made in RGBA
    with the colour (248, 249, 250, 255); the answer is pasted on the canvas
    at (0, 0) with itself as mask; the pasted canvas converts to RGB; and
    the encoder, asked for JPEG at quality 90 with optimisation, gives
    [out]. *)
Theorem process_image_success_chain {W} (E : Externals W)
  (image_bytes out : bytes) (s : state W) :
  (exists s', process_image E image_bytes s = (inr out, s'))
  <-> exists decoded_image normalized_image resized_image output_image
             canvas pasted final_image,
        Image_open E image_bytes = inr decoded_image
        /\ convert E decoded_image
             (if mode_in (mode decoded_image) ["RGBA"; "LA"; "P"]
              then "RGBA" else "RGB")
           = inr normalized_image
        /\ ((width normalized_image <= 1024 /\ resized_image = normalized_image)
            \/ (1024 < width normalized_image
                /\ exists new_height,
                    new_height_of normalized_image = inr new_height
                    /\ resize E normalized_image (1024, new_height)
                       = inr resized_image))
        /\ fst (remove E resized_image (world s)) = inr output_image
        /\ Image_new E "RGBA" (size output_image) (248, 249, 250, 255) = inr canvas
        /\ paste E canvas output_image (0, 0) output_image = inr pasted
        /\ convert E pasted "RGB" = inr final_image
        /\ save E final_image "JPEG" 90 true = inr out.
Proof.
  split.
  - intros [s' Hrun].
    assert (Hbody : process_image_body E image_bytes s = (inr out, s')).
    { destruct (process_image_cases E image_bytes s)
        as [(out' & s1 & Hb & Hp)|(msg & s1 & Hb & Hp)];
        rewrite Hp in Hrun; invert_results. exact Hb. }
    apply body_returns_iff in Hbody.
    destruct Hbody as (i4 & s4 & (i3 & s3 & (i2 & s2 & (i1 & s1 & (i0 & s0 & Hdec & Hnorm)
                       & Hopt) & Hrem) & Hcomp) & Henc).
    pose proof (quiet_decode E _ _ _ _ Hdec) as [Hw0 _].
    pose proof (quiet_normalize E _ _ _ _ Hnorm) as [Hw1 _].
    pose proof (quiet_optimize_image E _ _ _ _ Hopt) as [Hw2 _].
    unfold decoded, decode in Hdec. apply call_returns in Hdec. destruct Hdec as [Hopen _].
    exists i0, i1, i2, i3.
    unfold composite, bind in Hcomp.
    destruct (call (EvNew "RGBA" (size i3))
                (Image_new E "RGBA" (size i3) BACKGROUND_COLOR) s3)
      as [[e|canvas] s3'] eqn:Hnew; [discriminate|].
    apply call_returns in Hnew. destruct Hnew as [Hnew _].
    apply call_returns in Hcomp. destruct Hcomp as [Hpaste _].
    unfold encode, bind in Henc.
    destruct (call (EvConvert i4 "RGB") (convert E i4 "RGB") s4)
      as [[e|final_image] s4'] eqn:Hconv; [discriminate|].
    apply call_returns in Hconv. destruct Hconv as [Hconv _].
    apply call_returns in Henc. destruct Henc as [Hsave _].
    exists canvas, i4, final_image.
    split; [exact Hopen|]. split.
    { unfold normalize in Hnorm.
      destruct (mode_in (mode i0) ["RGBA"; "LA"; "P"]);
        apply call_returns in Hnorm; tauto. }
    split.
    { unfold optimize_image, MAX_IMAGE_WIDTH in Hopt.
      destruct (Z.ltb_spec 1024 (width i1)) as [Hwide|Hsmall].
      - right. split; [exact Hwide|].
        destruct (new_height_of i1) as [msg|nh]; [discriminate|].
        apply call_returns in Hopt. exists nh. tauto.
      - left. unfold ret in Hopt. invert_results. auto. }
    split.
    { unfold call_remove in Hrem. rewrite Hw2, Hw1, Hw0 in Hrem.
      destruct (remove E i2 (world s)) as [[msg|i3'] w']; invert_results.
      reflexivity. }
    auto.
  - intros (i0 & i1 & i2 & i3 & canvas & i4 & final_image
            & Hopen & Hnorm & Hopt & Hrem & Hnew & Hpaste & Hconv & Hsave).
    unfold process_image, try_except, process_image_body, bind, call, ret.
    rewrite Hopen. simpl.
    assert (Hn : exists s1, normalize E i0 (record (EvOpen image_bytes) s) = (inr i1, s1)
                            /\ world s1 = world s).
    { unfold normalize, call.
      destruct (mode_in (mode i0) ["RGBA"; "LA"; "P"]); rewrite Hnorm;
        eexists; split; reflexivity. }
    destruct Hn as (s1 & Hn & Hw1). rewrite Hn.
    assert (Ho : exists s2, optimize_image E i1 s1 = (inr i2, s2) /\ world s2 = world s).
    { destruct Hopt as [[Hsmall ->]|(Hwide & nh & Hnh & Hres)].
      - exists s1. split; [apply optimize_image_small; exact Hsmall|exact Hw1].
      - eexists. rewrite (optimize_image_large E i1 s1 nh Hwide Hnh).
        unfold call, MAX_IMAGE_WIDTH. rewrite Hres. split; [reflexivity|exact Hw1]. }
    destruct Ho as (s2 & Ho & Hw2). rewrite Ho.
    unfold call_remove. rewrite Hw2.
    destruct (remove E i2 (world s)) as [r w']. simpl in Hrem. subst r.
    unfold BACKGROUND_COLOR. rewrite Hnew. simpl. rewrite Hpaste. simpl.
    rewrite Hconv. simpl. rewrite Hsave. eexists. reflexivity.
Qed.

(** ** The GET handlers *)

(** X14.  The paths [root] lists under "endpoints" are the paths of the
    routes registered for POST, neither more nor fewer, in whatever state
    it is called; and it leaves the state as it is. *)
Theorem root_lists_the_post_routes {W} (s : state W) (path : string) :
  (exists payload,
      root s = (inr payload, s) /\ In path (advertised payload))
  <-> exists handler, In (POST, path, handler) routes.
Proof.
  unfold root, ret, routes. split.
  - intros (payload & Heq & Hin). invert_results.
    unfold advertised in Hin. simpl in Hin.
    destruct Hin as [<-|[<-|[]]]; eexists; simpl; eauto.
  - intros (handler & Hin). eexists. split; [reflexivity|].
    unfold advertised. simpl.
    simpl in Hin. destruct Hin as [H|[H|[H|[H|[]]]]]; inversion H; subst; auto.
Qed.

(** ** The single-image endpoint: what it touches *)

(** X15.  The single endpoint reads the upload once when it declares an
    image type and not at all otherwise; it writes no archive member, and
    runs the removal model at most once. *)
Theorem single_endpoint_reads_once {W} (E : Externals W) (f : UploadFile) (s : state W) :
  exists evs,
    trace (snd (remove_background_single E f s)) = (trace s ++ evs)%list
    /\ reads_of evs = (if declares_image f then [f] else [])
    /\ writes_of evs = []
    /\ (List.length (removals_of evs) <= 1)%nat
    /\ (declares_image f = false -> evs = []).
Proof.
  destruct (declares_image f) eqn:Himg.
  - destruct (process_image_effect E (file f) (record (EvRead f) s))
      as (evp & Ht & Hr & Hz & Hm).
    assert (Hlen : (List.length (removals_of evp) <= 1)%nat).
    { destruct Hm as [(i & s0 & _ & -> & _)|(_ & -> & _)]; simpl; lia. }
    exists (EvRead f :: evp).
    assert (Hstate : snd (remove_background_single E f s)
                     = snd (process_image E (file f) (record (EvRead f) s))).
    { destruct (single_declared E f s Himg)
        as [(out & s' & Hp & Hsingle)|(msg & s' & Hp & Hsingle)];
        rewrite Hsingle, Hp; reflexivity. }
    rewrite Hstate, Ht. simpl. rewrite <- app_assoc, Hr, Hz.
    repeat split; auto. discriminate.
  - exists []. destruct (single_not_declared E f s Himg) as [e Hsingle].
    rewrite Hsingle. simpl. rewrite app_nil_r. repeat split; auto.
Qed.
